(** * Marketing dashboard: the live-data pipeline and its metric derivers

    A shallow embedding of the data-aggregation pipeline of the dashboard:
    - [src/api/ask-gemini.js], second module ([api/get-live-data.js]): the
      two source adapters, [getDateArray], [calculateMetric],
      [calculateAllDerivedMetrics] and the request [handler];
    - [src/utils/dataCalculations.ts]: the frontend's [calculateMetric],
      [calculateAllMetrics] and [processApiData];
    - the record types of [types.ts];
    - [src/api/ask-gemini.js], first module: the chat endpoint's [handler];
    - [services/marketingDataService.ts], [App.tsx],
      [components/ChatAssistant.tsx] and [components/DataTable.tsx]: the
      data service, the dashboard's load state, the chat history and the
      table's sort.

    JavaScript numbers are IEEE 754 binary64 values and are embedded as Rocq's
    primitive floats, so [/], [*], [===] and [isNaN] are the operations the
    code runs.  [Date] objects are embedded as their time value (milliseconds
    since the epoch, an integer, or no value for an Invalid Date) with the
    day, year, month and local-time arithmetic of ECMA-262 (section
    "Date Objects") written out; the host's time zone and the readings of the
    clock are parameters.  Objects used as dictionaries are finite maps keyed
    by strings.  An [async] function is the tree of its awaits, run against
    an arbitrary upstream service.

    Left out: console logging, response headers, the serialisation of the
    response body by [JSON.stringify], the rendering of the components, and
    the locale-dependent formatting of [utils/formatting.ts]. *)

From Stdlib Require Import ZArith Floats Lia List String Ascii Bool
  DecimalString DecimalPos DecimalZ.
From stdpp Require Import gmap strings list.

Local Open Scope Z_scope.

(** ** Record types ([types.ts]) *)

Module Types.

(** [RawMarketingDataEntry]; the backend's [baseMetricsEntry] object has the
    same nine fields. *)
Record RawMarketingDataEntry := {
  date : string;
  fbClicks : float;
  fbImpr : float;
  fbCost : float;
  fbConv : float;
  ttClicks : float;
  ttImpr : float;
  ttCost : float;
  ttConv : float
}.

(** [CalculatedMetrics]. *)
Record CalculatedMetrics := {
  fbCtr : float;
  fbCpm : float;
  fbCpc : float;
  fbCpa : float;
  fbCvr : float;
  ttCtr : float;
  ttCpm : float;
  ttCpc : float;
  ttCpa : float;
  ttCvr : float
}.

(** [ProcessedMarketingDataEntry extends RawMarketingDataEntry,
    CalculatedMetrics]: the object [{...entry, ...metrics}]. *)
Record ProcessedMarketingDataEntry := {
  raw : RawMarketingDataEntry;
  calculated : CalculatedMetrics
}.

End Types.
Export Types.

(** ** JavaScript numbers *)

Module JsNumber.

(** [isNaN(x)] on a number. *)
Definition isNaN (x : float) : bool := PrimFloat.is_nan x.

(** [x === y] on numbers: IEEE equality ([-0 === 0], [NaN !== NaN]). *)
Definition strict_eq (x y : float) : bool := PrimFloat.eqb x y.

(** A number that is neither NaN nor an infinity. *)
Definition isFinite (x : float) : bool := PrimFloat.is_finite x.

End JsNumber.
Export JsNumber.

(** ** The backend deriver ([api/get-live-data.js]) *)

Module Api.

(** [calculateMetric(numerator, denominator, multiplier = 1)]. *)
Definition calculateMetric (numerator denominator multiplier : float) : float :=
  if strict_eq denominator 0 || isNaN numerator || isNaN denominator
  then 0%float
  else ((numerator / denominator) * multiplier)%float.

(** [calculateAllDerivedMetrics(baseEntry)]; the two-argument calls take the
    default multiplier 1. *)
Definition calculateAllDerivedMetrics (baseEntry : RawMarketingDataEntry)
  : CalculatedMetrics :=
  {| fbCtr := calculateMetric (fbClicks baseEntry) (fbImpr baseEntry) 100;
     fbCpm := calculateMetric (fbCost baseEntry) (fbImpr baseEntry) 1000;
     fbCpc := calculateMetric (fbCost baseEntry) (fbClicks baseEntry) 1;
     fbCpa := calculateMetric (fbCost baseEntry) (fbConv baseEntry) 1;
     fbCvr := calculateMetric (fbConv baseEntry) (fbClicks baseEntry) 100;
     ttCtr := calculateMetric (ttClicks baseEntry) (ttImpr baseEntry) 100;
     ttCpm := calculateMetric (ttCost baseEntry) (ttImpr baseEntry) 1000;
     ttCpc := calculateMetric (ttCost baseEntry) (ttClicks baseEntry) 1;
     ttCpa := calculateMetric (ttCost baseEntry) (ttConv baseEntry) 1;
     ttCvr := calculateMetric (ttConv baseEntry) (ttClicks baseEntry) 100 |}.

End Api.

(** ** The frontend deriver ([src/utils/dataCalculations.ts]) *)

Module DataCalculations.

(** [calculateMetric(numerator, denominator, multiplier = 1)]: only the
    denominator is tested. *)
Definition calculateMetric (numerator denominator multiplier : float) : float :=
  if strict_eq denominator 0 then 0%float
  else ((numerator / denominator) * multiplier)%float.

(** [calculateAllMetrics(entry)]. *)
Definition calculateAllMetrics (entry : RawMarketingDataEntry)
  : CalculatedMetrics :=
  let fbCtr := calculateMetric (fbClicks entry) (fbImpr entry) 100 in
  let fbCpm := calculateMetric (fbCost entry) (fbImpr entry) 1000 in
  let fbCpc := calculateMetric (fbCost entry) (fbClicks entry) 1 in
  let fbCpa := calculateMetric (fbCost entry) (fbConv entry) 1 in
  let fbCvr := calculateMetric (fbConv entry) (fbClicks entry) 100 in
  let ttCtr := calculateMetric (ttClicks entry) (ttImpr entry) 100 in
  let ttCpm := calculateMetric (ttCost entry) (ttImpr entry) 1000 in
  let ttCpc := calculateMetric (ttCost entry) (ttClicks entry) 1 in
  let ttCpa := calculateMetric (ttCost entry) (ttConv entry) 1 in
  let ttCvr := calculateMetric (ttConv entry) (ttClicks entry) 100 in
  {| fbCtr := fbCtr; fbCpm := fbCpm; fbCpc := fbCpc; fbCpa := fbCpa;
     fbCvr := fbCvr; ttCtr := ttCtr; ttCpm := ttCpm; ttCpc := ttCpc;
     ttCpa := ttCpa; ttCvr := ttCvr |}.

(** [processApiData(rawData)]. *)
Definition processApiData (rawData : list RawMarketingDataEntry)
  : list ProcessedMarketingDataEntry :=
  map (fun entry =>
         let calculatedMetrics := calculateAllMetrics entry in
         {| raw := entry; calculated := calculatedMetrics |})
      rawData.

End DataCalculations.

(** ** The ratio table of the specification (section 4.2)

    The specification names each derived metric by a platform and a ratio
    kind and gives its numerator, denominator and multiplier.  These
    definitions follow the specification's table; the theorems compare the
    two derivers of the source with them. *)

Module RatioTable.

Inductive Platform := Facebook | TikTok.

Inductive RatioKind := CTR | CPM | CPC | CPA | CVR.

(** The specification's [BaseMetrics]: the four counters of one platform. *)
Record BaseMetrics := {
  clicks : float;
  impressions : float;
  cost : float;
  conversions : float
}.

Definition base (p : Platform) (e : RawMarketingDataEntry) : BaseMetrics :=
  match p with
  | Facebook => {| clicks := fbClicks e; impressions := fbImpr e;
                   cost := fbCost e; conversions := fbConv e |}
  | TikTok => {| clicks := ttClicks e; impressions := ttImpr e;
                 cost := ttCost e; conversions := ttConv e |}
  end.

Definition numerator (k : RatioKind) (b : BaseMetrics) : float :=
  match k with
  | CTR => clicks b
  | CPM => cost b
  | CPC => cost b
  | CPA => cost b
  | CVR => conversions b
  end.

Definition denominator (k : RatioKind) (b : BaseMetrics) : float :=
  match k with
  | CTR => impressions b
  | CPM => impressions b
  | CPC => clicks b
  | CPA => conversions b
  | CVR => clicks b
  end.

Definition multiplier (k : RatioKind) : float :=
  match k with
  | CTR => 100
  | CPM => 1000
  | CPC => 1
  | CPA => 1
  | CVR => 100
  end%float.

(** The field of [CalculatedMetrics] that holds a given ratio. *)
Definition derived (p : Platform) (k : RatioKind) (m : CalculatedMetrics)
  : float :=
  match p, k with
  | Facebook, CTR => fbCtr m
  | Facebook, CPM => fbCpm m
  | Facebook, CPC => fbCpc m
  | Facebook, CPA => fbCpa m
  | Facebook, CVR => fbCvr m
  | TikTok, CTR => ttCtr m
  | TikTok, CPM => ttCpm m
  | TikTok, CPC => ttCpc m
  | TikTok, CPA => ttCpa m
  | TikTok, CVR => ttCvr m
  end.

(** The ratio of the specification: [(numerator / denominator) * multiplier],
    and exactly 0 when the denominator is 0 or the numerator or denominator
    is not a number.  Written from the specification's words (section 4.2),
    to be compared with the derivers of the source. *)
Definition spec_ratio (k : RatioKind) (b : BaseMetrics) : float :=
  if isNaN (numerator k b) || isNaN (denominator k b)
     || strict_eq (denominator k b) 0
  then 0%float
  else ((numerator k b / denominator k b) * multiplier k)%float.

(** An entry whose counters for both platforms are the given [BaseMetrics]. *)
Definition entry_of (d : string) (fb tt : BaseMetrics) : RawMarketingDataEntry :=
  {| date := d;
     fbClicks := clicks fb; fbImpr := impressions fb;
     fbCost := cost fb; fbConv := conversions fb;
     ttClicks := clicks tt; ttImpr := impressions tt;
     ttCost := cost tt; ttConv := conversions tt |}.

End RatioTable.
Export RatioTable.


(** ** Vocabulary of the deriver theorems *)

(** The eight base counters of an entry are numbers other than NaN. *)
Definition counters_not_NaN (e : RawMarketingDataEntry) : bool :=
  negb (isNaN (fbClicks e)) && negb (isNaN (fbImpr e))
  && negb (isNaN (fbCost e)) && negb (isNaN (fbConv e))
  && negb (isNaN (ttClicks e)) && negb (isNaN (ttImpr e))
  && negb (isNaN (ttCost e)) && negb (isNaN (ttConv e)).

(** The specification's example, [{clicks: 50, impressions: 1000, cost: 25.0,
    conversions: 5}]. *)
Definition example_base : BaseMetrics :=
  {| clicks := 50; impressions := 1000; cost := 25; conversions := 5 |}.

Definition zero_base : BaseMetrics :=
  {| clicks := 0; impressions := 0; cost := 0; conversions := 0 |}.

(** An entry whose Facebook click counter is NaN (what [parseInt] returns
    for text with no leading digits) while the impressions are 1000. *)
Definition nan_clicks_entry : RawMarketingDataEntry :=
  entry_of "2024-01-01"
    {| clicks := nan; impressions := 1000; cost := 25; conversions := 5 |}
    zero_base.

(** An entry of finite counters: a cost of 2^1023 (about 9e307) on one
    impression. *)
Definition huge_cost_entry : RawMarketingDataEntry :=
  entry_of "2024-01-01"
    {| clicks := 1; impressions := 1; cost := 0x1p1023; conversions := 1 |}
    zero_base.

(** ** JavaScript [Date] (ECMA-262, "Date Objects")

    A valid Date holds a time value, an integer number of milliseconds since
    1970-01-01T00:00:00Z; an Invalid Date holds NaN and is [None] here.  The
    abstract operations keep their ECMA-262 names. *)

Module JsDate.

Definition msPerSecond : Z := 1000.
Definition msPerMinute : Z := 60000.
Definition msPerHour : Z := 3600000.
Definition msPerDay : Z := 86400000.

Definition Day (t : Z) : Z := t / msPerDay.
Definition TimeWithinDay (t : Z) : Z := t mod msPerDay.

Definition DaysInYear (y : Z) : Z :=
  if negb (y mod 4 =? 0) then 365
  else if negb (y mod 100 =? 0) then 366
  else if negb (y mod 400 =? 0) then 365
  else 366.

Definition DayFromYear (y : Z) : Z :=
  365 * (y - 1970) + (y - 1969) / 4 - (y - 1901) / 100 + (y - 1601) / 400.

Definition TimeFromYear (y : Z) : Z := msPerDay * DayFromYear y.

(** ECMA-262 defines [YearFromTime(t)] as the largest integer [y] with
    [TimeFromYear(y) <= t].  It is computed here from the mean year length
    (146097 days in 400 years), corrected by at most one year;
    [YearFromDay_spec] below shows that this is the year of the definition. *)
Definition YearFromDay (d : Z) : Z :=
  let g := 1970 + (400 * d) / 146097 in
  if d <? DayFromYear g then g - 1
  else if DayFromYear (g + 1) <=? d then g + 1
  else g.

Definition YearFromTime (t : Z) : Z := YearFromDay (Day t).

Definition InLeapYear (t : Z) : Z :=
  if DaysInYear (YearFromTime t) =? 365 then 0 else 1.

Definition DayWithinYear (t : Z) : Z := Day t - DayFromYear (YearFromTime t).

Definition MonthFromTime (t : Z) : Z :=
  let d := DayWithinYear t in
  let l := InLeapYear t in
  if d <? 31 then 0
  else if d <? 59 + l then 1
  else if d <? 90 + l then 2
  else if d <? 120 + l then 3
  else if d <? 151 + l then 4
  else if d <? 181 + l then 5
  else if d <? 212 + l then 6
  else if d <? 243 + l then 7
  else if d <? 273 + l then 8
  else if d <? 304 + l then 9
  else if d <? 334 + l then 10
  else 11.

Definition DateFromTime (t : Z) : Z :=
  let d := DayWithinYear t in
  let l := InLeapYear t in
  match MonthFromTime t with
  | 0 => d + 1
  | 1 => d - 30
  | 2 => d - 58 - l
  | 3 => d - 89 - l
  | 4 => d - 119 - l
  | 5 => d - 150 - l
  | 6 => d - 180 - l
  | 7 => d - 211 - l
  | 8 => d - 242 - l
  | 9 => d - 272 - l
  | 10 => d - 303 - l
  | _ => d - 333 - l
  end.

Definition HourFromTime (t : Z) : Z := (t / msPerHour) mod 24.
Definition MinFromTime (t : Z) : Z := (t / msPerMinute) mod 60.
Definition SecFromTime (t : Z) : Z := (t / msPerSecond) mod 60.
Definition msFromTime (t : Z) : Z := t mod msPerSecond.

(** Days of the year [y] that precede its month [mn] (0 = January). *)
Definition DaysBeforeMonth (y mn : Z) : Z :=
  let l := if DaysInYear y =? 365 then 0 else 1 in
  match mn with
  | 0 => 0
  | 1 => 31
  | 2 => 59 + l
  | 3 => 90 + l
  | 4 => 120 + l
  | 5 => 151 + l
  | 6 => 181 + l
  | 7 => 212 + l
  | 8 => 243 + l
  | 9 => 273 + l
  | 10 => 304 + l
  | _ => 334 + l
  end.

(** [MakeDay(year, month, date)]: the day number of the first of the month
    [mn] of the year [ym], plus [date - 1]. *)
Definition MakeDay (year month dt : Z) : Z :=
  let ym := year + month / 12 in
  let mn := month mod 12 in
  DayFromYear ym + DaysBeforeMonth ym mn + dt - 1.

Definition MakeTime (hour min sec ms : Z) : Z :=
  hour * msPerHour + min * msPerMinute + sec * msPerSecond + ms.

Definition MakeDate (day time : Z) : Z := day * msPerDay + time.

(** [TimeClip]: a time value beyond 8.64e15 ms from the epoch is NaN. *)
Definition TimeClip (time : Z) : option Z :=
  if Z.abs time <=? 8640000000000000 then Some time else None.

(** *** The host's time zone

    [LocalTZA(t, isUTC)] is implementation-defined in ECMA-262: the offset of
    local time from UTC in milliseconds, at the UTC instant [t] when [isUTC]
    is true and at the local time [t] otherwise. *)
Record HostZone := { LocalTZA : Z -> bool -> Z }.

Definition LocalTime (tz : HostZone) (t : Z) : Z := t + LocalTZA tz t true.
Definition UTC (tz : HostZone) (t : Z) : Z := t - LocalTZA tz t false.

(** [date.getDate()] of a valid Date: the day of the month in local time. *)
Definition getDate (tz : HostZone) (t : Z) : Z := DateFromTime (LocalTime tz t).

(** [date.setDate(dt)] on a valid Date: the new time value, in local time the
    same month and time of day with the day of the month [dt] (days outside
    the month carry into the neighbouring months). *)
Definition setDate (tz : HostZone) (t : Z) (dt : Z) : option Z :=
  let t' := LocalTime tz t in
  let newDate :=
    MakeDate (MakeDay (YearFromTime t') (MonthFromTime t') dt)
             (TimeWithinDay t') in
  TimeClip (UTC tz newDate).

(** *** Text of a date *)

Definition digit_char (k : Z) : ascii := ascii_of_N (Z.to_N (48 + k)).

Definition digit_of (c : ascii) : option Z :=
  let n := Z.of_N (N_of_ascii c) in
  if (48 <=? n) && (n <=? 57) then Some (n - 48) else None.

Definition pad2 (n : Z) (rest : string) : string :=
  String (digit_char (n / 10 mod 10)) (String (digit_char (n mod 10)) rest).

Definition pad3 (n : Z) (rest : string) : string :=
  String (digit_char (n / 100 mod 10)) (pad2 n rest).

Definition pad4 (n : Z) (rest : string) : string :=
  String (digit_char (n / 1000 mod 10)) (pad3 n rest).

Definition pad6 (n : Z) (rest : string) : string :=
  String (digit_char (n / 100000 mod 10))
    (String (digit_char (n / 10000 mod 10)) (pad4 n rest)).

(** The year of an ISO date: four digits for the years 0 to 9999, a sign and
    six digits otherwise. *)
Definition iso_year (y : Z) (rest : string) : string :=
  if (0 <=? y) && (y <=? 9999) then pad4 y rest
  else String (if y <? 0 then "-"%char else "+"%char) (pad6 (Z.abs y) rest).

(** [date.toISOString()] of a valid Date:
    [YYYY-MM-DDTHH:mm:ss.sssZ] in UTC. *)
Definition toISOString (t : Z) : string :=
  iso_year (YearFromTime t)
    (String "-" (pad2 (MonthFromTime t + 1)
      (String "-" (pad2 (DateFromTime t)
        (String "T" (pad2 (HourFromTime t)
          (String ":" (pad2 (MinFromTime t)
            (String ":" (pad2 (SecFromTime t)
              (String "." (pad3 (msFromTime t) "Z")))))))))))).

(** [s.split('T')[0]]: the text before the first [T]. *)
Fixpoint split_T_head (s : string) : string :=
  match s with
  | EmptyString => EmptyString
  | String c rest =>
      if Ascii.eqb c "T" then EmptyString else String c (split_T_head rest)
  end.

Definition two_digits (c1 c2 : ascii) : option Z :=
  match digit_of c1, digit_of c2 with
  | Some a, Some b => Some (10 * a + b)
  | _, _ => None
  end.

Definition four_digits (c1 c2 c3 c4 : ascii) : option Z :=
  match two_digits c1 c2, two_digits c3 c4 with
  | Some a, Some b => Some (100 * a + b)
  | _, _ => None
  end.

(** The time part of an ISO string: nothing (a date-only form, taken as UTC
    midnight) or [THH:mm:ssZ], the hour 24 being allowed for 24:00:00. *)
Definition parse_time_part (s : string) : option Z :=
  match s with
  | EmptyString => Some 0
  | String t (String h1 (String h2 (String k1 (String m1 (String m2
      (String k2 (String s1 (String s2 (String z EmptyString))))))))) =>
      if Ascii.eqb t "T" && Ascii.eqb k1 ":" && Ascii.eqb k2 ":"
         && Ascii.eqb z "Z"
      then
        match two_digits h1 h2, two_digits m1 m2, two_digits s1 s2 with
        | Some h, Some m, Some sec =>
            if (h <=? 23) && (m <=? 59) && (sec <=? 59)
               || (h =? 24) && (m =? 0) && (sec =? 0)
            then Some (MakeTime h m sec 0) else None
        | _, _, _ => None
        end
      else None
  | _ => None
  end.

(** [new Date(s)] / [Date.parse(s)] for the two forms the code builds,
    [YYYY-MM-DD] and [YYYY-MM-DDT00:00:00Z]; both are read in UTC.  A month
    outside 01..12 or a day outside 01..31 gives an Invalid Date; a day
    beyond the end of a shorter month carries into the next month (as V8
    reads it).  Any other text is an Invalid Date in this model. *)
Definition Date_parse (s : string) : option Z :=
  match s with
  | String y1 (String y2 (String y3 (String y4 (String k1 (String m1
      (String m2 (String k2 (String d1 (String d2 rest))))))))) =>
      if Ascii.eqb k1 "-" && Ascii.eqb k2 "-" then
        match four_digits y1 y2 y3 y4, two_digits m1 m2, two_digits d1 d2,
              parse_time_part rest with
        | Some y, Some m, Some d, Some time =>
            if (1 <=? m) && (m <=? 12) && (1 <=? d) && (d <=? 31)
            then TimeClip (MakeDate (MakeDay y (m - 1) d) time)
            else None
        | _, _, _, _ => None
        end
      else None
  | _ => None
  end.

End JsDate.
Export JsDate.

(** ** Dates of the backend ([api/get-live-data.js]) *)

Module ApiDates.

(** [formatDate(date)]: [date.toISOString().split('T')[0]], for a valid
    Date ([toISOString] throws a RangeError on an Invalid Date, which the
    callers below handle before calling). *)
Definition formatDate (t : Z) : string := split_T_head (toISOString t).

(** The [while (currentDate <= stopDate)] loop of [getDateArray].  [fuel]
    bounds the number of iterations of the model; [None] means the bound was
    reached.  When [setDate] leaves an Invalid Date the comparison
    [NaN <= stopDate] is false and the loop ends. *)
Fixpoint getDateArray_loop (fuel : nat) (tz : HostZone)
    (currentDate stopDate : Z) : option (list string) :=
  match fuel with
  | O => None
  | S fuel' =>
      if currentDate <=? stopDate then
        let d := formatDate currentDate in
        match setDate tz currentDate (getDate tz currentDate + 1) with
        | Some next =>
            match getDateArray_loop fuel' tz next stopDate with
            | Some dates => Some (d :: dates)
            | None => None
            end
        | None => Some [d]
        end
      else Some []
  end.

(** [getDateArray(startDateStr, endDateStr)].  A comparison with an Invalid
    Date is false, so the loop body never runs when either string does not
    parse. *)
Definition getDateArray (fuel : nat) (tz : HostZone)
    (startDateStr endDateStr : string) : option (list string) :=
  match Date_parse (String.append startDateStr "T00:00:00Z"),
        Date_parse (String.append endDateStr "T00:00:00Z") with
  | Some currentDate, Some stopDate =>
      getDateArray_loop fuel tz currentDate stopDate
  | _, _ => Some []
  end.

End ApiDates.
Export ApiDates.

(** *** Host zones used in the theorems *)

(** A zone whose offset from UTC never changes. *)
Definition fixed_zone (offset : Z) : HostZone :=
  {| LocalTZA := fun _ _ => offset |}.

Definition utc_zone : HostZone := fixed_zone 0.

Definition fixed_offset (tz : HostZone) : Prop :=
  exists c, forall t b, LocalTZA tz t b = c.

(** America/New_York during 2024: UTC-5 until 2024-03-10T07:00:00Z
    (02:00 local), UTC-4 until 2024-11-03T06:00:00Z, UTC-5 afterwards.  For a
    local time, skipped or repeated times take the offset in force before the
    transition, as ECMA-262 prescribes. *)
Definition new_york_2024 : HostZone :=
  {| LocalTZA := fun t isUTC =>
       if isUTC then
         if t <? 1710054000000 then -5 * msPerHour
         else if t <? 1730613600000 then -4 * msPerHour
         else -5 * msPerHour
       else
         if t <? 1710054000000 - 4 * msPerHour then -5 * msPerHour
         else if t <? 1730613600000 - 4 * msPerHour then -4 * msPerHour
         else -5 * msPerHour |}.

(** The calendar days [YYYY-MM-DD]: day numbers of the years 0 to 9999. *)
Definition is_calendar_day (d : Z) : Prop :=
  DayFromYear 0 <= d < DayFromYear 10000.

(** The calendar-day string of a day number. *)
Definition day_string (d : Z) : string := formatDate (d * msPerDay).

(** The day numbers [a, a+1, ..., a+n-1]. *)
Definition days_from (a : Z) (n : nat) : list Z :=
  map (fun i => a + Z.of_nat i) (seq 0 n).

(** ** [parseInt(string, 10)]

    The result is NaN ([None]) when no digit follows the leading white space
    and sign; otherwise it is the integer the leading digits denote.  The
    integer is kept exact: the code only compares the result with 90 and
    365, and an integer rounds to the number 90 (or 365) only if it is 90
    (or 365).  Characters are Latin-1 code units. *)

Module JsParse.

Definition is_white_space (c : ascii) : bool :=
  let n := N_of_ascii c in
  ((9 <=? n) && (n <=? 13) || (n =? 32) || (n =? 160))%N.

Fixpoint skip_white_space (s : string) : string :=
  match s with
  | EmptyString => EmptyString
  | String c rest => if is_white_space c then skip_white_space rest else s
  end.

Fixpoint leading_digits (s : string) : list Z :=
  match s with
  | EmptyString => []
  | String c rest =>
      match digit_of c with
      | Some k => k :: leading_digits rest
      | None => []
      end
  end.

Definition decimal_value (ds : list Z) : Z :=
  fold_left (fun acc k => 10 * acc + k) ds 0.

Definition parseInt10 (s : string) : option Z :=
  let s1 := skip_white_space s in
  let '(sign, s2) :=
    match s1 with
    | String c rest =>
        if Ascii.eqb c "-" then (-1, rest)
        else if Ascii.eqb c "+" then (1, rest)
        else (1, s1)
    | EmptyString => (1, s1)
    end in
  match leading_digits s2 with
  | [] => None
  | ds => Some (sign * decimal_value ds)
  end.

(** [!v] for a value that is a string or undefined. *)
Definition falsy (v : option string) : bool :=
  match v with
  | None => true
  | Some s => String.eqb s EmptyString
  end.

End JsParse.
Export JsParse.

(** ** Promises and [fetch]

    An [async] function is embedded as the tree of its interactions: it
    returns, throws, or awaits one [fetch] and continues with what the
    [fetch] settled to.  A response carries its body already decoded, as the
    outcome of [await response.json()]. *)

Module Promise.

(** An element of the array [Promise.allSettled] resolves to; also the
    outcome of awaiting any promise. *)
Inductive Settled (A : Type) :=
| Fulfilled (value : A)
| Rejected (reason : string).
Arguments Fulfilled {A} _.
Arguments Rejected {A} _.

(** A response: [json] is the outcome of [await response.json()], a
    rejection when the body is not JSON. *)
Record HttpResponse (B : Type) := {
  ok : bool;
  status : Z;
  statusText : string;
  json : Settled B
}.
Arguments ok {B} _.
Arguments status {B} _.
Arguments statusText {B} _.
Arguments json {B} _.

Inductive Async (Rq B A : Type) :=
| Return (a : A)
| Throw (message : string)
| AwaitFetch (request : Rq) (k : Settled (HttpResponse B) -> Async Rq B A).
Arguments Return {Rq B A} _.
Arguments Throw {Rq B A} _.
Arguments AwaitFetch {Rq B A} _ _.

(** Running an async function against an upstream service. *)
Fixpoint settle {Rq B A} (upstream : Rq -> Settled (HttpResponse B))
    (p : Async Rq B A) : Settled A :=
  match p with
  | Return a => Fulfilled a
  | Throw message => Rejected message
  | AwaitFetch request k => settle upstream (k (upstream request))
  end.

(** The requests an async function sends to the upstream service. *)
Fixpoint requests {Rq B A} (upstream : Rq -> Settled (HttpResponse B))
    (p : Async Rq B A) : list Rq :=
  match p with
  | Return _ => []
  | Throw _ => []
  | AwaitFetch request k => request :: requests upstream (k (upstream request))
  end.

End Promise.
Export Promise.

(** ** The source adapters ([api/get-live-data.js])

    The numeric fields of an upstream row hold the number that the adapter's
    coercion ([parseFloat(x || 0)], [parseInt(x || 0, 10)]) makes of the
    upstream's value; NaN is possible.  Console logging is left out. *)

Module Fb.

(** The per-day object [{fbCost, fbClicks, fbImpr, fbConv}]. *)
Record Entry := {
  fbCost : float;
  fbClicks : float;
  fbImpr : float;
  fbConv : float
}.

Record Action := {
  action_type : string;
  value : float                    (* parseInt(surveyAction.value, 10) *)
}.

Record Row := {
  date_start : string;
  spend : float;                   (* parseFloat(entry.spend || 0) *)
  clicks : float;                  (* parseInt(entry.clicks || 0, 10) *)
  impressions : float;             (* parseInt(entry.impressions || 0, 10) *)
  actions : option (list Action)
}.

(** The decoded body: [error?.message] and [data]. *)
Record Body := {
  error_message : option string;
  data : option (list Row)
}.

(** A GET request is its URL. *)
Definition Request := string.

End Fb.

Module Tt.

(** The per-day object [{ttCost, ttClicks, ttImpr, ttConv}]. *)
Record Entry := {
  ttCost : float;
  ttClicks : float;
  ttImpr : float;
  ttConv : float
}.

Record Row := {
  stat_time_day : string;          (* entry.dimensions.stat_time_day *)
  spend : float;                   (* parseFloat(entry.metrics.spend || 0) *)
  clicks : float;                  (* parseInt(entry.metrics.clicks || 0, 10) *)
  impressions : float;
  submit_form : float
}.

(** The decoded body: [code], [message], [request_id] and [data?.list]. *)
Record Body := {
  code : Z;
  message : option string;
  request_id : option string;
  data_list : option (list Row)
}.

(** The POST request: URL, [Access-Token] header and the report query. *)
Record Request := {
  url : string;
  access_token : string;
  advertiser_id : string;
  start_date : string;
  end_date : string;
  page_size : Z
}.

End Tt.

Module Adapters.

Definition META_API_VERSION : string := "v19.0".
Definition TIKTOK_API_VERSION : string := "v1.3".

Definition concat_strings (parts : list string) : string :=
  fold_right String.append EmptyString parts.

(** [a || b] on an optional string and a string. *)
Definition or_else (a : option string) (b : string) : string :=
  match a with
  | Some s => if String.eqb s EmptyString then b else s
  | None => b
  end.

(** A value inside a template literal. *)
Definition template (v : option string) : string := default "undefined" v.

(** An integer inside a template literal. *)
Definition template_number (n : Z) : string :=
  NilZero.string_of_int (Z.to_int n).

Definition meta_url (startDate endDate : string)
    (accessToken adAccountId : option string) : string :=
  concat_strings
    [ "https://graph.facebook.com/"; META_API_VERSION; "/act_";
      template adAccountId;
      "/insights?level=account&fields=spend,clicks,impressions,actions";
      "&time_range={'since':'"; startDate; "','until':'"; endDate;
      "'}&time_increment=1&access_token="; template accessToken ].

(** The callback of [jsonResponse.data?.forEach]: one assignment
    [processedData[entry.date_start] = {...}]. *)
Definition fb_store (processedData : gmap string Fb.Entry) (entry : Fb.Row)
  : gmap string Fb.Entry :=
  let surveyAction :=
    match Fb.actions entry with
    | Some acts =>
        List.find (fun a => String.eqb (Fb.action_type a) "SurveyCompleted")
                  acts
    | None => None
    end in
  let conversions :=
    match surveyAction with
    | Some a => Fb.value a
    | None => 0%float
    end in
  <[ Fb.date_start entry :=
       {| Fb.fbCost := Fb.spend entry;
          Fb.fbClicks := Fb.clicks entry;
          Fb.fbImpr := Fb.impressions entry;
          Fb.fbConv := conversions |} ]> processedData.

(** [fetchFacebookData(startDate, endDate, accessToken, adAccountId)].  The
    [catch] block logs and rethrows, so every exception of the [try] block
    is the function's rejection. *)
Definition fetchFacebookData (startDate endDate : string)
    (accessToken adAccountId : option string)
  : Async Fb.Request Fb.Body (gmap string Fb.Entry) :=
  if falsy accessToken || falsy adAccountId then Return ∅
  else
    let url := meta_url startDate endDate accessToken adAccountId in
    AwaitFetch url (fun outcome =>
      match outcome with
      | Rejected reason => Throw reason
      | Fulfilled response =>
          if negb (ok response) then
            match json response with
            | Rejected reason => Throw reason
            | Fulfilled errorData =>
                Throw (String.append "Facebook API request failed: "
                         (or_else (Fb.error_message errorData)
                                  (statusText response)))
            end
          else
            match json response with
            | Rejected reason => Throw reason
            | Fulfilled jsonResponse =>
                let processedData :=
                  fold_left fb_store (default [] (Fb.data jsonResponse)) ∅ in
                Return processedData
            end
      end).

Definition tiktok_url : string :=
  concat_strings
    [ "https://business-api.tiktok.com/open_api/"; TIKTOK_API_VERSION;
      "/report/integrated/get/" ].

Definition tt_store (processedData : gmap string Tt.Entry) (entry : Tt.Row)
  : gmap string Tt.Entry :=
  <[ Tt.stat_time_day entry :=
       {| Tt.ttCost := Tt.spend entry;
          Tt.ttClicks := Tt.clicks entry;
          Tt.ttImpr := Tt.impressions entry;
          Tt.ttConv := Tt.submit_form entry |} ]> processedData.

(** [fetchTikTokData(startDate, endDate, accessToken, advertiserId)]. *)
Definition fetchTikTokData (startDate endDate : string)
    (accessToken advertiserId : option string)
  : Async Tt.Request Tt.Body (gmap string Tt.Entry) :=
  if falsy accessToken || falsy advertiserId then Return ∅
  else
    let request :=
      {| Tt.url := tiktok_url;
         Tt.access_token := template accessToken;
         Tt.advertiser_id := template advertiserId;
         Tt.start_date := startDate;
         Tt.end_date := endDate;
         Tt.page_size := 366 |} in
    AwaitFetch request (fun outcome =>
      match outcome with
      | Rejected reason => Throw reason
      | Fulfilled response =>
          if negb (ok response) then
            match json response with
            | Rejected reason => Throw reason
            | Fulfilled errorData =>
                Throw (String.append "TikTok API request failed: "
                         (or_else (Tt.message errorData)
                                  (statusText response)))
            end
          else
            match json response with
            | Rejected reason => Throw reason
            | Fulfilled jsonResponse =>
                if negb (Tt.code jsonResponse =? 0) then
                  Throw (concat_strings
                           [ "TikTok API error: ";
                             template (Tt.message jsonResponse);
                             " (Code: ";
                             template_number (Tt.code jsonResponse);
                             ", Request ID: ";
                             template (Tt.request_id jsonResponse); ")" ])
                else
                  let processedData :=
                    fold_left tt_store
                      (default [] (Tt.data_list jsonResponse)) ∅ in
                  Return processedData
            end
      end).

End Adapters.
Export Adapters.

(** ** The request handler of [api/get-live-data.js] *)

Module Handler.

(** [process.env]: a variable is a string or undefined. *)
Record Env := {
  META_ACCESS_TOKEN : option string;
  META_AD_ACCOUNT_ID : option string;
  TIKTOK_ACCESS_TOKEN : option string;
  TIKTOK_ADVERTISER_ID : option string
}.

Record Event := {
  httpMethod : option string;
  method : option string;
  query : option (gmap string string)
}.

(** The response body before [JSON.stringify]: an error object or the
    table.  The response headers are left out. *)
Inductive Body :=
| ErrorBody (message : string)
| DataBody (finalData : list ProcessedMarketingDataEntry).

Record Response := {
  statusCode : Z;
  body : Body
}.

(** The handler either responds at once, or awaits
    [Promise.allSettled([fetchFacebookData(...), fetchTikTokData(...)])] and
    responds from the two settled results.  The adapters share no state, so
    each settles to the same result whatever the order of the two exchanges;
    the continuation takes any pair of settled results.  It gives [None]
    when the model's iteration bound for [getDateArray] is reached. *)
Inductive Run :=
| Respond (r : Response)
| AwaitAllSettled
    (fbPromise : Async Fb.Request Fb.Body (gmap string Fb.Entry))
    (ttPromise : Async Tt.Request Tt.Body (gmap string Tt.Entry))
    (k : Settled (gmap string Fb.Entry) -> Settled (gmap string Tt.Entry)
         -> option Response).

Definition is_GET (m : option string) : bool :=
  match m with
  | Some s => String.eqb s "GET"
  | None => false
  end.

(** The [daysToFetch] variable after the query has been read. *)
Definition daysToFetch (event : Event) : Z :=
  let queryParams := default ∅ (query event) in
  match queryParams !! "days" with
  | Some days =>
      if String.eqb days EmptyString then 90
      else
        match parseInt10 days with
        | Some daysParam =>
            if (daysParam =? 90) || (daysParam =? 365) then daysParam else 90
        | None => 90
        end
  | None => 90
  end.

Definition defaultFbEntry : Fb.Entry :=
  {| Fb.fbClicks := 0; Fb.fbImpr := 0; Fb.fbCost := 0; Fb.fbConv := 0 |}.

Definition defaultTtEntry : Tt.Entry :=
  {| Tt.ttClicks := 0; Tt.ttImpr := 0; Tt.ttCost := 0; Tt.ttConv := 0 |}.

(** The callback of [allDatesInRange.map]. *)
Definition dailyRecord (fbData : gmap string Fb.Entry)
    (ttData : gmap string Tt.Entry) (dateStr : string)
  : ProcessedMarketingDataEntry :=
  let fbEntry := default defaultFbEntry (fbData !! dateStr) in
  let ttEntry := default defaultTtEntry (ttData !! dateStr) in
  let baseMetricsEntry :=
    {| date := dateStr;
       fbClicks := Fb.fbClicks fbEntry;
       fbImpr := Fb.fbImpr fbEntry;
       fbCost := Fb.fbCost fbEntry;
       fbConv := Fb.fbConv fbEntry;
       ttClicks := Tt.ttClicks ttEntry;
       ttImpr := Tt.ttImpr ttEntry;
       ttCost := Tt.ttCost ttEntry;
       ttConv := Tt.ttConv ttEntry |} in
  let derivedMetrics := Api.calculateAllDerivedMetrics baseMetricsEntry in
  {| raw := baseMetricsEntry; calculated := derivedMetrics |}.

(** The comparator [(a, b) => new Date(b.date).getTime() -
    new Date(a.date).getTime()]; a NaN result counts as 0 in a sort. *)
Definition compareFn (a b : ProcessedMarketingDataEntry) : Z :=
  match Date_parse (date (raw b)), Date_parse (date (raw a)) with
  | Some tb, Some ta => tb - ta
  | _, _ => 0
  end.

(** [Array.prototype.sort] is stable; it is embedded as a stable insertion
    sort: an element goes before the first element it does not compare
    greater than. *)
Fixpoint sort_insert {A} (cmp : A -> A -> Z) (x : A) (l : list A) : list A :=
  match l with
  | [] => [x]
  | y :: l' => if cmp x y <=? 0 then x :: l else y :: sort_insert cmp x l'
  end.

Definition array_sort {A} (cmp : A -> A -> Z) (l : list A) : list A :=
  fold_right (sort_insert cmp) [] l.

Definition error_response (code : Z) (message : string) : Response :=
  {| statusCode := code; body := ErrorBody message |}.

(** [fbPlatformDataResult.status === 'fulfilled' ? ....value : {}]. *)
Definition value_or_empty {V} (r : Settled (gmap string V)) : gmap string V :=
  match r with
  | Fulfilled v => v
  | Rejected _ => ∅
  end.

(** [handler(event)].  [nowEnd] and [nowStart] are the clock readings of the
    two [new Date()] calls, in that order; [tz] is the host's time zone.  An
    Invalid [startDate] makes [formatDate] throw a RangeError, which the
    [catch] block turns into the 500 response. *)
Definition handler (fuel : nat) (tz : HostZone) (env : Env)
    (nowEnd nowStart : Z) (event : Event) : Run :=
  if negb (is_GET (httpMethod event)) && negb (is_GET (method event)) then
    Respond (error_response 405 "Method Not Allowed. Please use GET.")
  else if falsy (META_ACCESS_TOKEN env) || falsy (META_AD_ACCOUNT_ID env)
          || falsy (TIKTOK_ACCESS_TOKEN env)
          || falsy (TIKTOK_ADVERTISER_ID env) then
    Respond (error_response 503
               "Service Unavailable: API credentials missing.")
  else
    let daysToFetch := daysToFetch event in
    let endDate := nowEnd in
    match setDate tz nowStart (getDate tz endDate - (daysToFetch - 1)) with
    | None => Respond (error_response 500 "Server error: Invalid time value")
    | Some startDate =>
        let startDateFormatted := formatDate startDate in
        let endDateFormatted := formatDate endDate in
        AwaitAllSettled
          (fetchFacebookData startDateFormatted endDateFormatted
             (META_ACCESS_TOKEN env) (META_AD_ACCOUNT_ID env))
          (fetchTikTokData startDateFormatted endDateFormatted
             (TIKTOK_ACCESS_TOKEN env) (TIKTOK_ADVERTISER_ID env))
          (fun fbPlatformDataResult ttPlatformDataResult =>
             let fbData := value_or_empty fbPlatformDataResult in
             let ttData := value_or_empty ttPlatformDataResult in
             match getDateArray fuel tz startDateFormatted endDateFormatted
             with
             | None => None
             | Some allDatesInRange =>
                 let finalData :=
                   map (dailyRecord fbData ttData) allDatesInRange in
                 Some {| statusCode := 200;
                         body := DataBody (array_sort compareFn finalData) |}
             end)
    end.

(** A whole run of the handler against the two upstream services. *)
Definition run (upFb : Fb.Request -> Settled (HttpResponse Fb.Body))
    (upTt : Tt.Request -> Settled (HttpResponse Tt.Body)) (r : Run) : option Response :=
  match r with
  | Respond resp => Some resp
  | AwaitAllSettled fbPromise ttPromise k =>
      k (settle upFb fbPromise) (settle upTt ttPromise)
  end.

(** The upstream requests of a whole run, Facebook's then TikTok's. *)
Definition upstream_calls (upFb : Fb.Request -> Settled (HttpResponse Fb.Body))
    (upTt : Tt.Request -> Settled (HttpResponse Tt.Body)) (r : Run) : nat :=
  match r with
  | Respond _ => 0%nat
  | AwaitAllSettled fbPromise ttPromise _ =>
      (length (requests upFb fbPromise) + length (requests upTt ttPromise))%nat
  end.

End Handler.
Export Handler.

(** ** Vocabulary of the handler theorems *)

(** The request passes the method check. *)
Definition is_get_request (event : Event) : bool :=
  is_GET (httpMethod event) || is_GET (method event).

(** [!v] holds for none of the four credentials. *)
Definition credentials_present (env : Env) : bool :=
  negb (falsy (META_ACCESS_TOKEN env)) && negb (falsy (META_AD_ACCOUNT_ID env))
  && negb (falsy (TIKTOK_ACCESS_TOKEN env))
  && negb (falsy (TIKTOK_ADVERTISER_ID env)).

(** The clock reads a time from 1970 to the end of the year 9999. *)
Definition clock_in_range (now : Z) : Prop := 0 <= now < TimeFromYear 10000.

(** A record in which one platform's four base counters and five derived
    metrics are all zero. *)
Definition platform_zero (p : Platform) (r : ProcessedMarketingDataEntry)
  : Prop :=
  base p (raw r) = zero_base
  /\ forall k, derived p k (calculated r) = 0%float.

(** The four counters of a fetched per-day object. *)
Definition fb_counters (e : Fb.Entry) : BaseMetrics :=
  {| clicks := Fb.fbClicks e; impressions := Fb.fbImpr e;
     cost := Fb.fbCost e; conversions := Fb.fbConv e |}.

Definition tt_counters (e : Tt.Entry) : BaseMetrics :=
  {| clicks := Tt.ttClicks e; impressions := Tt.ttImpr e;
     cost := Tt.ttCost e; conversions := Tt.ttConv e |}.

(** The table of a 200 response. *)
Definition is_table_response (r : option Response)
    (table : list ProcessedMarketingDataEntry) : Prop :=
  r = Some {| statusCode := 200; body := DataBody table |}.

(** The dates of a table, in order. *)
Definition table_dates (table : list ProcessedMarketingDataEntry)
  : list string :=
  map (fun r => date (raw r)) table.

(** The time values of a table's dates, in order. *)
Definition table_times (table : list ProcessedMarketingDataEntry)
  : list (option Z) :=
  map (fun r => Date_parse (date (raw r))) table.

(** Strictly descending: every element is greater than its successor. *)
Fixpoint strictly_descending (l : list Z) : Prop :=
  match l with
  | [] => True
  | x :: l' =>
      match l' with
      | [] => True
      | y :: _ => y < x /\ strictly_descending l'
      end
  end.

(** The digits of a decimal numeral, most significant first. *)
Fixpoint uint_digits (d : Decimal.uint) : list Z :=
  match d with
  | Decimal.Nil => []
  | Decimal.D0 d => 0 :: uint_digits d
  | Decimal.D1 d => 1 :: uint_digits d
  | Decimal.D2 d => 2 :: uint_digits d
  | Decimal.D3 d => 3 :: uint_digits d
  | Decimal.D4 d => 4 :: uint_digits d
  | Decimal.D5 d => 5 :: uint_digits d
  | Decimal.D6 d => 6 :: uint_digits d
  | Decimal.D7 d => 7 :: uint_digits d
  | Decimal.D8 d => 8 :: uint_digits d
  | Decimal.D9 d => 9 :: uint_digits d
  end.

(** Sample environments, requests and upstream services. *)
Definition sample_env : Env :=
  {| META_ACCESS_TOKEN := Some "meta-token";
     META_AD_ACCOUNT_ID := Some "1001";
     TIKTOK_ACCESS_TOKEN := Some "tiktok-token";
     TIKTOK_ADVERTISER_ID := Some "2002" |}.

(** The TikTok token is not configured. *)
Definition env_without_tiktok_token : Env :=
  {| META_ACCESS_TOKEN := Some "meta-token";
     META_AD_ACCOUNT_ID := Some "1001";
     TIKTOK_ACCESS_TOKEN := None;
     TIKTOK_ADVERTISER_ID := Some "2002" |}.

Definition get_request (days : option string) : Event :=
  {| httpMethod := Some "GET";
     method := None;
     query := match days with
              | Some d => Some {[ "days" := d ]}
              | None => None
              end |}.

Definition post_request : Event :=
  {| httpMethod := Some "POST"; method := None; query := None |}.

(** Upstream services that cannot be reached. *)
Definition fb_unreachable : Fb.Request -> Settled (HttpResponse Fb.Body) :=
  fun _ => Rejected "fetch failed".

Definition tt_unreachable : Tt.Request -> Settled (HttpResponse Tt.Body) :=
  fun _ => Rejected "fetch failed".

(** An upstream that refuses the access token with status 401. *)
Definition fb_unauthorized : Fb.Request -> Settled (HttpResponse Fb.Body) :=
  fun _ =>
    Fulfilled
      {| ok := false; status := 401; statusText := "Unauthorized";
         json := Fulfilled
                   {| Fb.error_message := Some "Invalid OAuth access token.";
                      Fb.data := None |} |}.

(** An upstream that reports the ten days 2024-01-01 to 2024-01-10 only, with
    the same counters each day. *)
Definition fb_ten_days : Fb.Request -> Settled (HttpResponse Fb.Body) :=
  fun _ =>
    Fulfilled
      {| ok := true; status := 200; statusText := "OK";
         json :=
           Fulfilled
             {| Fb.error_message := None;
                Fb.data :=
                  Some (map (fun d =>
                               {| Fb.date_start := day_string d;
                                  Fb.spend := 25; Fb.clicks := 50;
                                  Fb.impressions := 1000;
                                  Fb.actions :=
                                    Some [ {| Fb.action_type := "SurveyCompleted";
                                              Fb.value := 5 |} ] |})
                            (days_from 19723 10)) |} |}.

(** 2024-03-30T18:00:00Z. *)
Definition end_of_march_2024 : Z := 1711821600000.

(** 2024-04-01T12:00:00Z. *)
Definition noon_2024_04_01 : Z := 1711972800000.

(** 2024-01-31T23:59:59.999Z, the last millisecond of January 2024. *)
Definition last_ms_of_2024_01_31 : Z := 1706745599999.

(** 2024-11-15T12:00:00Z. *)
Definition noon_2024_11_15 : Z := 1731672000000.

(** An upstream that reports one row, for 2024-04-01. *)
Definition fb_first_of_april : Fb.Request -> Settled (HttpResponse Fb.Body) :=
  fun _ =>
    Fulfilled
      {| ok := true; status := 200; statusText := "OK";
         json :=
           Fulfilled
             {| Fb.error_message := None;
                Fb.data :=
                  Some [ {| Fb.date_start := "2024-04-01";
                            Fb.spend := 25; Fb.clicks := 50;
                            Fb.impressions := 1000;
                            Fb.actions := None |} ] |} |}.

(** The requests of a whole run that reach each upstream service. *)
Definition upstream_requests
    (upFb : Fb.Request -> Settled (HttpResponse Fb.Body))
    (upTt : Tt.Request -> Settled (HttpResponse Tt.Body)) (r : Run)
  : list Fb.Request * list Tt.Request :=
  match r with
  | Respond _ => ([], [])
  | AwaitAllSettled fbPromise ttPromise _ =>
      (requests upFb fbPromise, requests upTt ttPromise)
  end.

(** What the two adapters settle to in a whole run. *)
Definition adapter_results
    (upFb : Fb.Request -> Settled (HttpResponse Fb.Body))
    (upTt : Tt.Request -> Settled (HttpResponse Tt.Body)) (r : Run)
  : option (Settled (gmap string Fb.Entry) * Settled (gmap string Tt.Entry)) :=
  match r with
  | Respond _ => None
  | AwaitAllSettled fbPromise ttPromise _ =>
      Some (settle upFb fbPromise, settle upTt ttPromise)
  end.

(** [platform_zero] as a test: each of the platform's nine numbers is the
    number 0. *)
Definition platform_zero_b (p : Platform) (r : ProcessedMarketingDataEntry)
  : bool :=
  let b := base p (raw r) in
  Leibniz.eqb (clicks b) 0 && Leibniz.eqb (impressions b) 0
  && Leibniz.eqb (cost b) 0 && Leibniz.eqb (conversions b) 0
  && forallb (fun k => Leibniz.eqb (derived p k (calculated r)) 0)
             [CTR; CPM; CPC; CPA; CVR].

(** ** Further sample inputs *)

(** Two Facebook rows for the same day: the later one reports two survey
    completions after another action. *)
Definition fb_rows_same_day : list Fb.Row :=
  [ {| Fb.date_start := "2024-01-01"; Fb.spend := 10; Fb.clicks := 20;
       Fb.impressions := 400; Fb.actions := None |};
    {| Fb.date_start := "2024-01-01"; Fb.spend := 25; Fb.clicks := 50;
       Fb.impressions := 1000;
       Fb.actions :=
         Some [ {| Fb.action_type := "link_click"; Fb.value := 50 |};
                {| Fb.action_type := "SurveyCompleted"; Fb.value := 5 |};
                {| Fb.action_type := "SurveyCompleted"; Fb.value := 7 |} ] |} ].

(** An upstream that answers every request with the given rows. *)
Definition fb_serving (rows : list Fb.Row)
  : Fb.Request -> Settled (HttpResponse Fb.Body) :=
  fun _ =>
    Fulfilled
      {| ok := true; status := 200; statusText := "OK";
         json := Fulfilled {| Fb.error_message := None;
                              Fb.data := Some rows |} |}.

(** ** JavaScript strings

    The string methods the code calls, on strings of Latin-1 code units. *)

Module JsString.

(** [s.trimEnd()]. *)
Fixpoint trimEnd (s : string) : string :=
  match s with
  | EmptyString => EmptyString
  | String c rest =>
      let rest' := trimEnd rest in
      if is_white_space c && String.eqb rest' EmptyString then EmptyString
      else String c rest'
  end.

(** [s.trim()]. *)
Definition trim (s : string) : string := trimEnd (skip_white_space s).

(** The lower-case form of a Latin-1 character: [A-Z] and the accented
    capitals U+00C0 to U+00DE (the multiplication sign U+00D7 apart) move
    up by 32. *)
Definition toLowerCase_char (c : ascii) : ascii :=
  let n := N_of_ascii c in
  if ((65 <=? n) && (n <=? 90)
      || (192 <=? n) && (n <=? 222) && negb (n =? 215))%N
  then ascii_of_N (n + 32)
  else c.

(** [s.toLowerCase()]. *)
Fixpoint toLowerCase (s : string) : string :=
  match s with
  | EmptyString => EmptyString
  | String c rest => String (toLowerCase_char c) (toLowerCase rest)
  end.

(** [s.startsWith(p)]. *)
Definition startsWith (s p : string) : bool := String.prefix p s.

(** [s.includes(sub)]. *)
Fixpoint includes (s sub : string) : bool :=
  if String.prefix sub s then true
  else
    match s with
    | EmptyString => false
    | String _ rest => includes rest sub
    end.

End JsString.
Export JsString.

(** ** The frontend's data service ([services/marketingDataService.ts]) *)

Module MarketingDataService.

(** The decoded body of a response of [/api/get-live-data], by what the
    frontend reads of it: an array of entries, or any other value with its
    [error.message] when it has one. *)
Inductive LiveDataJson :=
| JsonArray (rows : list RawMarketingDataEntry)
| JsonOther (error_message : option string).

(** [errorData && errorData.error && errorData.error.message]. *)
Definition error_message_of (errorData : LiveDataJson) : option string :=
  match errorData with
  | JsonArray _ => None
  | JsonOther m => m
  end.

(** [fetchLiveMarketingData(days = 90)], for an integer [days].  A failed
    [fetch] and a body that is not JSON reject with an [Error], which the
    outer [catch] rethrows as it is; the last [throw] of the function, for
    thrown values that are not [Error] objects, is never reached. *)
Definition fetchLiveMarketingData (days : option Z)
  : Async string LiveDataJson LiveDataJson :=
  let days := default 90 days in
  AwaitFetch (String.append "/api/get-live-data?days=" (template_number days))
    (fun outcome =>
       match outcome with
       | Rejected reason => Throw reason
       | Fulfilled response =>
           if negb (ok response) then
             let errorMessage :=
               concat_strings
                 [ "HTTP error "; template_number (status response); ": ";
                   statusText response ] in
             let errorMessage :=
               match json response with
               | Fulfilled errorData =>
                   if falsy (error_message_of errorData) then errorMessage
                   else template (error_message_of errorData)
               | Rejected _ => errorMessage
               end in
             Throw (String.append "Failed to fetch marketing data: "
                      errorMessage)
           else
             match json response with
             | Rejected reason => Throw reason
             | Fulfilled data => Return data
             end
       end).

End MarketingDataService.
Export MarketingDataService.

(** ** The dashboard's state ([App.tsx]) *)

Module App.

(** The three [useState] cells of the data table. *)
Record State := {
  tableData : list ProcessedMarketingDataEntry;
  isLoadingTableData : bool;
  errorTableData : option string
}.


Definition setTableData (v : list ProcessedMarketingDataEntry) (st : State)
  : State :=
  {| tableData := v; isLoadingTableData := isLoadingTableData st;
     errorTableData := errorTableData st |}.

Definition setIsLoadingTableData (v : bool) (st : State) : State :=
  {| tableData := tableData st; isLoadingTableData := v;
     errorTableData := errorTableData st |}.

Definition setErrorTableData (v : option string) (st : State) : State :=
  {| tableData := tableData st; isLoadingTableData := isLoadingTableData st;
     errorTableData := v |}.

(** The state while [loadDataForTable] awaits the service. *)
Definition loading (st : State) : State :=
  setErrorTableData None (setIsLoadingTableData true st).

(** [loadDataForTable(daysToLoad = 90)]: the state once the call has
    finished.  Every value thrown is an [Error], whose message is shown.
    [processApiData] throws a TypeError when the service's value is not an
    array; [notArrayMessage] is the engine's message for it. *)
Definition loadDataForTable (notArrayMessage : string)
    (upstream : string -> Settled (HttpResponse LiveDataJson))
    (daysToLoad : option Z) (st : State) : State :=
  let daysToLoad := default 90 daysToLoad in
  let st := loading st in
  let st :=
    match settle upstream (fetchLiveMarketingData (Some daysToLoad)) with
    | Fulfilled (JsonArray rawData) =>
        let processedData := DataCalculations.processApiData rawData in
        setTableData processedData st
    | Fulfilled (JsonOther _) =>
        let displayMessage := notArrayMessage in
        setErrorTableData (Some displayMessage) st
    | Rejected message =>
        let displayMessage := message in
        setErrorTableData (Some displayMessage) st
    end in
  setIsLoadingTableData false st.

(** [handleRefreshData] and [handleLoadFullYear]. *)
Definition handleRefreshData notArrayMessage upstream (st : State) : State :=
  loadDataForTable notArrayMessage upstream None st.

Definition handleLoadFullYear notArrayMessage upstream (st : State) : State :=
  loadDataForTable notArrayMessage upstream (Some 365) st.

(** What the data section renders below its controls. *)
Inductive Widget :=
| LoadingSpinner
| ErrorAlert (message : string)
| DataTable (data : list ProcessedMarketingDataEntry)
| NoDataNotice.

(** The four conditional elements of the section, in order. *)
Definition view (st : State) : list Widget :=
  (if isLoadingTableData st then [LoadingSpinner] else [])
  ++ (if falsy (errorTableData st) then []
      else [ErrorAlert (template (errorTableData st))])
  ++ (if negb (isLoadingTableData st) && falsy (errorTableData st)
         && (0 <? Z.of_nat (length (tableData st)))
      then [DataTable (tableData st)] else [])
  ++ (if negb (isLoadingTableData st) && falsy (errorTableData st)
         && (Z.of_nat (length (tableData st)) =? 0)
      then [NoDataNotice] else []).

End App.

(** ** The chat endpoint ([api/ask-gemini.js])

    The Gemini SDK is a parameter: [chat.sendMessage] settles to a result or
    rejects, and an exception of the SDK's constructors counts as a
    rejection.  The prompt is kept as its parts, before they are joined into
    one text and the data is serialised; the system instruction is
    represented by the date it is built from, which the host renders. *)

Module AskGemini.

Definition GEMINI_MODEL_NAME : string := "gemini-2.5-flash-preview-04-17".

(** An element of [history], by what the filter reads of it: [text] and
    [sender] when they are strings, and the truth of [isLoading]. *)
Record HistoryMessage := {
  text : option string;
  sender : option string;
  isLoading : bool
}.

(** The [history] property: missing, an array (a falsy element is [None]),
    or another value, on which [.filter] throws a TypeError with the
    engine's message. *)
Inductive HistoryField :=
| HistoryUndefined
| HistoryArray (items : list (option HistoryMessage))
| HistoryOther (typeError : string).

(** The request body after parsing.  [userQuery] is [None] when it is not a
    string, [marketingData] when it is not an array. *)
Record RequestBody (Item : Type) := {
  userQuery : option string;
  marketingData : option (list Item);
  history : HistoryField
}.
Arguments userQuery {Item} _.
Arguments marketingData {Item} _.
Arguments history {Item} _.

(** [event.body]: text that is not JSON, a value that cannot be
    destructured (null or undefined; the engine's TypeError message comes
    with it), or any other value. *)
Inductive EventBody (Item : Type) :=
| BodyNotJson
| BodyNullish (typeError : string)
| BodyValue (requestBody : RequestBody Item).
Arguments BodyNotJson {Item}.
Arguments BodyNullish {Item} _.
Arguments BodyValue {Item} _.

Record Event (Item : Type) := {
  httpMethod : option string;
  body : EventBody Item
}.
Arguments httpMethod {Item} _.
Arguments body {Item} _.

Record Env := { GEMINI_API_KEY : option string }.

Inductive Role := user | model.

Record Content := {
  role : Role;
  parts : list string
}.

(** [dataContextString], before serialisation. *)
Inductive DataContext (Item : Type) :=
| NoDataProvided
| DataForPeriod (firstDate lastDate : string) (marketingData : list Item).
Arguments NoDataProvided {Item}.
Arguments DataForPeriod {Item} _ _ _.

(** [fullPromptForGemini], before the parts are joined. *)
Record Prompt (Item : Type) := {
  dataContext : DataContext Item;
  question : string
}.
Arguments dataContext {Item} _.
Arguments question {Item} _.

(** What reaches the SDK. *)
Record ChatRequest (Item : Type) := {
  apiKey : string;
  chat_model : string;
  systemInstructionDate : string;
  chat_history : list Content;
  message : Prompt Item
}.
Arguments apiKey {Item} _.
Arguments chat_model {Item} _.
Arguments systemInstructionDate {Item} _.
Arguments chat_history {Item} _.
Arguments message {Item} _.

(** The value [chat.sendMessage] resolves to: [None] when it is falsy, and
    its [text] when that is a string. *)
Definition SendMessageResult : Type := option (option string).

Inductive Body :=
| Reply (reply : string)
| ErrorBody (message : string).

Record Response := {
  statusCode : Z;
  body_of : Body
}.

Definition error_response (code : Z) (message : string) : Response :=
  {| statusCode := code; body_of := ErrorBody message |}.

(** The handler responds at once or awaits [chat.sendMessage]. *)
Inductive Run (Item : Type) :=
| Respond (r : Response)
| AwaitSendMessage (request : ChatRequest Item)
    (k : Settled SendMessageResult -> Response).
Arguments Respond {Item} _.
Arguments AwaitSendMessage {Item} _ _.

Definition is_POST (m : option string) : bool :=
  match m with
  | Some s => String.eqb s "POST"
  | None => false
  end.

(** The [catch] block, for an error with the given message. *)
Definition catch_block (message : string) : Response :=
  let errorMessage :=
    "An error occurred while communicating with the AI model."%string in
  let statusCode := 500 in
  if negb (falsy (Some message)) then
    let errorMessage := message in
    if includes (toLowerCase message) "api key not valid" then
      error_response 401 "AI service authentication failed: Invalid API key."
    else if includes (toLowerCase message) "quota" then
      error_response 429 "AI service quota exceeded. Please try again later."
    else if includes (toLowerCase message) "invalid response format" then
      error_response statusCode
        "The AI model returned an unexpected response. Please try again."
    else error_response statusCode errorMessage
  else error_response statusCode errorMessage.

(** The callback of [history.filter]. *)
Definition valid_message (msg : option HistoryMessage) : bool :=
  match msg with
  | None => false
  | Some msg =>
      match text msg, sender msg with
      | Some t, Some _ =>
          negb (String.eqb (trim t) EmptyString) && negb (isLoading msg)
      | _, _ => false
      end
  end.

(** The callback of [.map] on the messages that pass the filter. *)
Definition to_content (msg : HistoryMessage) : Content :=
  {| role := match sender msg with
             | Some s => if String.eqb s "user" then user else model
             | None => model
             end;
     parts := [template (text msg)] |}.

(** [history.filter(...).map(...)]: the filter keeps no falsy element. *)
Definition validHistory (items : list (option HistoryMessage))
  : list Content :=
  map to_content
    (omap (fun msg => if valid_message msg then msg else None) items).

Section Handler.

Context {Item : Type}.

(** [item?.date], when it is a string. *)
Variable item_date : Item -> option string.

(** [dataContextString]. *)
Definition dataContextString (marketingData : list Item) : DataContext Item :=
  if 0 <? Z.of_nat (length marketingData) then
    let firstDate :=
      or_else (last marketingData ≫= item_date) "N/A" in
    let lastDate :=
      or_else (head marketingData ≫= item_date) "N/A" in
    DataForPeriod firstDate lastDate marketingData
  else NoDataProvided.

(** [handler(event)]; [currentDateForRequest] is the host's rendering of
    today's date. *)
Definition handler (env : Env) (currentDateForRequest : string)
    (event : Event Item) : Run Item :=
  if negb (is_POST (httpMethod event)) then
    Respond (error_response 405 "Method Not Allowed. Please use POST.")
  else
    let geminiApiKey := GEMINI_API_KEY env in
    if falsy geminiApiKey then
      Respond (error_response 500
                 "AI service is not configured. Missing API key.")
    else
      match body event with
      | BodyNotJson =>
          Respond (error_response 400 "Invalid request body: Not valid JSON.")
      | BodyNullish typeError => Respond (catch_block typeError)
      | BodyValue requestBody =>
          let userQuery := userQuery requestBody in
          let marketingData := marketingData requestBody in
          let history := history requestBody in
          if falsy userQuery
             || match userQuery with
                | Some q => String.eqb (trim q) EmptyString
                | None => true
                end
          then
            Respond (error_response 400
                       "Invalid or missing 'userQuery' in the request body.")
          else
            match marketingData with
            | None =>
                Respond
                  (error_response 400
                     "Invalid or missing 'marketingData' array in the request body.")
            | Some marketingData =>
                match history with
                | HistoryOther typeError => Respond (catch_block typeError)
                | _ =>
                    let items :=
                      match history with
                      | HistoryArray items => items
                      | _ => []
                      end in
                    let validHistory := validHistory items in
                    let fullPromptForGemini :=
                      {| dataContext := dataContextString marketingData;
                         question := template userQuery |} in
                    AwaitSendMessage
                      {| apiKey := template geminiApiKey;
                         chat_model := GEMINI_MODEL_NAME;
                         systemInstructionDate := currentDateForRequest;
                         chat_history := validHistory;
                         message := fullPromptForGemini |}
                      (fun outcome =>
                         match outcome with
                         | Fulfilled (Some (Some text)) =>
                             {| statusCode := 200; body_of := Reply text |}
                         | Fulfilled _ =>
                             catch_block
                               "AI model returned an invalid response format."
                         | Rejected message => catch_block message
                         end)
                end
            end
      end.

End Handler.

(** A whole run of the handler against the SDK. *)
Definition run {Item} (chat : ChatRequest Item -> Settled SendMessageResult)
    (r : Run Item) : Response :=
  match r with
  | Respond resp => resp
  | AwaitSendMessage request k => k (chat request)
  end.


End AskGemini.

(** ** The chat panel ([components/ChatAssistant.tsx]) *)

Module ChatAssistant.

Inductive Sender := user | ai.

(** [ChatMessage] of [types.ts], without the time stamp. *)
Record ChatMessage := {
  id : string;
  text : string;
  sender : Sender;
  isLoading : option bool;
  error : option string
}.

Definition is_ai (s : Sender) : bool :=
  match s with
  | ai => true
  | user => false
  end.

(** [historyForBackend] of [sendMessage]. *)
Definition historyForBackend (messages : list ChatMessage)
  : list ChatMessage :=
  List.filter
    (fun msg =>
       if is_ai (sender msg)
          && (Z.of_nat (length (List.filter (fun m => is_ai (sender m))
                                            messages)) =? 1)
          && startsWith (text msg) "Hello!"
       then false
       else negb (default false (isLoading msg)))
    messages.

(** The body of the request that [sendMessage] posts to [/api/ask-gemini]
    (before [JSON.stringify]); [None] when [sendMessage] returns at once. *)
Record RequestBody := {
  userQuery : string;
  history : list ChatMessage;
  marketingData : list ProcessedMarketingDataEntry
}.

Definition sendMessage_request (input : string) (isLoadingAiResponse : bool)
    (messages : list ChatMessage)
    (tableData : list ProcessedMarketingDataEntry) : option RequestBody :=
  if String.eqb (trim input) EmptyString || isLoadingAiResponse then None
  else
    let historyForBackend := historyForBackend messages in
    let currentInput := input in
    Some {| userQuery := currentInput;
            history := historyForBackend;
            marketingData := tableData |}.

End ChatAssistant.

(** ** The data table ([components/DataTable.tsx]) *)

Module DataTable.

(** [SortableKeys]: the keys of [ProcessedMarketingDataEntry]. *)
Inductive SortableKeys :=
| date_key
| fbClicks_key | fbImpr_key | fbCost_key | fbConv_key
| fbCtr_key | fbCpm_key | fbCpc_key | fbCpa_key | fbCvr_key
| ttClicks_key | ttImpr_key | ttCost_key | ttConv_key
| ttCtr_key | ttCpm_key | ttCpc_key | ttCpa_key | ttCvr_key.

Inductive Direction := ascending | descending.

Record SortConfig := {
  key : SortableKeys;
  direction : Direction
}.

(** The initial [sortConfig]. *)
Definition initial_sortConfig : option SortConfig :=
  Some {| key := date_key; direction := descending |}.

Definition TIKTOK_COLUMN_KEYS : list SortableKeys :=
  [ ttClicks_key; ttImpr_key; ttCost_key; ttConv_key;
    ttCtr_key; ttCpm_key; ttCpc_key; ttCpa_key; ttCvr_key ].

Definition key_eqb (a b : SortableKeys) : bool :=
  match a, b with
  | date_key, date_key
  | fbClicks_key, fbClicks_key | fbImpr_key, fbImpr_key
  | fbCost_key, fbCost_key | fbConv_key, fbConv_key
  | fbCtr_key, fbCtr_key | fbCpm_key, fbCpm_key | fbCpc_key, fbCpc_key
  | fbCpa_key, fbCpa_key | fbCvr_key, fbCvr_key
  | ttClicks_key, ttClicks_key | ttImpr_key, ttImpr_key
  | ttCost_key, ttCost_key | ttConv_key, ttConv_key
  | ttCtr_key, ttCtr_key | ttCpm_key, ttCpm_key | ttCpc_key, ttCpc_key
  | ttCpa_key, ttCpa_key | ttCvr_key, ttCvr_key => true
  | _, _ => false
  end.

(** [isTikTokColumn(key)]. *)
Definition isTikTokColumn (k : SortableKeys) : bool :=
  existsb (key_eqb k) TIKTOK_COLUMN_KEYS.

(** [row[key]] for a key other than [date]: a number. *)
Definition number_field (k : SortableKeys) (row : ProcessedMarketingDataEntry)
  : float :=
  match k with
  | date_key => 0%float
  | fbClicks_key => fbClicks (raw row)
  | fbImpr_key => fbImpr (raw row)
  | fbCost_key => fbCost (raw row)
  | fbConv_key => fbConv (raw row)
  | fbCtr_key => fbCtr (calculated row)
  | fbCpm_key => fbCpm (calculated row)
  | fbCpc_key => fbCpc (calculated row)
  | fbCpa_key => fbCpa (calculated row)
  | fbCvr_key => fbCvr (calculated row)
  | ttClicks_key => ttClicks (raw row)
  | ttImpr_key => ttImpr (raw row)
  | ttCost_key => ttCost (raw row)
  | ttConv_key => ttConv (raw row)
  | ttCtr_key => ttCtr (calculated row)
  | ttCpm_key => ttCpm (calculated row)
  | ttCpc_key => ttCpc (calculated row)
  | ttCpa_key => ttCpa (calculated row)
  | ttCvr_key => ttCvr (calculated row)
  end.

(** The comparator of [sortableItems.sort].  The [date] of an entry is a
    string and its other fields are numbers, so the comparator takes its
    first branch for the key [date] and its second branch for every other
    key; the remaining branches are not reached. *)
Definition compare (sortConfig : SortConfig)
    (a b : ProcessedMarketingDataEntry) : Z :=
  match key sortConfig with
  | date_key =>
      let timeA := Date_parse (date (raw a)) in
      let timeB := Date_parse (date (raw b)) in
      match timeA, timeB with
      | None, None => 0
      | None, Some _ =>
          match direction sortConfig with ascending => -1 | descending => 1 end
      | Some _, None =>
          match direction sortConfig with ascending => 1 | descending => -1 end
      | Some timeA, Some timeB =>
          if timeA <? timeB then
            match direction sortConfig with
            | ascending => -1
            | descending => 1
            end
          else if timeA >? timeB then
            match direction sortConfig with
            | ascending => 1
            | descending => -1
            end
          else 0
      end
  | k =>
      let valA := number_field k a in
      let valB := number_field k b in
      if PrimFloat.ltb valA valB then
        match direction sortConfig with ascending => -1 | descending => 1 end
      else if PrimFloat.ltb valB valA then
        match direction sortConfig with ascending => 1 | descending => -1 end
      else 0
  end.

(** [sortedData]. *)
Definition sortedData (data : list ProcessedMarketingDataEntry)
    (sortConfig : option SortConfig) : list ProcessedMarketingDataEntry :=
  let sortableItems := data in
  match sortConfig with
  | Some sortConfig => array_sort (compare sortConfig) sortableItems
  | None => sortableItems
  end.

(** [requestSort(key)]: the new [sortConfig]. *)
Definition requestSort (sortConfig : option SortConfig) (k : SortableKeys)
  : option SortConfig :=
  let direction :=
    match sortConfig with
    | Some c =>
        if key_eqb (key c) k
           && match direction c with ascending => true | descending => false end
        then descending else ascending
    | None => ascending
    end in
  Some {| key := k; direction := direction |}.

End DataTable.

(** ** Vocabulary of the frontend and chat theorems *)



(** The record is what the backend derives from its own counters. *)
Definition backend_record (r : ProcessedMarketingDataEntry) : Prop :=
  calculated r = Api.calculateAllDerivedMetrics (raw r).

(** A chat message as the chat endpoint reads it after [JSON.stringify] and
    [JSON.parse]: [text] and [sender] are strings, [isLoading] is a boolean
    or missing. *)
Definition json_of_message (m : ChatAssistant.ChatMessage)
  : option AskGemini.HistoryMessage :=
  Some {| AskGemini.text := Some (ChatAssistant.text m);
          AskGemini.sender :=
            Some (match ChatAssistant.sender m with
                  | ChatAssistant.user => "user"
                  | ChatAssistant.ai => "ai"
                  end);
          AskGemini.isLoading := default false (ChatAssistant.isLoading m) |}.

(** The body that the chat panel posts, as the chat endpoint parses it. *)
Definition json_of_request (req : ChatAssistant.RequestBody)
  : AskGemini.RequestBody ProcessedMarketingDataEntry :=
  {| AskGemini.userQuery := Some (ChatAssistant.userQuery req);
     AskGemini.marketingData := Some (ChatAssistant.marketingData req);
     AskGemini.history :=
       AskGemini.HistoryArray
         (map json_of_message (ChatAssistant.history req)) |}.

(** [item?.date] of an entry of the frontend's table. *)
Definition entry_date (r : ProcessedMarketingDataEntry) : option string :=
  Some (date (raw r)).

(** The POST request of the chat panel. *)
Definition chat_event (req : ChatAssistant.RequestBody)
  : AskGemini.Event ProcessedMarketingDataEntry :=
  {| AskGemini.httpMethod := Some "POST";
     AskGemini.body := AskGemini.BodyValue (json_of_request req) |}.

Definition gemini_env : AskGemini.Env :=
  {| AskGemini.GEMINI_API_KEY := Some "gemini-key" |}.

(** The greeting the chat panel starts with. *)
Definition greeting : ChatAssistant.ChatMessage :=
  {| ChatAssistant.id := "1";
     ChatAssistant.text := "Hello! I'm your expert Paid Social Media strategist. How can I help you analyze your campaign performance and provide actionable insights today?";
     ChatAssistant.sender := ChatAssistant.ai;
     ChatAssistant.isLoading := None;
     ChatAssistant.error := None |}.

Definition user_message (i t : string) : ChatAssistant.ChatMessage :=
  {| ChatAssistant.id := i; ChatAssistant.text := t;
     ChatAssistant.sender := ChatAssistant.user;
     ChatAssistant.isLoading := None; ChatAssistant.error := None |}.

Definition ai_message (i t : string) : ChatAssistant.ChatMessage :=
  {| ChatAssistant.id := i; ChatAssistant.text := t;
     ChatAssistant.sender := ChatAssistant.ai;
     ChatAssistant.isLoading := Some false; ChatAssistant.error := None |}.

(** The time value of an entry's date, for the order of the date column: an
    Invalid Date counts as earlier than every valid one. *)
Definition time_le (a b : option Z) : Prop :=
  match a, b with
  | None, _ => True
  | Some _, None => False
  | Some x, Some y => x <= y
  end.

Definition entry_time (r : ProcessedMarketingDataEntry) : option Z :=
  Date_parse (date (raw r)).

(** A list in which every element is related to every later one. *)
Definition ordered_by {A} (R : A -> A -> Prop) (l : list A) : Prop :=
  forall (i j : nat) x y,
    (i < j)%nat -> l !! i = Some x -> l !! j = Some y -> R x y.

(** An entry with the given date and all counters zero. *)
Definition zero_record (d : string) : ProcessedMarketingDataEntry :=
  dailyRecord ∅ ∅ d.

(** The eight base counters of an entry are finite numbers. *)
Definition counters_finite (e : RawMarketingDataEntry) : bool :=
  isFinite (fbClicks e) && isFinite (fbImpr e)
  && isFinite (fbCost e) && isFinite (fbConv e)
  && isFinite (ttClicks e) && isFinite (ttImpr e)
  && isFinite (ttCost e) && isFinite (ttConv e).

(** The backend's answer 503 as the frontend's service decodes it. *)
Definition credentials_missing_response : HttpResponse LiveDataJson :=
  {| ok := false; status := 503; statusText := "Service Unavailable";
     json := Fulfilled
               (JsonOther
                  (Some "Service Unavailable: API credentials missing.")) |}.

(** A request body that the chat endpoint refuses with status 400: text that
    is not JSON, or a value without a non-blank [userQuery] string or
    without a [marketingData] array. *)
Definition request_malformed {Item} (b : AskGemini.EventBody Item) : bool :=
  match b with
  | AskGemini.BodyNotJson => true
  | AskGemini.BodyNullish _ => false
  | AskGemini.BodyValue requestBody =>
      match AskGemini.userQuery requestBody with
      | Some q =>
          String.eqb (trim q) EmptyString
          || match AskGemini.marketingData requestBody with
             | Some _ => false
             | None => true
             end
      | None => true
      end
  end.

(** The chat endpoint's request is a POST and the API key is set. *)
Definition chat_guards_pass {Item} (env : AskGemini.Env)
    (event : AskGemini.Event Item) : bool :=
  AskGemini.is_POST (AskGemini.httpMethod event)
  && negb (falsy (AskGemini.GEMINI_API_KEY env)).

(** A chat request with the given body parts. *)
Definition post_body {Item} (q : option string) (md : option (list Item))
    (h : AskGemini.HistoryField) : AskGemini.Event Item :=
  {| AskGemini.httpMethod := Some "POST";
     AskGemini.body :=
       AskGemini.BodyValue
         {| AskGemini.userQuery := q; AskGemini.marketingData := md;
            AskGemini.history := h |} |}.

(** The entry's date has the given time value. *)
Definition same_time (t : option Z) (r : ProcessedMarketingDataEntry) : bool :=
  match entry_time r, t with
  | Some x, Some y => x =? y
  | None, None => true
  | _, _ => false
  end.

Definition by_date (d : DataTable.Direction) : option DataTable.SortConfig :=
  Some {| DataTable.key := DataTable.date_key; DataTable.direction := d |}.
(* ===================================================================== *)
(** * Properties *)
(* ===================================================================== *)

(** ** The metric derivers *)

Section Derivers.

Implicit Types (e : RawMarketingDataEntry) (p : Platform) (k : RatioKind).

(** Every derived field is one call of [calculateMetric] on the numerator,
    denominator and multiplier that the specification's table gives. *)
Lemma api_derived_unfold p k e :
  derived p k (Api.calculateAllDerivedMetrics e)
  = Api.calculateMetric (numerator k (base p e)) (denominator k (base p e))
                        (multiplier k).
Proof. destruct p, k; reflexivity. Qed.

Lemma frontend_derived_unfold p k e :
  derived p k (DataCalculations.calculateAllMetrics e)
  = DataCalculations.calculateMetric (numerator k (base p e))
                                     (denominator k (base p e)) (multiplier k).
Proof. destruct p, k; reflexivity. Qed.

Lemma api_calculateMetric_guarded (n d m : float) :
  strict_eq d 0 = true \/ isNaN n = true \/ isNaN d = true ->
  Api.calculateMetric n d m = 0%float.
Proof.
  unfold Api.calculateMetric.
  intros [H | [H | H]]; rewrite H; rewrite ?orb_true_r; reflexivity.
Qed.

Lemma api_calculateMetric_ratio (n d m : float) :
  strict_eq d 0 = false -> isNaN n = false -> isNaN d = false ->
  Api.calculateMetric n d m = ((n / d) * m)%float.
Proof.
  unfold Api.calculateMetric. intros -> -> ->. reflexivity.
Qed.

Lemma frontend_calculateMetric_zero (n d m : float) :
  strict_eq d 0 = true -> DataCalculations.calculateMetric n d m = 0%float.
Proof. unfold DataCalculations.calculateMetric. intros ->. reflexivity. Qed.

Lemma frontend_calculateMetric_ratio (n d m : float) :
  strict_eq d 0 = false ->
  DataCalculations.calculateMetric n d m = ((n / d) * m)%float.
Proof. unfold DataCalculations.calculateMetric. intros ->. reflexivity. Qed.

(** On operands that are not NaN the two [calculateMetric] functions are the
    same function. *)
Lemma calculateMetric_agree (n d m : float) :
  isNaN n = false -> isNaN d = false ->
  DataCalculations.calculateMetric n d m = Api.calculateMetric n d m.
Proof.
  unfold DataCalculations.calculateMetric, Api.calculateMetric.
  intros -> ->. rewrite !orb_false_r. reflexivity.
Qed.

End Derivers.

(** ** IEEE 754 facts about the deriver's arithmetic

    Rocq specifies its primitive floats by [Prim2SF] and the operations of
    [SpecFloat]; the facts below are read off that specification. *)

Section FloatFacts.

Lemma SFeqb_refl_not_nan (f : spec_float) :
  SFeqb f f = match f with S754_nan => false | _ => true end.
Proof.
  destruct f as [s | s | | s m e]; unfold SFeqb; cbn [SFcompare];
    try reflexivity.
  - destruct s; reflexivity.
  - rewrite Z.compare_refl, Pos.compare_cont_refl. destruct s; reflexivity.
Qed.

Lemma isNaN_spec (x : float) :
  isNaN x = true <-> Prim2SF x = S754_nan.
Proof.
  unfold isNaN, is_nan. rewrite FloatAxioms.eqb_spec, SFeqb_refl_not_nan.
  destruct (Prim2SF x); cbn; split; congruence.
Qed.

Lemma isNaN_false_spec (x : float) :
  isNaN x = false <-> Prim2SF x <> S754_nan.
Proof.
  rewrite <- isNaN_spec. destruct (isNaN x); split; congruence.
Qed.

Lemma strict_eq_zero_spec (d : float) :
  strict_eq d 0 = true <-> exists s, Prim2SF d = S754_zero s.
Proof.
  unfold strict_eq. rewrite FloatAxioms.eqb_spec.
  change (Prim2SF 0) with (S754_zero false).
  destruct (Prim2SF d) as [s | s | | s m e]; unfold SFeqb; cbn [SFcompare];
    split; try (intros [s' H]; discriminate H); try discriminate; eauto;
    destruct s; discriminate.
Qed.

Lemma is_infinity_spec (x : float) :
  is_infinity x = true <-> exists s, Prim2SF x = S754_infinity s.
Proof.
  unfold is_infinity. rewrite FloatAxioms.eqb_spec, abs_spec.
  change (Prim2SF infinity) with (S754_infinity false).
  destruct (Prim2SF x) as [s | s | | s m e]; unfold SFeqb; cbn [SFabs SFcompare];
    split; try (intros [s' H]; discriminate H); try discriminate; eauto.
Qed.

(** Rounding a non-negative mantissa never gives NaN. *)
Lemma shr_1_nonneg (mrs : SpecFloat.shr_record) :
  0 <= SpecFloat.shr_m mrs -> 0 <= SpecFloat.shr_m (SpecFloat.shr_1 mrs).
Proof.
  destruct mrs as [m r s]. cbn [SpecFloat.shr_m].
  destruct m as [|p|p]; [cbn; lia | | lia].
  intros _. destruct p; cbn; lia.
Qed.

Lemma iter_shr_1_nonneg (p : positive) (mrs : SpecFloat.shr_record) :
  0 <= SpecFloat.shr_m mrs ->
  0 <= SpecFloat.shr_m (SpecFloat.iter_pos SpecFloat.shr_1 p mrs).
Proof.
  revert mrs. induction p as [p IH | p IH |]; intros mrs H;
    cbn [SpecFloat.iter_pos].
  - apply IH, IH, shr_1_nonneg, H.
  - apply IH, IH, H.
  - apply shr_1_nonneg, H.
Qed.

Lemma shr_fexp_nonneg (prec emax m e : Z) (l : SpecFloat.location) :
  0 <= m -> 0 <= SpecFloat.shr_m (fst (SpecFloat.shr_fexp prec emax m e l)).
Proof.
  intros H. unfold SpecFloat.shr_fexp, SpecFloat.shr.
  assert (H0 : 0 <= SpecFloat.shr_m (SpecFloat.shr_record_of_loc m l)).
  { destruct l as [|[]]; exact H. }
  destruct (_ - e) as [|p|p]; cbn [fst]; [exact H0 | | exact H0].
  apply iter_shr_1_nonneg, H0.
Qed.

Lemma round_nearest_even_nonneg (m : Z) (l : SpecFloat.location) :
  0 <= m -> 0 <= SpecFloat.round_nearest_even m l.
Proof.
  intros H. unfold SpecFloat.round_nearest_even.
  destruct l as [|[]]; try assumption; [destruct (Z.even m)|]; lia.
Qed.

Lemma binary_round_aux_not_nan (prec emax : Z) (sx : bool) (mx ex : Z)
    (lx : SpecFloat.location) :
  0 <= mx -> SpecFloat.binary_round_aux prec emax sx mx ex lx <> S754_nan.
Proof.
  intros H. unfold SpecFloat.binary_round_aux.
  pose proof (shr_fexp_nonneg prec emax mx ex lx H) as H1.
  destruct (SpecFloat.shr_fexp prec emax mx ex lx) as [mrs' e'].
  cbn [fst] in H1.
  pose proof (shr_fexp_nonneg prec emax _ e' SpecFloat.loc_Exact
                (round_nearest_even_nonneg _
                   (SpecFloat.loc_of_shr_record mrs') H1)) as H2.
  destruct (SpecFloat.shr_fexp prec emax _ e' SpecFloat.loc_Exact)
    as [mrs'' e''].
  cbn [fst] in H2.
  destruct (SpecFloat.shr_m mrs'') as [|m|m]; [discriminate | | lia].
  destruct (e'' <=? emax - prec); discriminate.
Qed.

Lemma SFdiv_core_nonneg (prec emax : Z) (m1 : positive) (e1 : Z)
    (m2 : positive) (e2 : Z) :
  0 <= fst (fst (SpecFloat.SFdiv_core_binary prec emax (Z.pos m1) e1
                   (Z.pos m2) e2)).
Proof.
  unfold SpecFloat.SFdiv_core_binary.
  set (s := _ - _ - _).
  set (m' := match s with Z.pos _ => Z.shiftl (Z.pos m1) s | 0 => Z.pos m1
             | Z.neg _ => 0 end).
  assert (Hm : 0 <= m').
  { unfold m'. destruct s; try lia. apply Z.shiftl_nonneg. lia. }
  pose proof (Z_div_mod m' (Z.pos m2) eq_refl) as Hd.
  destruct (Z.div_eucl m' (Z.pos m2)) as [q r]. cbn [fst]. nia.
Qed.

Lemma SFdiv_not_nan (prec emax : Z) (x y : spec_float) :
  x <> S754_nan -> y <> S754_nan ->
  (forall s, y <> S754_zero s) ->
  (forall s s', ~ (x = S754_infinity s /\ y = S754_infinity s')) ->
  SFdiv prec emax x y <> S754_nan.
Proof.
  intros Hx Hy Hz Hi.
  destruct x as [sx | sx | | sx mx ex], y as [sy | sy | | sy my ey];
    cbn [SFdiv]; try discriminate; try congruence;
    try (exfalso; eapply Hz; reflexivity);
    try (exfalso; eapply Hi; split; reflexivity).
  pose proof (SFdiv_core_nonneg prec emax mx ex my ey) as H.
  destruct (SpecFloat.SFdiv_core_binary prec emax (Z.pos mx) ex (Z.pos my) ey)
    as [[mz ez] lz].
  cbn [fst] in H. now apply binary_round_aux_not_nan.
Qed.

Lemma SFmul_finite_not_nan (prec emax : Z) (x : spec_float) (s : bool)
    (m : positive) (e : Z) :
  x <> S754_nan -> SFmul prec emax x (S754_finite s m e) <> S754_nan.
Proof.
  intros Hx. destruct x as [sx | sx | | sx mx ex]; cbn [SFmul];
    try discriminate; try congruence.
  apply binary_round_aux_not_nan. lia.
Qed.

(** The backend's [calculateMetric] returns NaN only when both operands
    are infinite (the multiplier being finite and not zero). *)
Lemma api_calculateMetric_not_NaN (n d m : float) (s : bool) (mm : positive)
    (e : Z) :
  Prim2SF m = S754_finite s mm e ->
  is_infinity n && is_infinity d = false ->
  isNaN (Api.calculateMetric n d m) = false.
Proof.
  intros Hm Hinf. unfold Api.calculateMetric.
  destruct (strict_eq d 0) eqn:Hz; [reflexivity|].
  destruct (isNaN n) eqn:Hn; [reflexivity|].
  destruct (isNaN d) eqn:Hd; [reflexivity|].
  cbn [orb]. apply isNaN_false_spec.
  rewrite mul_spec, div_spec, Hm.
  apply SFmul_finite_not_nan, SFdiv_not_nan.
  - now apply isNaN_false_spec.
  - now apply isNaN_false_spec.
  - intros s' Hs. assert (strict_eq d 0 = true) by (apply strict_eq_zero_spec; eauto).
    congruence.
  - intros s1 s2 [H1 H2].
    assert (is_infinity n = true) by (apply is_infinity_spec; eauto).
    assert (is_infinity d = true) by (apply is_infinity_spec; eauto).
    rewrite H, H0 in Hinf. discriminate.
Qed.

Lemma multiplier_finite (k : RatioKind) :
  exists s mm e, Prim2SF (multiplier k) = S754_finite s mm e.
Proof. destruct k; vm_compute; eauto. Qed.

End FloatFacts.

(** C1 (as amended): in the backend deriver a ratio whose denominator is 0, or
    whose numerator or denominator is NaN, is exactly 0, and no ratio is NaN
    unless its numerator and denominator are both infinite; in the frontend
    deriver a ratio whose denominator is 0 is exactly 0.  A field that is 0
    by these rules is the number +0, hence finite. *)
Theorem zero_denominator_policy (p : Platform) (k : RatioKind)
    (e : RawMarketingDataEntry) :
  let n := numerator k (base p e) in
  let d := denominator k (base p e) in
  (strict_eq d 0 = true \/ isNaN n = true \/ isNaN d = true ->
     derived p k (Api.calculateAllDerivedMetrics e) = 0%float
     /\ isFinite (derived p k (Api.calculateAllDerivedMetrics e)) = true)
  /\ (is_infinity n && is_infinity d = false ->
      isNaN (derived p k (Api.calculateAllDerivedMetrics e)) = false)
  /\ (strict_eq d 0 = true ->
     derived p k (DataCalculations.calculateAllMetrics e) = 0%float
     /\ isFinite (derived p k (DataCalculations.calculateAllMetrics e)) = true).
Proof.
  intros n d. split; [|split].
  - intros H. rewrite api_derived_unfold.
    fold n d. rewrite (api_calculateMetric_guarded n d _ H).
    split; reflexivity.
  - intros H. rewrite api_derived_unfold. fold n d.
    destruct (multiplier_finite k) as (s & mm & ex & Hm).
    now apply (api_calculateMetric_not_NaN n d _ s mm ex).
  - intros H. rewrite frontend_derived_unfold.
    fold n d. rewrite (frontend_calculateMetric_zero n d _ H).
    split; reflexivity.
Qed.

(** C1, the claim as stated fails twice.  The frontend deriver returns NaN,
    not 0, for a ratio whose numerator is NaN; and the backend deriver
    returns +Infinity for a ratio of finite counters whose product with the
    multiplier overflows, so a derived field is not always a finite number. *)
Lemma derived_field_not_always_plain_number :
  (isNaN (numerator CTR (base Facebook nan_clicks_entry)) = true
   /\ isNaN (derived Facebook CTR
               (DataCalculations.calculateAllMetrics nan_clicks_entry)) = true
   /\ derived Facebook CTR
        (DataCalculations.calculateAllMetrics nan_clicks_entry) <> 0%float)
  /\ (isFinite (numerator CPM (base Facebook huge_cost_entry)) = true
      /\ isFinite (denominator CPM (base Facebook huge_cost_entry)) = true
      /\ derived Facebook CPM (Api.calculateAllDerivedMetrics huge_cost_entry)
         = infinity
      /\ isFinite (derived Facebook CPM
                     (Api.calculateAllDerivedMetrics huge_cost_entry)) = false).
Proof.
  repeat split; try reflexivity.
  intros H. apply (f_equal isNaN) in H. vm_compute in H. discriminate H.
Qed.

Lemma api_derived_spec_ratio (p : Platform) (k : RatioKind)
    (e : RawMarketingDataEntry) :
  derived p k (Api.calculateAllDerivedMetrics e) = spec_ratio k (base p e).
Proof.
  rewrite api_derived_unfold. unfold Api.calculateMetric, spec_ratio.
  destruct (strict_eq _ 0), (isNaN (numerator _ _)), (isNaN (denominator _ _));
    reflexivity.
Qed.

(** C5: for every entry the backend deriver's fields are the ratios of the
    specification's table (with its zero-denominator policy); each derived
    field of either deriver is the quotient of the table's numerator by its
    denominator times its multiplier whenever the denominator is not 0 (and,
    for the backend, no operand is NaN); and the example counters give CTR 5,
    CPM 25, CPC 0.5, CPA 5 and CVR 10 in both derivers on either platform. *)
Theorem derived_ratio_formulas :
  (forall (p : Platform) (k : RatioKind) (e : RawMarketingDataEntry),
     derived p k (Api.calculateAllDerivedMetrics e) = spec_ratio k (base p e))
  /\ (forall (p : Platform) (k : RatioKind) (e : RawMarketingDataEntry),
        let n := numerator k (base p e) in
        let d := denominator k (base p e) in
        strict_eq d 0 = false ->
        derived p k (DataCalculations.calculateAllMetrics e)
          = ((n / d) * multiplier k)%float
        /\ (isNaN n = false -> isNaN d = false ->
            derived p k (Api.calculateAllDerivedMetrics e)
              = ((n / d) * multiplier k)%float))
  /\ (forall (p : Platform) (e : RawMarketingDataEntry),
        base p e = example_base ->
        forall m : CalculatedMetrics,
          m = Api.calculateAllDerivedMetrics e
          \/ m = DataCalculations.calculateAllMetrics e ->
          derived p CTR m = 5%float /\ derived p CPM m = 25%float
          /\ derived p CPC m = 0.5%float /\ derived p CPA m = 5%float
          /\ derived p CVR m = 10%float).
Proof.
  split; [exact api_derived_spec_ratio|]. split.
  - intros p k e n d Hd. split.
    + rewrite frontend_derived_unfold. fold n d.
      apply frontend_calculateMetric_ratio, Hd.
    + intros Hn Hd'. rewrite api_derived_unfold. fold n d.
      apply api_calculateMetric_ratio; assumption.
  - intros p e Hb m [-> | ->];
      rewrite ?api_derived_unfold, ?frontend_derived_unfold, Hb;
      repeat split; reflexivity.
Qed.

(** C10: on an entry whose eight base counters are not NaN the frontend
    deriver and the backend deriver return the same ten derived values. *)
Theorem derivers_agree_on_numbers (e : RawMarketingDataEntry) :
  counters_not_NaN e = true ->
  DataCalculations.calculateAllMetrics e = Api.calculateAllDerivedMetrics e.
Proof.
  unfold counters_not_NaN. intros H.
  repeat (apply andb_prop in H; destruct H as [H ?]).
  repeat match goal with
         | Hn : negb _ = true |- _ => apply negb_true_iff in Hn
         end.
  unfold DataCalculations.calculateAllMetrics, Api.calculateAllDerivedMetrics.
  cbv zeta.
  rewrite !calculateMetric_agree by assumption.
  reflexivity.
Qed.

Lemma derivers_agree_on_numbers_witness :
  counters_not_NaN (entry_of "2024-01-01" example_base zero_base) = true
  /\ DataCalculations.calculateAllMetrics
       (entry_of "2024-01-01" example_base zero_base)
     = Api.calculateAllDerivedMetrics
         (entry_of "2024-01-01" example_base zero_base).
Proof.
  split; [reflexivity |].
  apply (derivers_agree_on_numbers
           (entry_of "2024-01-01" example_base zero_base)).
  reflexivity.
Defined.
(** ** Calendar arithmetic *)

(** Linear arithmetic with division and remainder by constants. *)
Ltac lia_div := Z.to_euclidean_division_equations; lia.

Section Calendar.

Lemma DaysInYear_cases (y : Z) : DaysInYear y = 365 \/ DaysInYear y = 366.
Proof.
  unfold DaysInYear.
  repeat match goal with |- context [if ?b then _ else _] => destruct b end;
    auto.
Qed.

(** Consecutive years start [DaysInYear] days apart. *)
Lemma DayFromYear_succ (y : Z) :
  DayFromYear (y + 1) = DayFromYear y + DaysInYear y.
Proof.
  unfold DayFromYear, DaysInYear.
  assert (E4 : (y + 1 - 1969) / 4
               = (y - 1969) / 4 + (if y mod 4 =? 0 then 1 else 0)).
  { destruct (Z.eqb_spec (y mod 4) 0); lia_div. }
  assert (E100 : (y + 1 - 1901) / 100
                 = (y - 1901) / 100 + (if y mod 100 =? 0 then 1 else 0)).
  { destruct (Z.eqb_spec (y mod 100) 0); lia_div. }
  assert (E400 : (y + 1 - 1601) / 400
                 = (y - 1601) / 400 + (if y mod 400 =? 0 then 1 else 0)).
  { destruct (Z.eqb_spec (y mod 400) 0); lia_div. }
  assert (H1 : y mod 100 = 0 -> y mod 4 = 0) by lia_div.
  assert (H2 : y mod 400 = 0 -> y mod 100 = 0) by lia_div.
  rewrite E4, E100, E400.
  destruct (Z.eqb_spec (y mod 4) 0), (Z.eqb_spec (y mod 100) 0),
    (Z.eqb_spec (y mod 400) 0); simpl negb; cbv iota; lia.
Qed.

Lemma DayFromYear_lt (y : Z) : DayFromYear y < DayFromYear (y + 1).
Proof. rewrite DayFromYear_succ. destruct (DaysInYear_cases y); lia. Qed.

Lemma DayFromYear_mono (y z : Z) : y <= z -> DayFromYear y <= DayFromYear z.
Proof. unfold DayFromYear. lia_div. Qed.

(** [YearFromDay] is the year of ECMA-262's definition: the largest [y] with
    [DayFromYear y <= d]. *)
Lemma YearFromDay_spec (d : Z) :
  DayFromYear (YearFromDay d) <= d < DayFromYear (YearFromDay d + 1).
Proof.
  unfold YearFromDay.
  set (g := 1970 + 400 * d / 146097).
  assert (Hg : 146097 * (g - 1970) <= 400 * d < 146097 * (g - 1970) + 146097).
  { unfold g. lia_div. }
  clearbody g.
  destruct (Z.ltb_spec d (DayFromYear g)).
  - replace (g - 1 + 1) with g by lia. split; [|assumption].
    unfold DayFromYear in *. lia_div.
  - destruct (Z.leb_spec (DayFromYear (g + 1)) d).
    + split; [assumption|]. unfold DayFromYear in *. lia_div.
    + split; assumption.
Qed.

Lemma YearFromDay_unique (d y : Z) :
  DayFromYear y <= d < DayFromYear (y + 1) -> YearFromDay d = y.
Proof.
  intros H. pose proof (YearFromDay_spec d) as Hs.
  destruct (Z.lt_trichotomy (YearFromDay d) y) as [Hlt | [Heq | Hgt]];
    [exfalso | exact Heq | exfalso].
  - pose proof (DayFromYear_mono (YearFromDay d + 1) y ltac:(lia)). lia.
  - pose proof (DayFromYear_mono (y + 1) (YearFromDay d) ltac:(lia)). lia.
Qed.

Lemma DayWithinYear_range (t : Z) :
  0 <= DayWithinYear t < DaysInYear (YearFromTime t).
Proof.
  unfold DayWithinYear, YearFromTime.
  pose proof (YearFromDay_spec (Day t)) as H.
  rewrite DayFromYear_succ in H. lia.
Qed.

(** The month and the day of the month locate the day within its year. *)
Lemma month_date_fields (t : Z) :
  0 <= MonthFromTime t <= 11
  /\ 1 <= DateFromTime t <= 31
  /\ DaysBeforeMonth (YearFromTime t) (MonthFromTime t) + DateFromTime t
     = DayWithinYear t + 1.
Proof.
  pose proof (DayWithinYear_range t) as Hr.
  unfold DateFromTime, MonthFromTime, DaysBeforeMonth, InLeapYear.
  set (d := DayWithinYear t) in *.
  assert (Hl : DaysInYear (YearFromTime t)
               = 365 + (if DaysInYear (YearFromTime t) =? 365 then 0 else 1)).
  { destruct (DaysInYear_cases (YearFromTime t)) as [E | E]; rewrite E;
      reflexivity. }
  set (l := if DaysInYear (YearFromTime t) =? 365 then 0 else 1) in *.
  assert (Hl01 : l = 0 \/ l = 1).
  { unfold l. destruct (DaysInYear (YearFromTime t) =? 365); auto. }
  clearbody l d.
  repeat match goal with
         | |- context [if ?a <? ?b then _ else _] =>
             destruct (Z.ltb_spec a b)
         end; cbv iota; lia.
Qed.

Lemma MonthFromTime_range (t : Z) : 0 <= MonthFromTime t <= 11.
Proof. apply month_date_fields. Qed.

Lemma DateFromTime_range (t : Z) : 1 <= DateFromTime t <= 31.
Proof. apply month_date_fields. Qed.

(** [MakeDay] on the fields of a time value, with the day of the month
    moved by [k], is the day of that time value moved by [k]. *)
Lemma MakeDay_fields (t k : Z) :
  MakeDay (YearFromTime t) (MonthFromTime t) (DateFromTime t + k) = Day t + k.
Proof.
  destruct (month_date_fields t) as (Hm & _ & Hd).
  unfold MakeDay.
  replace (MonthFromTime t / 12) with 0 by lia_div.
  replace (MonthFromTime t mod 12) with (MonthFromTime t) by lia_div.
  rewrite Z.add_0_r.
  unfold DayWithinYear in Hd. lia.
Qed.

(** [MakeDay] meets its ECMA-262 definition: the day it counts from is the
    first of the month [mn] of the year [y]. *)
Lemma MakeDay_first_of_month (y mn : Z) :
  0 <= mn <= 11 ->
  let t := MakeDate (MakeDay y mn 1) 0 in
  YearFromTime t = y /\ MonthFromTime t = mn /\ DateFromTime t = 1.
Proof.
  intros Hm t.
  assert (Hday : Day t = DayFromYear y + DaysBeforeMonth y mn).
  { unfold t, MakeDate, MakeDay, Day, msPerDay.
    replace (mn / 12) with 0 by lia_div.
    replace (mn mod 12) with mn by lia_div.
    rewrite !Z.add_0_r. lia_div. }
  assert (Hl : DaysInYear y = 365 + (if DaysInYear y =? 365 then 0 else 1)).
  { destruct (DaysInYear_cases y) as [E | E]; rewrite E; reflexivity. }
  assert (Hb : 0 <= DaysBeforeMonth y mn < DaysInYear y
               /\ forall l, l = (if DaysInYear y =? 365 then 0 else 1) ->
                  (mn = 0 /\ DaysBeforeMonth y mn = 0)
                  \/ (mn = 1 /\ DaysBeforeMonth y mn = 31)
                  \/ (mn = 2 /\ DaysBeforeMonth y mn = 59 + l)
                  \/ (mn = 3 /\ DaysBeforeMonth y mn = 90 + l)
                  \/ (mn = 4 /\ DaysBeforeMonth y mn = 120 + l)
                  \/ (mn = 5 /\ DaysBeforeMonth y mn = 151 + l)
                  \/ (mn = 6 /\ DaysBeforeMonth y mn = 181 + l)
                  \/ (mn = 7 /\ DaysBeforeMonth y mn = 212 + l)
                  \/ (mn = 8 /\ DaysBeforeMonth y mn = 243 + l)
                  \/ (mn = 9 /\ DaysBeforeMonth y mn = 273 + l)
                  \/ (mn = 10 /\ DaysBeforeMonth y mn = 304 + l)
                  \/ (mn = 11 /\ DaysBeforeMonth y mn = 334 + l)).
  { unfold DaysBeforeMonth.
    set (l := if DaysInYear y =? 365 then 0 else 1) in *.
    assert (l = 0 \/ l = 1) by (unfold l; destruct (_ =? _); auto).
    assert (Hc : mn = 0 \/ mn = 1 \/ mn = 2 \/ mn = 3 \/ mn = 4 \/ mn = 5
                 \/ mn = 6 \/ mn = 7 \/ mn = 8 \/ mn = 9 \/ mn = 10
                 \/ mn = 11) by lia.
    clearbody l.
    repeat (destruct Hc as [-> | Hc]; [split; [lia | intros ? ->; tauto] |]).
    subst mn. split; [lia | intros ? ->; tauto]. }
  destruct Hb as [Hrange Hcases].
  assert (Hy : YearFromTime t = y).
  { unfold YearFromTime. rewrite Hday. apply YearFromDay_unique.
    rewrite DayFromYear_succ. lia. }
  assert (Hw : DayWithinYear t = DaysBeforeMonth y mn).
  { unfold DayWithinYear. rewrite Hy, Hday. lia. }
  split; [exact Hy|].
  unfold DateFromTime, MonthFromTime, InLeapYear. rewrite Hy, Hw.
  set (l := if DaysInYear y =? 365 then 0 else 1) in *.
  assert (Hl01 : l = 0 \/ l = 1) by (unfold l; destruct (_ =? _); auto).
  specialize (Hcases l eq_refl). clearbody l.
  repeat (destruct Hcases as [[-> ->] | Hcases];
          [ repeat match goal with
                   | |- context [if ?a <? ?b then _ else _] =>
                       destruct (Z.ltb_spec a b); try lia
                   end; cbv iota; split; lia |]).
  destruct Hcases as [-> ->].
  repeat match goal with
         | |- context [if ?a <? ?b then _ else _] =>
             destruct (Z.ltb_spec a b); try lia
         end; cbv iota; split; lia.
Qed.

Lemma Day_TimeWithinDay (t : Z) : MakeDate (Day t) (TimeWithinDay t) = t.
Proof. unfold MakeDate, Day, TimeWithinDay, msPerDay. lia_div. Qed.

Lemma Day_shift (t k : Z) : Day (t + k * msPerDay) = Day t + k.
Proof. unfold Day, msPerDay. lia_div. Qed.

Lemma Day_of_midnight (d : Z) : Day (d * msPerDay) = d.
Proof. unfold Day, msPerDay. lia_div. Qed.

Lemma TimeWithinDay_of_midnight (d : Z) : TimeWithinDay (d * msPerDay) = 0.
Proof. unfold TimeWithinDay, msPerDay. lia_div. Qed.

(** The calendar fields depend on the day number only. *)
Lemma YearFromTime_Day (t : Z) : YearFromTime t = YearFromDay (Day t).
Proof. reflexivity. Qed.

Lemma fields_same_day (t u : Z) :
  Day t = Day u ->
  YearFromTime t = YearFromTime u
  /\ MonthFromTime t = MonthFromTime u
  /\ DateFromTime t = DateFromTime u.
Proof.
  intros H.
  unfold DateFromTime, MonthFromTime, InLeapYear, DayWithinYear, YearFromTime.
  rewrite H. auto.
Qed.

End Calendar.
(** ** Dates in a zone of fixed offset *)

Section FixedZone.

Variable tz : HostZone.
Hypothesis tz_fixed : fixed_offset tz.

(** In a zone of fixed offset [setDate] moves a Date by whole days. *)
Lemma setDate_fixed (t k : Z) :
  setDate tz t (getDate tz t + k) = TimeClip (t + k * msPerDay).
Proof.
  destruct tz_fixed as [c Hc].
  unfold setDate, getDate, LocalTime, UTC. rewrite !Hc.
  rewrite MakeDay_fields.
  f_equal.
  pose proof (Day_TimeWithinDay (t + c)) as H.
  unfold MakeDate in *. lia.
Qed.

End FixedZone.

(** ** The text of a date *)

Section DateText.

Lemma digit_cases (k : Z) :
  0 <= k < 10 ->
  k = 0 \/ k = 1 \/ k = 2 \/ k = 3 \/ k = 4 \/ k = 5 \/ k = 6 \/ k = 7
  \/ k = 8 \/ k = 9.
Proof. lia. Qed.

Ltac each_digit H :=
  apply digit_cases in H;
  repeat (destruct H as [H | H]; [subst; reflexivity |]);
  subst; reflexivity.

Lemma digit_of_digit_char (k : Z) :
  0 <= k < 10 -> digit_of (digit_char k) = Some k.
Proof. intros H. each_digit H. Qed.

Lemma digit_char_not_T (k : Z) :
  0 <= k < 10 -> Ascii.eqb (digit_char k) "T" = false.
Proof. intros H. each_digit H. Qed.

Lemma mod10_digit (n : Z) : 0 <= n mod 10 < 10.
Proof. lia_div. Qed.

Lemma split_T_head_pad2 (n : Z) (rest : string) :
  split_T_head (pad2 n rest) = pad2 n (split_T_head rest).
Proof.
  unfold pad2. cbn [split_T_head].
  rewrite !digit_char_not_T by apply mod10_digit. reflexivity.
Qed.

Lemma split_T_head_pad3 (n : Z) (rest : string) :
  split_T_head (pad3 n rest) = pad3 n (split_T_head rest).
Proof.
  unfold pad3. cbn [split_T_head].
  rewrite digit_char_not_T by apply mod10_digit.
  rewrite split_T_head_pad2. reflexivity.
Qed.

Lemma split_T_head_pad4 (n : Z) (rest : string) :
  split_T_head (pad4 n rest) = pad4 n (split_T_head rest).
Proof.
  unfold pad4. cbn [split_T_head].
  rewrite digit_char_not_T by apply mod10_digit.
  rewrite split_T_head_pad3. reflexivity.
Qed.

Lemma split_T_head_iso_year (y : Z) (rest : string) :
  split_T_head (iso_year y rest) = iso_year y (split_T_head rest).
Proof.
  unfold iso_year.
  destruct ((0 <=? y) && (y <=? 9999)).
  - apply split_T_head_pad4.
  - unfold pad6. cbn [split_T_head].
    rewrite !digit_char_not_T by apply mod10_digit.
    rewrite split_T_head_pad4.
    destruct (y <? 0); reflexivity.
Qed.

(** [formatDate] keeps the date part of the ISO string. *)
Lemma formatDate_unfold (t : Z) :
  formatDate t
  = iso_year (YearFromTime t)
      (String "-" (pad2 (MonthFromTime t + 1)
         (String "-" (pad2 (DateFromTime t) EmptyString)))).
Proof.
  unfold formatDate, toISOString.
  rewrite split_T_head_iso_year. cbn [split_T_head Ascii.eqb Bool.eqb].
  rewrite split_T_head_pad2. cbn [split_T_head Ascii.eqb Bool.eqb].
  rewrite split_T_head_pad2. reflexivity.
Qed.

(** [formatDate] reads the UTC day of the time value only. *)
Lemma formatDate_day (t : Z) : formatDate t = day_string (Day t).
Proof.
  unfold day_string. rewrite !formatDate_unfold.
  destruct (fields_same_day t (Day t * msPerDay)) as (-> & -> & ->);
    [ now rewrite Day_of_midnight | reflexivity ].
Qed.

Lemma calendar_day_year (d : Z) :
  is_calendar_day d <-> 0 <= YearFromDay d <= 9999.
Proof.
  unfold is_calendar_day.
  pose proof (YearFromDay_spec d) as Hs.
  split; intros H.
  - split.
    + destruct (Z.le_gt_cases 0 (YearFromDay d)) as [|Hn]; [assumption|].
      pose proof (DayFromYear_mono (YearFromDay d + 1) 0 ltac:(lia)). lia.
    + destruct (Z.le_gt_cases (YearFromDay d) 9999) as [|Hn]; [assumption|].
      pose proof (DayFromYear_mono 10000 (YearFromDay d) ltac:(lia)). lia.
  - pose proof (DayFromYear_mono 0 (YearFromDay d) ltac:(lia)).
    pose proof (DayFromYear_mono (YearFromDay d + 1) 10000 ltac:(lia)). lia.
Qed.

Lemma two_digits_pad (n : Z) :
  0 <= n < 100 ->
  two_digits (digit_char (n / 10 mod 10)) (digit_char (n mod 10)) = Some n.
Proof.
  intros H. unfold two_digits.
  rewrite !digit_of_digit_char by apply mod10_digit.
  f_equal. lia_div.
Qed.

Lemma four_digits_pad (n : Z) :
  0 <= n < 10000 ->
  four_digits (digit_char (n / 1000 mod 10)) (digit_char (n / 100 mod 10))
              (digit_char (n / 10 mod 10)) (digit_char (n mod 10)) = Some n.
Proof.
  intros H. unfold four_digits, two_digits.
  rewrite !digit_of_digit_char by apply mod10_digit.
  f_equal. lia_div.
Qed.

Lemma calendar_day_clip (d : Z) :
  is_calendar_day d -> TimeClip (d * msPerDay) = Some (d * msPerDay).
Proof.
  unfold is_calendar_day, TimeClip, msPerDay.
  change (DayFromYear 0) with (-719528).
  change (DayFromYear 10000) with 2932897.
  intros H. destruct (Z.leb_spec (Z.abs (d * 86400000)) 8640000000000000);
    [reflexivity | lia].
Qed.

Lemma append_String (c : ascii) (s r : string) :
  String.append (String c s) r = String c (String.append s r).
Proof. reflexivity. Qed.

Lemma append_EmptyString (r : string) : String.append EmptyString r = r.
Proof. reflexivity. Qed.

(** Reading back the text of a calendar day, alone or followed by a time
    part, gives the time value of that day's UTC midnight (plus the time). *)
Lemma Date_parse_day_string (d : Z) (rest : string) (time : Z) :
  is_calendar_day d ->
  parse_time_part rest = Some time ->
  Date_parse (String.append (day_string d) rest)
  = TimeClip (MakeDate d time).
Proof.
  intros Hd Ht. unfold day_string. rewrite formatDate_unfold.
  set (t := d * msPerDay).
  destruct (month_date_fields t) as (Hm & Hdt & _).
  assert (Hy : 0 <= YearFromTime t <= 9999).
  { unfold YearFromTime, t. rewrite Day_of_midnight.
    now apply calendar_day_year. }
  unfold iso_year.
  destruct (Z.leb_spec 0 (YearFromTime t)); [|lia].
  destruct (Z.leb_spec (YearFromTime t) 9999); [|lia].
  cbn [andb]. unfold pad4, pad3, pad2.
  rewrite !append_String, append_EmptyString.
  cbn [Date_parse Ascii.eqb Bool.eqb andb].
  rewrite four_digits_pad by lia.
  rewrite !two_digits_pad by lia.
  rewrite Ht.
  destruct (Z.leb_spec 1 (MonthFromTime t + 1)); [|lia].
  destruct (Z.leb_spec (MonthFromTime t + 1) 12); [|lia].
  destruct (Z.leb_spec 1 (DateFromTime t)); [|lia].
  destruct (Z.leb_spec (DateFromTime t) 31); [|lia].
  cbn [andb].
  replace (MonthFromTime t + 1 - 1) with (MonthFromTime t) by lia.
  pose proof (MakeDay_fields t 0) as Hk.
  rewrite Z.add_0_r in Hk. rewrite Hk, Z.add_0_r.
  unfold t. now rewrite Day_of_midnight.
Qed.

Lemma Date_parse_midnight (d : Z) :
  is_calendar_day d ->
  Date_parse (String.append (day_string d) "T00:00:00Z") = Some (d * msPerDay).
Proof.
  intros Hd.
  rewrite (Date_parse_day_string d "T00:00:00Z" 0 Hd eq_refl).
  unfold MakeDate. rewrite Z.add_0_r. now apply calendar_day_clip.
Qed.

Lemma string_append_empty (s : string) : String.append s EmptyString = s.
Proof.
  induction s as [|c s IH]; [reflexivity |].
  now rewrite append_String, IH.
Qed.

Lemma Date_parse_date_only (d : Z) :
  is_calendar_day d -> Date_parse (day_string d) = Some (d * msPerDay).
Proof.
  intros Hd.
  pose proof (Date_parse_day_string d EmptyString 0 Hd eq_refl) as H.
  rewrite string_append_empty in H. rewrite H.
  unfold MakeDate. rewrite Z.add_0_r. now apply calendar_day_clip.
Qed.

(** Distinct calendar days have distinct texts. *)
Lemma day_string_inj (a b : Z) :
  is_calendar_day a -> is_calendar_day b ->
  day_string a = day_string b -> a = b.
Proof.
  intros Ha Hb E.
  pose proof (Date_parse_date_only a Ha) as Pa.
  pose proof (Date_parse_date_only b Hb) as Pb.
  rewrite E, Pb in Pa. injection Pa. unfold msPerDay. lia.
Qed.

End DateText.
(** ** The date-range enumerator [getDateArray] *)

Section Enumerator.

Lemma days_from_S (a : Z) (n : nat) :
  days_from a (S n) = a :: days_from (a + 1) n.
Proof.
  unfold days_from. cbn [seq map]. rewrite Z.add_0_r. f_equal.
  rewrite <- seq_shift, map_map.
  apply map_ext. intros i. lia.
Qed.

Lemma days_from_length (a : Z) (n : nat) : length (days_from a n) = n.
Proof. unfold days_from. now rewrite length_map, length_seq. Qed.

Lemma days_from_lookup (a : Z) (n i : nat) :
  (i < n)%nat -> days_from a n !! i = Some (a + Z.of_nat i).
Proof.
  intros H. unfold days_from.
  rewrite list_lookup_fmap, lookup_seq_lt by assumption. reflexivity.
Qed.

Lemma elem_of_days_from (a : Z) (n : nat) (d : Z) :
  d ∈ days_from a n <-> a <= d < a + Z.of_nat n.
Proof.
  unfold days_from. rewrite list_elem_of_fmap. split.
  - intros (i & -> & Hi). apply elem_of_seq in Hi. lia.
  - intros H. exists (Z.to_nat (d - a)). split; [lia|].
    apply elem_of_seq. lia.
Qed.

Lemma days_from_NoDup (a : Z) (n : nat) : NoDup (days_from a n).
Proof.
  unfold days_from. apply NoDup_fmap_2; [|apply NoDup_seq].
  intros i j. lia.
Qed.

(** More fuel does not change a result. *)
Lemma getDateArray_loop_fuel (tz : HostZone) (fuel extra : nat)
    (cur stop : Z) (dates : list string) :
  getDateArray_loop fuel tz cur stop = Some dates ->
  getDateArray_loop (fuel + extra) tz cur stop = Some dates.
Proof.
  revert cur dates. induction fuel as [|fuel IH]; intros cur dates.
  - discriminate.
  - cbn [getDateArray_loop Nat.add].
    destruct (cur <=? stop); [|trivial].
    destruct (setDate tz cur (getDate tz cur + 1)) as [next|]; [|trivial].
    destruct (getDateArray_loop fuel tz next stop) as [l|] eqn:E;
      [|discriminate].
    now rewrite (IH _ _ E).
Qed.

Lemma day_number_clip (d : Z) :
  -100000000 <= d <= 100000000 ->
  TimeClip (d * msPerDay) = Some (d * msPerDay).
Proof.
  unfold TimeClip, msPerDay. intros H.
  destruct (Z.leb_spec (Z.abs (d * 86400000)) 8640000000000000);
    [reflexivity | lia].
Qed.

Lemma calendar_day_bounds (d : Z) :
  is_calendar_day d -> -719528 <= d < 2932897.
Proof. intros H. exact H. Qed.

Variable tz : HostZone.
Hypothesis tz_fixed : fixed_offset tz.

(** In a zone of fixed offset the loop visits the UTC midnights of the days
    [a, a+1, ..., b] in turn. *)
Lemma getDateArray_loop_fixed (n : nat) :
  forall (fuel : nat) (a b : Z),
    b - a + 1 = Z.of_nat n ->
    (n < fuel)%nat ->
    -100000000 <= a -> b < 100000000 ->
    getDateArray_loop fuel tz (a * msPerDay) (b * msPerDay)
    = Some (map day_string (days_from a n)).
Proof.
  induction n as [|n IH]; intros fuel a b Hn Hf Ha Hb.
  - destruct fuel as [|fuel]; [lia|].
    cbn [getDateArray_loop].
    destruct (Z.leb_spec (a * msPerDay) (b * msPerDay)) as [H|H];
      [unfold msPerDay in H; lia | reflexivity].
  - destruct fuel as [|fuel]; [lia|].
    cbn [getDateArray_loop].
    destruct (Z.leb_spec (a * msPerDay) (b * msPerDay)) as [H|H];
      [| unfold msPerDay in H; lia].
    rewrite (setDate_fixed tz tz_fixed).
    replace (a * msPerDay + 1 * msPerDay) with ((a + 1) * msPerDay) by lia.
    rewrite day_number_clip by lia.
    rewrite (IH fuel (a + 1) b) by lia.
    rewrite days_from_S. cbn [map]. reflexivity.
Qed.

(** [getDateArray] between two calendar days, in a zone of fixed offset. *)
Lemma getDateArray_fixed (fuel : nat) (a b : Z) :
  is_calendar_day a -> is_calendar_day b ->
  (Z.to_nat (b - a + 1) < fuel)%nat ->
  getDateArray fuel tz (day_string a) (day_string b)
  = Some (map day_string (days_from a (Z.to_nat (b - a + 1)))).
Proof.
  intros Ha Hb Hf. unfold getDateArray.
  rewrite !Date_parse_midnight by assumption.
  apply calendar_day_bounds in Ha, Hb.
  destruct (Z.le_gt_cases a b) as [Hab | Hab].
  - apply getDateArray_loop_fixed; lia.
  - replace (Z.to_nat (b - a + 1)) with 0%nat in * by lia.
    destruct fuel as [|fuel]; [lia|].
    cbn [getDateArray_loop].
    destruct (Z.leb_spec (a * msPerDay) (b * msPerDay)) as [H|H];
      [unfold msPerDay in H; lia | reflexivity].
Qed.

End Enumerator.


(** The enumerator's contract, in a host zone of fixed UTC offset (UTC
    itself included): for calendar days [a <= b] the result is the texts of
    the [b - a + 1] consecutive days from [a] to [b], each once, in
    ascending order; for [a > b] it is empty. *)
Lemma getDateArray_fixed_zone_contract (tz : HostZone) (a b : Z) :
  fixed_offset tz -> is_calendar_day a -> is_calendar_day b ->
  exists dates,
    (forall fuel, (Z.to_nat (b - a + 1) < fuel)%nat ->
       getDateArray fuel tz (day_string a) (day_string b) = Some dates)
    /\ (a <= b ->
        Z.of_nat (length dates) = b - a + 1
        /\ NoDup dates
        /\ (forall i : nat, (Z.of_nat i <= b - a) ->
              dates !! i = Some (day_string (a + Z.of_nat i)))
        /\ head dates = Some (day_string a)
        /\ last dates = Some (day_string b))
    /\ (a > b -> dates = []).
Proof.
  intros Hz Ha Hb.
  exists (map day_string (days_from a (Z.to_nat (b - a + 1)))).
  split; [|split].
  - intros fuel Hf. now apply getDateArray_fixed.
  - intros Hab.
    assert (Hlook : forall i : nat, Z.of_nat i <= b - a ->
              map day_string (days_from a (Z.to_nat (b - a + 1))) !! i
              = Some (day_string (a + Z.of_nat i))).
    { intros i Hi. change (map day_string) with (fmap (M:=list) day_string).
      rewrite list_lookup_fmap, days_from_lookup by lia. reflexivity. }
    split; [|split; [|split; [|split]]].
    + rewrite length_map, days_from_length. lia.
    + apply NoDup_fmap_2_strong; [|apply days_from_NoDup].
      intros x y Hx Hy. apply elem_of_days_from in Hx, Hy.
      apply calendar_day_bounds in Ha, Hb.
      apply day_string_inj; unfold is_calendar_day;
        change (DayFromYear 0) with (-719528);
        change (DayFromYear 10000) with 2932897; lia.
    + exact Hlook.
    + rewrite head_lookup. rewrite (Hlook 0%nat) by lia.
      now rewrite Z.add_0_r.
    + rewrite last_lookup, length_map, days_from_length.
      rewrite (Hlook (Nat.pred (Z.to_nat (b - a + 1)))) by lia.
      do 2 f_equal. lia.
  - intros Hab. now replace (Z.to_nat (b - a + 1)) with 0%nat by lia.
Qed.
(** ** The sort *)

Section Sort.

Context {A : Type} (cmp : A -> A -> Z).

Lemma sort_insert_perm (x : A) (l : list A) : sort_insert cmp x l ≡ₚ x :: l.
Proof.
  induction l as [|y l IH]; cbn [sort_insert]; [reflexivity|].
  destruct (cmp x y <=? 0); [reflexivity|].
  rewrite IH. apply Permutation_swap.
Qed.

(** The sort rearranges its argument. *)
Lemma array_sort_perm (l : list A) : array_sort cmp l ≡ₚ l.
Proof.
  induction l as [|x l IH]; [reflexivity|].
  cbn [array_sort fold_right]. fold (array_sort cmp l).
  now rewrite sort_insert_perm, IH.
Qed.

Lemma array_sort_length (l : list A) : length (array_sort cmp l) = length l.
Proof. now rewrite array_sort_perm. Qed.

Lemma sort_insert_last (x : A) (l : list A) :
  Forall (fun y => 0 < cmp x y) l -> sort_insert cmp x l = l ++ [x].
Proof.
  induction 1 as [|y l Hy _ IH]; [reflexivity|].
  cbn [sort_insert]. destruct (Z.leb_spec (cmp x y) 0); [lia|].
  now rewrite IH.
Qed.

(** A list in which every element compares greater than all later ones is
    reversed by the sort. *)
Lemma array_sort_reverses (l : list A) :
  ForallOrdPairs (fun x y => 0 < cmp x y) l -> array_sort cmp l = rev l.
Proof.
  induction 1 as [|x l Hx _ IH]; [reflexivity|].
  cbn [array_sort fold_right rev]. fold (array_sort cmp l).
  rewrite IH. apply sort_insert_last.
  apply List.Forall_forall. intros y Hy. rewrite <- List.in_rev in Hy.
  revert y Hy. now apply List.Forall_forall.
Qed.

End Sort.

(** ** One record of the table *)

Section DailyRecord.

Variables (fbData : gmap string Fb.Entry) (ttData : gmap string Tt.Entry).

Lemma dailyRecord_date (dateStr : string) :
  date (raw (dailyRecord fbData ttData dateStr)) = dateStr.
Proof. reflexivity. Qed.

Lemma dailyRecord_calculated (dateStr : string) :
  calculated (dailyRecord fbData ttData dateStr)
  = Api.calculateAllDerivedMetrics (raw (dailyRecord fbData ttData dateStr)).
Proof. reflexivity. Qed.

(** A day missing from Facebook's mapping gets a zero-filled Facebook part. *)
Lemma dailyRecord_fb_absent (dateStr : string) :
  fbData !! dateStr = None ->
  platform_zero Facebook (dailyRecord fbData ttData dateStr).
Proof.
  intros H. unfold platform_zero, dailyRecord. rewrite H.
  split; [reflexivity | intros []; reflexivity].
Qed.

Lemma dailyRecord_tt_absent (dateStr : string) :
  ttData !! dateStr = None ->
  platform_zero TikTok (dailyRecord fbData ttData dateStr).
Proof.
  intros H. unfold platform_zero, dailyRecord. rewrite H.
  split; [reflexivity | intros []; reflexivity].
Qed.

(** A day present in a mapping keeps the fetched counters. *)
Lemma dailyRecord_fb_present (dateStr : string) (e : Fb.Entry) :
  fbData !! dateStr = Some e ->
  base Facebook (raw (dailyRecord fbData ttData dateStr)) = fb_counters e.
Proof. intros H. unfold dailyRecord. rewrite H. reflexivity. Qed.

Lemma dailyRecord_tt_present (dateStr : string) (e : Tt.Entry) :
  ttData !! dateStr = Some e ->
  base TikTok (raw (dailyRecord fbData ttData dateStr)) = tt_counters e.
Proof. intros H. unfold dailyRecord. rewrite H. reflexivity. Qed.

End DailyRecord.

(** The comparator on the records of two calendar days. *)
Lemma compareFn_days (fbData : gmap string Fb.Entry)
    (ttData : gmap string Tt.Entry) (a b : Z) :
  is_calendar_day a -> is_calendar_day b ->
  compareFn (dailyRecord fbData ttData (day_string a))
            (dailyRecord fbData ttData (day_string b))
  = (b - a) * msPerDay.
Proof.
  intros Ha Hb. unfold compareFn. rewrite !dailyRecord_date.
  rewrite !Date_parse_date_only by assumption. lia.
Qed.

Lemma ForallOrdPairs_map {A B} (f : A -> B) (R : B -> B -> Prop)
    (l : list A) :
  ForallOrdPairs (fun x y => R (f x) (f y)) l -> ForallOrdPairs R (map f l).
Proof.
  induction 1 as [|x l Hx _ IH]; cbn [map]; constructor; [|assumption].
  apply List.Forall_forall. intros y Hy. apply in_map_iff in Hy.
  destruct Hy as (z & <- & Hz). revert z Hz. now apply List.Forall_forall.
Qed.

Lemma days_from_ordered (a : Z) (n : nat) :
  ForallOrdPairs Z.lt (days_from a n).
Proof.
  revert a. induction n as [|n IH]; intros a.
  - constructor.
  - rewrite days_from_S. constructor; [|apply IH].
    apply List.Forall_forall. intros y Hy.
    apply list_elem_of_In, elem_of_days_from in Hy. lia.
Qed.

Lemma ForallOrdPairs_impl_in {A} (R S : A -> A -> Prop) (l : list A) :
  (forall x y, In x l -> In y l -> R x y -> S x y) ->
  ForallOrdPairs R l -> ForallOrdPairs S l.
Proof.
  intros HRS H. induction H as [|x l Hx Hl IH]; constructor.
  - apply List.Forall_forall. intros y Hy.
    apply HRS; [now left | now right |].
    revert y Hy. now apply List.Forall_forall.
  - apply IH. intros y z Hy Hz. apply HRS; now right.
Qed.

(** The table built from consecutive calendar days comes out of the sort
    reversed: most recent day first. *)
Lemma sorted_table_of_days (fbData : gmap string Fb.Entry)
    (ttData : gmap string Tt.Entry) (a : Z) (n : nat) :
  is_calendar_day a -> is_calendar_day (a + Z.of_nat n - 1) ->
  array_sort compareFn
    (map (dailyRecord fbData ttData) (map day_string (days_from a n)))
  = rev (map (dailyRecord fbData ttData) (map day_string (days_from a n))).
Proof.
  intros Ha Hb. apply array_sort_reverses.
  rewrite map_map. apply ForallOrdPairs_map.
  eapply ForallOrdPairs_impl_in; [|apply days_from_ordered].
  intros x y Hx Hy Hlt. cbv beta.
  apply list_elem_of_In, elem_of_days_from in Hx, Hy.
  apply calendar_day_bounds in Ha, Hb.
  rewrite compareFn_days; unfold is_calendar_day;
    change (DayFromYear 0) with (-719528);
    change (DayFromYear 10000) with 2932897; unfold msPerDay; lia.
Qed.
(** ** The handler *)

Lemma daysToFetch_cases (event : Event) :
  daysToFetch event = 90 \/ daysToFetch event = 365.
Proof.
  unfold daysToFetch.
  destruct (default ∅ (query event) !! "days") as [days|]; [|now left].
  destruct (String.eqb days EmptyString); [now left|].
  destruct (parseInt10 days) as [daysParam|]; [|now left].
  destruct (Z.eqb_spec daysParam 90) as [->|]; [now left|].
  destruct (Z.eqb_spec daysParam 365) as [->|]; [now right | now left].
Qed.

Lemma TimeClip_in_range (t : Z) :
  -8640000000000000 <= t <= 8640000000000000 -> TimeClip t = Some t.
Proof.
  intros H. unfold TimeClip.
  destruct (Z.leb_spec (Z.abs t) 8640000000000000); [reflexivity | lia].
Qed.

Lemma clock_day_range (now : Z) :
  clock_in_range now -> 0 <= Day now < 2932897.
Proof.
  unfold clock_in_range, TimeFromYear, Day, msPerDay.
  change (DayFromYear 10000) with 2932897. lia_div.
Qed.

Lemma is_calendar_day_range (d : Z) :
  -719528 <= d < 2932897 -> is_calendar_day d.
Proof. intros H. exact H. Qed.

(** The requests that pass both guards of the handler. *)
Lemma guards_pass (env : Env) (event : Event) :
  is_get_request event = true -> credentials_present env = true ->
  negb (is_GET (httpMethod event)) && negb (is_GET (method event)) = false
  /\ falsy (META_ACCESS_TOKEN env) || falsy (META_AD_ACCOUNT_ID env)
     || falsy (TIKTOK_ACCESS_TOKEN env) || falsy (TIKTOK_ADVERTISER_ID env)
     = false.
Proof.
  unfold is_get_request, credentials_present. intros Hg Hc. split.
  - destruct (is_GET (httpMethod event)), (is_GET (method event));
      try reflexivity; discriminate.
  - destruct (falsy (META_ACCESS_TOKEN env)), (falsy (META_AD_ACCOUNT_ID env)),
      (falsy (TIKTOK_ACCESS_TOKEN env)), (falsy (TIKTOK_ADVERTISER_ID env));
      try reflexivity; discriminate.
Qed.

(** In a host zone of fixed offset, a GET request with the credentials
    configured reaches the adapters, which are called for the [daysToFetch]
    days ending today (UTC); whatever the two fetches settle to, the response
    is the table of those days, most recent first. *)
Lemma handler_fixed_zone (fuel : nat) (tz : HostZone) (env : Env) (now : Z)
    (event : Event) :
  fixed_offset tz -> credentials_present env = true ->
  is_get_request event = true -> clock_in_range now -> (365 < fuel)%nat ->
  let startDay := Day now - (daysToFetch event - 1) in
  exists k,
    handler fuel tz env now now event
    = AwaitAllSettled
        (fetchFacebookData (day_string startDay) (day_string (Day now))
           (META_ACCESS_TOKEN env) (META_AD_ACCOUNT_ID env))
        (fetchTikTokData (day_string startDay) (day_string (Day now))
           (TIKTOK_ACCESS_TOKEN env) (TIKTOK_ADVERTISER_ID env))
        k
    /\ forall fbResult ttResult,
         is_table_response (k fbResult ttResult)
           (rev (map (dailyRecord (value_or_empty fbResult)
                                  (value_or_empty ttResult))
                   (map day_string
                      (days_from startDay (Z.to_nat (daysToFetch event)))))).
Proof.
  intros Hz Hc Hg Hn Hf startDay.
  destruct (guards_pass env event Hg Hc) as [G1 G2].
  pose proof (clock_day_range now Hn) as Hday.
  pose proof (daysToFetch_cases event) as Hd.
  unfold handler. rewrite G1, G2.
  replace (getDate tz now - (daysToFetch event - 1))
    with (getDate tz now + - (daysToFetch event - 1)) by lia.
  rewrite (setDate_fixed tz Hz).
  assert (Hnow : 0 <= now < 2932897 * 86400000).
  { unfold clock_in_range, TimeFromYear, msPerDay in Hn.
    change (DayFromYear 10000) with 2932897 in Hn. lia. }
  rewrite TimeClip_in_range by (unfold msPerDay; lia).
  rewrite !formatDate_day, Day_shift.
  replace (Day now + - (daysToFetch event - 1)) with startDay
    by (unfold startDay; lia).
  eexists. split; [reflexivity|].
  intros fbResult ttResult. cbv beta zeta.
  assert (Ha : is_calendar_day startDay)
    by (apply is_calendar_day_range; unfold startDay; lia).
  assert (Hb : is_calendar_day (Day now)) by (apply is_calendar_day_range; lia).
  assert (Hlen : Z.to_nat (Day now - startDay + 1)
                 = Z.to_nat (daysToFetch event))
    by (f_equal; unfold startDay; lia).
  rewrite (getDateArray_fixed tz Hz) by (assumption || lia).
  rewrite Hlen.
  rewrite sorted_table_of_days;
    [| assumption | apply is_calendar_day_range; unfold startDay; lia].
  reflexivity.
Qed.
(** ** Upstream failure and missing days *)

Lemma utc_zone_fixed : fixed_offset utc_zone.
Proof. exists 0. reflexivity. Qed.

Lemma noon_2024_04_01_in_range : clock_in_range noon_2024_04_01.
Proof. unfold clock_in_range. vm_compute. split; [discriminate | reflexivity]. Qed.

Lemma value_or_empty_rejected {V} (r : Settled (gmap string V)) reason
    (dateStr : string) :
  r = Rejected reason -> value_or_empty r !! dateStr = None.
Proof. intros ->. apply lookup_empty. Qed.

Lemma Forall_rev_map {A B} (P : B -> Prop) (f : A -> B) (l : list A) :
  (forall x, P (f x)) -> Forall P (rev (map f l)).
Proof.
  intros H. apply List.Forall_forall. intros y Hy.
  rewrite <- List.in_rev in Hy. apply in_map_iff in Hy.
  destruct Hy as (x & <- & _). apply H.
Qed.

(** Whatever the host zone and the clock, when the handler has awaited the
    adapters and responds, the response is a 200 table with one record per
    enumerated date, and a platform whose promise was rejected is zero in
    every record. *)
Lemma handler_zero_fill_any_zone (fuel : nat) (tz : HostZone) (env : Env)
    (nowEnd nowStart : Z) (event : Event) fbPromise ttPromise k :
  handler fuel tz env nowEnd nowStart event
  = AwaitAllSettled fbPromise ttPromise k ->
  forall fbResult ttResult response,
    k fbResult ttResult = Some response ->
    exists dates table,
      response = {| statusCode := 200; body := DataBody table |}
      /\ table ≡ₚ map (dailyRecord (value_or_empty fbResult)
                                   (value_or_empty ttResult)) dates
      /\ (forall reason, fbResult = Rejected reason ->
            Forall (platform_zero Facebook) table)
      /\ (forall reason, ttResult = Rejected reason ->
            Forall (platform_zero TikTok) table).
Proof.
  unfold handler.
  destruct (negb (is_GET (httpMethod event)) && negb (is_GET (method event)));
    [discriminate|].
  destruct (falsy (META_ACCESS_TOKEN env) || falsy (META_AD_ACCOUNT_ID env)
            || falsy (TIKTOK_ACCESS_TOKEN env)
            || falsy (TIKTOK_ADVERTISER_ID env)); [discriminate|].
  destruct (setDate tz nowStart _) as [startDate|]; [|discriminate].
  intros H. injection H as _ _ <-.
  intros fbResult ttResult response.
  destruct (getDateArray fuel tz _ _) as [dates|]; [|discriminate].
  intros H. injection H as <-.
  exists dates. eexists. split; [reflexivity|].
  split; [apply array_sort_perm|].
  split; intros reason ->; rewrite array_sort_perm;
    apply List.Forall_forall; intros r Hr; apply in_map_iff in Hr;
    destruct Hr as (s & <- & _).
  - apply dailyRecord_fb_absent, lookup_empty.
  - apply dailyRecord_tt_absent, lookup_empty.
Qed.

(** The handler's run in a host zone of fixed offset: the adapters are run
    against the upstream services for the look-back range and the response
    is built from what they settle to. *)
Lemma run_fixed_zone (fuel : nat) (tz : HostZone) (env : Env) (now : Z)
    (event : Event) upFb upTt :
  fixed_offset tz -> credentials_present env = true ->
  is_get_request event = true -> clock_in_range now -> (365 < fuel)%nat ->
  let startDay := Day now - (daysToFetch event - 1) in
  let fbResult :=
    settle upFb (fetchFacebookData (day_string startDay) (day_string (Day now))
                   (META_ACCESS_TOKEN env) (META_AD_ACCOUNT_ID env)) in
  let ttResult :=
    settle upTt (fetchTikTokData (day_string startDay) (day_string (Day now))
                   (TIKTOK_ACCESS_TOKEN env) (TIKTOK_ADVERTISER_ID env)) in
  is_table_response (run upFb upTt (handler fuel tz env now now event))
    (rev (map (dailyRecord (value_or_empty fbResult) (value_or_empty ttResult))
            (map day_string
               (days_from startDay (Z.to_nat (daysToFetch event)))))).
Proof.
  intros Hz Hc Hg Hn Hf startDay fbResult ttResult.
  destruct (handler_fixed_zone fuel tz env now event Hz Hc Hg Hn Hf)
    as (k & Hh & Hk).
  rewrite Hh. cbn [run]. apply Hk.
Qed.

(** With its credentials present an adapter is rejected when its [fetch]
    is. *)
Lemma adapters_reject_with_fetch (startDate endDate : string)
    (accessToken accountId : option string) (reason : string) :
  falsy accessToken || falsy accountId = false ->
  settle (fun _ => Rejected reason)
    (fetchFacebookData startDate endDate accessToken accountId)
  = Rejected reason
  /\ settle (fun _ => Rejected reason)
       (fetchTikTokData startDate endDate accessToken accountId)
     = Rejected reason.
Proof.
  intros H. unfold fetchFacebookData, fetchTikTokData. rewrite H.
  split; reflexivity.
Qed.

(** X28.  In a host zone of fixed UTC offset and with both clock readings
    equal, for a GET request with the four credentials configured, whatever
    the upstream services do the run ends in a 200 response whose table has
    [daysToFetch] records; when an adapter's promise is rejected, every
    record of the table has that platform's four base counters and five
    derived metrics equal to zero.  This covers one rejection with the other
    fulfilled, and both rejected. *)
Theorem upstream_failure_zero_fills (fuel : nat) (tz : HostZone) (env : Env)
    (now : Z) (event : Event) upFb upTt :
  fixed_offset tz -> credentials_present env = true ->
  is_get_request event = true -> clock_in_range now -> (365 < fuel)%nat ->
  let startDay := Day now - (daysToFetch event - 1) in
  let fbResult :=
    settle upFb (fetchFacebookData (day_string startDay) (day_string (Day now))
                   (META_ACCESS_TOKEN env) (META_AD_ACCOUNT_ID env)) in
  let ttResult :=
    settle upTt (fetchTikTokData (day_string startDay) (day_string (Day now))
                   (TIKTOK_ACCESS_TOKEN env) (TIKTOK_ADVERTISER_ID env)) in
  exists table,
    is_table_response (run upFb upTt (handler fuel tz env now now event)) table
    /\ Z.of_nat (length table) = daysToFetch event
    /\ (forall reason, fbResult = Rejected reason ->
          Forall (platform_zero Facebook) table)
    /\ (forall reason, ttResult = Rejected reason ->
          Forall (platform_zero TikTok) table).
Proof.
  intros Hz Hc Hg Hn Hf startDay fbResult ttResult.
  eexists. split; [now apply run_fixed_zone|].
  fold startDay fbResult ttResult.
  split; [|split].
  - rewrite length_rev, !length_map, days_from_length.
    destruct (daysToFetch_cases event) as [-> | ->]; reflexivity.
  - intros reason Hr. apply Forall_rev_map. intros dateStr.
    apply dailyRecord_fb_absent.
    now apply (value_or_empty_rejected _ reason).
  - intros reason Hr. apply Forall_rev_map. intros dateStr.
    apply dailyRecord_tt_absent.
    now apply (value_or_empty_rejected _ reason).
Qed.

Lemma upstream_failure_zero_fills_witness :
  exists table,
    is_table_response
      (run fb_unauthorized tt_unreachable
         (handler 366 utc_zone sample_env noon_2024_04_01 noon_2024_04_01
                  (get_request (Some "90"))))
      table
    /\ Z.of_nat (length table) = 90
    /\ Forall (platform_zero Facebook) table
    /\ Forall (platform_zero TikTok) table.
Proof.
  destruct (upstream_failure_zero_fills 366 utc_zone sample_env
              noon_2024_04_01 (get_request (Some "90")) fb_unauthorized
              tt_unreachable)
    as (table & Ht & Hl & Hfb & Htt).
  - exists 0. reflexivity.
  - reflexivity.
  - reflexivity.
  - unfold clock_in_range. vm_compute. split; [discriminate | reflexivity].
  - apply Nat.lt_succ_diag_r.
  - exists table. split; [exact Ht|]. split; [exact Hl|]. split.
    + apply (Hfb "Facebook API request failed: Invalid OAuth access token.").
      reflexivity.
    + apply (Htt "fetch failed"). reflexivity.
Defined.

Lemma platform_zero_b_spec (p : Platform) (r : ProcessedMarketingDataEntry) :
  platform_zero_b p r = true -> platform_zero p r.
Proof.
  unfold platform_zero_b, platform_zero. cbv zeta. cbn [forallb].
  rewrite !andb_true_iff, !Leibniz.eqb_spec.
  intros ((((H1 & H2) & H3) & H4) & H5 & H6 & H7 & H8 & H9 & _).
  split.
  - set (b := base p (raw r)) in *. clearbody b. destruct b.
    cbn in *. unfold zero_base. congruence.
  - intros k; destruct k; assumption.
Qed.

Lemma Forall_of_forallb {A} (P : A -> Prop) (f : A -> bool) (l : list A) :
  (forall x, f x = true -> P x) -> forallb f l = true -> Forall P l.
Proof.
  intros Hf H. apply List.Forall_forall. intros x Hx.
  apply Hf. revert x Hx. apply forallb_forall. exact H.
Qed.

(** Every record of a list has the given platform zero, by evaluation. *)
Ltac all_platform_zero :=
  match goal with
  | |- Forall (platform_zero ?p) _ =>
      apply (Forall_of_forallb _ (platform_zero_b p));
      [apply platform_zero_b_spec | vm_compute; reflexivity]
  end.

(** C2 fails on the code: the table that is returned when adapters fail is
    zero-filled but need not have full length.  In UTC, with the first clock
    reading 2024-01-31T23:59:59.999Z, the second one millisecond later and
    both adapters rejecting, a 90-day run returns 59 records, all zero.  In
    America/New_York at 2024-11-15T12:00:00Z (daylight saving ended on
    2024-11-03), with the TikTok adapter rejecting and the Facebook adapter
    fulfilling, a 90-day run returns 89 records, the most recent one for
    2024-11-14 although the requested range ends on 2024-11-15. *)
Theorem upstream_failure_table_not_full_length :
  (exists table,
     is_table_response
       (run fb_unreachable tt_unreachable
          (handler 400 utc_zone sample_env last_ms_of_2024_01_31
                   (last_ms_of_2024_01_31 + 1) (get_request (Some "90"))))
       table
     /\ adapter_results fb_unreachable tt_unreachable
          (handler 400 utc_zone sample_env last_ms_of_2024_01_31
                   (last_ms_of_2024_01_31 + 1) (get_request (Some "90")))
        = Some (Rejected "fetch failed", Rejected "fetch failed")
     /\ daysToFetch (get_request (Some "90")) = 90
     /\ length table = 59%nat
     /\ Forall (platform_zero Facebook) table
     /\ Forall (platform_zero TikTok) table)
  /\ (exists table fbData,
        is_table_response
          (run fb_ten_days tt_unreachable
             (handler 400 new_york_2024 sample_env noon_2024_11_15
                      noon_2024_11_15 (get_request (Some "90"))))
          table
        /\ toISOString noon_2024_11_15 = "2024-11-15T12:00:00.000Z"%string
        /\ fst (upstream_requests fb_ten_days tt_unreachable
                  (handler 400 new_york_2024 sample_env noon_2024_11_15
                           noon_2024_11_15 (get_request (Some "90"))))
           = [ meta_url "2024-08-18" "2024-11-15" (Some "meta-token")
                        (Some "1001") ]
        /\ adapter_results fb_ten_days tt_unreachable
             (handler 400 new_york_2024 sample_env noon_2024_11_15
                      noon_2024_11_15 (get_request (Some "90")))
           = Some (Fulfilled fbData, Rejected "fetch failed")
        /\ length table = 89%nat
        /\ head (table_dates table) = Some "2024-11-14"%string
        /\ last (table_dates table) = Some "2024-08-18"%string
        /\ Forall (platform_zero TikTok) table).
Proof.
  split.
  - eexists. split; [vm_compute; reflexivity|].
    split; [vm_compute; reflexivity|].
    split; [vm_compute; reflexivity|].
    split; [vm_compute; reflexivity|].
    split; all_platform_zero.
  - eexists _, _. split; [vm_compute; reflexivity|].
    split; [vm_compute; reflexivity|].
    split; [vm_compute; reflexivity|].
    split; [vm_compute; reflexivity|].
    split; [vm_compute; reflexivity|].
    split; [vm_compute; reflexivity|].
    split; [vm_compute; reflexivity|].
    all_platform_zero.
Qed.

(** X29.  In a host zone of fixed UTC offset and with both clock readings
    equal, for a GET request with the credentials configured and whatever
    the two fetches settle to, the table has exactly one record for every
    day of the canonical range (the [daysToFetch] days ending today), in
    descending order of day.  In the record of a day that a platform's
    mapping lacks, that platform's four base counters and five derived
    metrics are zero; a platform's counters that the mapping holds for the
    day are carried into the record unchanged, and the derived metrics are
    those of the record's counters. *)
Theorem missing_days_zero_filled (fuel : nat) (tz : HostZone) (env : Env)
    (now : Z) (event : Event) upFb upTt :
  fixed_offset tz -> credentials_present env = true ->
  is_get_request event = true -> clock_in_range now -> (365 < fuel)%nat ->
  let startDay := Day now - (daysToFetch event - 1) in
  let fbData :=
    value_or_empty
      (settle upFb
         (fetchFacebookData (day_string startDay) (day_string (Day now))
            (META_ACCESS_TOKEN env) (META_AD_ACCOUNT_ID env))) in
  let ttData :=
    value_or_empty
      (settle upTt
         (fetchTikTokData (day_string startDay) (day_string (Day now))
            (TIKTOK_ACCESS_TOKEN env) (TIKTOK_ADVERTISER_ID env))) in
  exists table,
    is_table_response (run upFb upTt (handler fuel tz env now now event)) table
    /\ table_dates table
       = rev (map day_string
                (days_from startDay (Z.to_nat (daysToFetch event))))
    /\ forall d : Z,
         startDay <= d <= Day now ->
         exists r,
           r ∈ table
           /\ date (raw r) = day_string d
           /\ (forall r', r' ∈ table -> date (raw r') = day_string d -> r' = r)
           /\ calculated r = Api.calculateAllDerivedMetrics (raw r)
           /\ (fbData !! day_string d = None -> platform_zero Facebook r)
           /\ (ttData !! day_string d = None -> platform_zero TikTok r)
           /\ (forall e, fbData !! day_string d = Some e ->
                 base Facebook (raw r) = fb_counters e)
           /\ (forall e, ttData !! day_string d = Some e ->
                 base TikTok (raw r) = tt_counters e).
Proof.
  intros Hz Hc Hg Hn Hf startDay fbData ttData.
  eexists. split; [now apply run_fixed_zone|].
  fold startDay fbData ttData.
  set (n := Z.to_nat (daysToFetch event)).
  split.
  - unfold table_dates. rewrite map_rev, map_map. f_equal.
    rewrite <- (map_id (map day_string (days_from startDay n))) at 2.
    apply map_ext. intros s. apply dailyRecord_date.
  - intros d Hd.
    assert (Hin : d ∈ days_from startDay n).
    { apply elem_of_days_from. unfold startDay, n in *.
      destruct (daysToFetch_cases event) as [E | E]; rewrite E in *; lia. }
    exists (dailyRecord fbData ttData (day_string d)).
    split; [|split; [reflexivity|split; [|split; [reflexivity|]]]].
    + apply list_elem_of_In. rewrite <- List.in_rev.
      apply in_map, in_map. now apply list_elem_of_In.
    + intros r' Hr' Hdate.
      apply list_elem_of_In in Hr'. rewrite <- List.in_rev in Hr'.
      apply in_map_iff in Hr'. destruct Hr' as (s & <- & _).
      rewrite dailyRecord_date in Hdate. now rewrite Hdate.
    + repeat split.
      * now apply dailyRecord_fb_absent.
      * now apply dailyRecord_fb_absent.
      * now apply dailyRecord_tt_absent.
      * now apply dailyRecord_tt_absent.
      * intros e. apply dailyRecord_fb_present.
      * intros e. apply dailyRecord_tt_present.
Qed.

Lemma missing_days_zero_filled_witness :
  exists table,
    is_table_response
      (run fb_ten_days tt_unreachable
         (handler 366 utc_zone sample_env end_of_march_2024 end_of_march_2024
                  (get_request (Some "90"))))
      table
    /\ table_dates table = rev (map day_string (days_from 19723 90))
    /\ day_string 19723 = "2024-01-01"%string
    /\ day_string 19812 = "2024-03-30"%string
    /\ (exists r, r ∈ table /\ date (raw r) = "2024-01-11"%string
                  /\ platform_zero Facebook r /\ platform_zero TikTok r)
    /\ (exists r, r ∈ table /\ date (raw r) = "2024-01-10"%string
                  /\ base Facebook (raw r) = example_base
                  /\ platform_zero TikTok r).
Proof.
  destruct (missing_days_zero_filled 366 utc_zone sample_env
              end_of_march_2024 (get_request (Some "90")) fb_ten_days
              tt_unreachable)
    as (table & Ht & Hd & Hrec).
  - exists 0. reflexivity.
  - reflexivity.
  - reflexivity.
  - unfold clock_in_range. vm_compute. split; [discriminate | reflexivity].
  - apply Nat.lt_succ_diag_r.
  - exists table. split; [exact Ht|]. split; [exact Hd|].
    split; [reflexivity|]. split; [reflexivity|]. split.
    + destruct (Hrec 19733) as (r & Hin & Hdate & _ & _ & Hfb & Htt & _).
      { vm_compute. split; discriminate. }
      exists r. split; [exact Hin|]. split; [exact Hdate|]. split.
      * apply Hfb. vm_compute. reflexivity.
      * apply Htt. vm_compute. reflexivity.
    + destruct (Hrec 19732) as (r & Hin & Hdate & _ & _ & _ & Htt & Hfb & _).
      { vm_compute. split; discriminate. }
      exists r. split; [exact Hin|]. split; [exact Hdate|]. split.
      * apply (Hfb {| Fb.fbCost := 25; Fb.fbClicks := 50; Fb.fbImpr := 1000;
                      Fb.fbConv := 5 |}).
        vm_compute. reflexivity.
      * apply Htt. vm_compute. reflexivity.
Defined.

(** ** Length, uniqueness and order of the table *)

(** C6 fails on the code: the output is not dense over the range that the
    adapters are asked for.  In America/New_York at 2024-04-01T12:00:00Z
    (daylight saving began on 2024-03-10) a 90-day run asks both adapters
    for 2024-01-03 to 2024-04-01; Facebook reports a row for 2024-04-01 and
    TikTok is unreachable.  The table has 90 records, none of them for
    2024-04-01 (Facebook's counters for that day reach no record, and every
    record is all-zero for Facebook), and two of them for 2024-03-10. *)
Theorem missing_day_has_no_record :
  exists table fbData,
    is_table_response
      (run fb_first_of_april tt_unreachable
         (handler 400 new_york_2024 sample_env noon_2024_04_01
                  noon_2024_04_01 (get_request (Some "90"))))
      table
    /\ upstream_requests fb_first_of_april tt_unreachable
         (handler 400 new_york_2024 sample_env noon_2024_04_01
                  noon_2024_04_01 (get_request (Some "90")))
       = ([ meta_url "2024-01-03" "2024-04-01" (Some "meta-token")
                     (Some "1001") ],
          [ {| Tt.url := tiktok_url;
               Tt.access_token := "tiktok-token";
               Tt.advertiser_id := "2002";
               Tt.start_date := "2024-01-03";
               Tt.end_date := "2024-04-01";
               Tt.page_size := 366 |} ])
    /\ adapter_results fb_first_of_april tt_unreachable
         (handler 400 new_york_2024 sample_env noon_2024_04_01
                  noon_2024_04_01 (get_request (Some "90")))
       = Some (Fulfilled fbData, Rejected "fetch failed")
    /\ fbData !! "2024-04-01"%string
       = Some {| Fb.fbCost := 25; Fb.fbClicks := 50; Fb.fbImpr := 1000;
                 Fb.fbConv := 0 |}
    /\ length table = 90%nat
    /\ Forall (fun r => date (raw r) <> "2024-04-01"%string) table
    /\ Forall (platform_zero Facebook) table
    /\ table_dates table !! 21%nat = Some "2024-03-10"%string
    /\ table_dates table !! 22%nat = Some "2024-03-10"%string.
Proof.
  eexists _, _. split; [vm_compute; reflexivity|].
  split; [vm_compute; reflexivity|].
  split; [vm_compute; reflexivity|].
  split; [vm_compute; reflexivity|].
  split; [vm_compute; reflexivity|].
  split.
  { apply List.Forall_forall. intros r Hr.
    apply (proj1 (forallb_forall
                    (fun r => negb (String.eqb (date (raw r)) "2024-04-01"))
                    _)) with (x := r) in Hr; [| vm_compute; reflexivity].
    apply negb_true_iff, String.eqb_neq in Hr. exact Hr. }
  split; [all_platform_zero|].
  split; vm_compute; reflexivity.
Qed.

Lemma strictly_descending_rev_days (a : Z) (n : nat) :
  strictly_descending (rev (map (fun d => d * msPerDay) (days_from a n))).
Proof.
  induction n as [|n IH]; [exact I|].
  unfold days_from in *. rewrite seq_S, !map_app, rev_app_distr.
  cbn [map rev app].
  destruct n as [|n]; [exact I|].
  rewrite seq_S, !map_app, rev_app_distr in IH |- *.
  cbn [map rev app] in IH |- *.
  split; [unfold msPerDay; lia | exact IH].
Qed.

(** In a host zone of fixed UTC offset the table has [daysToFetch] records,
    no date twice, and strictly descending days. *)
Lemma handler_table_fixed_zone (fuel : nat) (tz : HostZone) (env : Env)
    (now : Z) (event : Event) :
  fixed_offset tz -> credentials_present env = true ->
  is_get_request event = true -> clock_in_range now -> (365 < fuel)%nat ->
  forall upFb upTt,
  exists table,
    is_table_response (run upFb upTt (handler fuel tz env now now event)) table
    /\ Z.of_nat (length table) = daysToFetch event
    /\ NoDup (table_dates table)
    /\ head (table_dates table) = Some (formatDate now)
    /\ exists times,
         table_times table = map Some times /\ strictly_descending times.
Proof.
  intros Hz Hc Hg Hn Hf upFb upTt.
  eexists. split; [now apply run_fixed_zone|].
  pose proof (clock_day_range now Hn) as Hday.
  set (fbData := value_or_empty _). set (ttData := value_or_empty _).
  set (a := Day now - (daysToFetch event - 1)).
  set (n := Z.to_nat (daysToFetch event)).
  assert (Hn' : Z.of_nat n = daysToFetch event).
  { unfold n. destruct (daysToFetch_cases event) as [-> | ->]; reflexivity. }
  assert (Hcal : forall d, d ∈ days_from a n -> is_calendar_day d).
  { intros d Hd. apply elem_of_days_from in Hd.
    apply is_calendar_day_range. unfold a in Hd.
    destruct (daysToFetch_cases event) as [E | E]; rewrite E in *; lia. }
  assert (Hdates : table_dates
                     (rev (map (dailyRecord fbData ttData)
                             (map day_string (days_from a n))))
                   = rev (map day_string (days_from a n))).
  { unfold table_dates. rewrite map_rev, map_map. f_equal.
    rewrite <- (map_id (map day_string (days_from a n))) at 2.
    apply map_ext. intros s. apply dailyRecord_date. }
  split; [|split; [|split]].
  - rewrite length_rev, !length_map, days_from_length. exact Hn'.
  - rewrite Hdates. apply NoDup_ListNoDup, List.NoDup_rev, NoDup_ListNoDup.
    apply NoDup_fmap_2_strong; [|apply days_from_NoDup].
    intros x y Hx Hy. apply day_string_inj; now apply Hcal.
  - rewrite Hdates, formatDate_day.
    assert (Hlast : days_from a n = days_from a (Nat.pred n) ++ [Day now]).
    { assert (Hpos : (0 < n)%nat).
      { destruct (daysToFetch_cases event) as [E | E]; rewrite E in Hn'; lia. }
      unfold days_from. replace n with (S (Nat.pred n)) at 1 by lia.
      rewrite seq_S, map_app. cbn [map Nat.add]. do 2 f_equal.
      unfold a. lia. }
    rewrite Hlast, map_app, rev_app_distr. reflexivity.
  - exists (rev (map (fun d => d * msPerDay) (days_from a n))).
    split; [|apply strictly_descending_rev_days].
    unfold table_times. rewrite !map_rev, !map_map. f_equal.
    apply map_ext_in. intros d Hd. rewrite dailyRecord_date.
    apply Date_parse_date_only, Hcal. now apply list_elem_of_In.
Qed.

(** C3 fails on the code in two ways.  Where the host's zone changes its
    offset inside the range: at 2024-04-01T12:00:00Z in America/New_York a
    90-day run returns 90 records of which two carry the date 2024-03-10, so
    the dates are not unique and not strictly descending, and the most
    recent record is 2024-03-31 although today (UTC) is 2024-04-01.  And, in
    UTC, where the month ends between the two [new Date()] calls: with the
    first reading 2024-01-31T23:59:59.999Z and the second one millisecond
    later, a 90-day run returns 59 records, from 2024-01-31 back to
    2023-12-04. *)
Theorem handler_table_defects :
  (exists table,
     is_table_response
       (run fb_unreachable tt_unreachable
          (handler 400 new_york_2024 sample_env noon_2024_04_01
                   noon_2024_04_01 (get_request (Some "90"))))
       table
     /\ daysToFetch (get_request (Some "90")) = 90
     /\ length table = 90%nat
     /\ table_dates table !! 21%nat = Some "2024-03-10"%string
     /\ table_dates table !! 22%nat = Some "2024-03-10"%string
     /\ ~ NoDup (table_dates table)
     /\ head (table_dates table) = Some "2024-03-31"%string
     /\ formatDate noon_2024_04_01 = "2024-04-01"%string)
  /\ (exists table,
        is_table_response
          (run fb_unreachable tt_unreachable
             (handler 400 utc_zone sample_env last_ms_of_2024_01_31
                      (last_ms_of_2024_01_31 + 1) (get_request (Some "90"))))
          table
        /\ toISOString last_ms_of_2024_01_31
           = "2024-01-31T23:59:59.999Z"%string
        /\ length table = 59%nat
        /\ head (table_dates table) = Some "2024-01-31"%string
        /\ last (table_dates table) = Some "2023-12-04"%string).
Proof.
  split.
  - eexists. split; [vm_compute; reflexivity|].
    split; [reflexivity|]. split; [reflexivity|].
    split; [reflexivity|]. split; [reflexivity|].
    split; [|split; reflexivity].
    intros H. apply NoDup_ListNoDup in H.
    apply (proj1 (List.NoDup_nth _ EmptyString)) with (i := 21%nat)
      (j := 22%nat) in H; [discriminate | cbn; lia | cbn; lia | reflexivity].
  - eexists. split; [vm_compute; reflexivity|].
    repeat split; reflexivity.
Qed.

(** C4 fails on the code where the host's zone changes its offset inside
    the range: in America/New_York the days from 2024-03-09 to 2024-03-12
    are enumerated as 03-09, 03-10, 03-10, 03-11, with a day repeated and the
    end day missing. *)
Theorem getDateArray_repeats_day_across_dst (extra : nat) :
  day_string 19791 = "2024-03-09"%string
  /\ day_string 19794 = "2024-03-12"%string
  /\ getDateArray (5 + extra) new_york_2024 "2024-03-09" "2024-03-12"
     = Some [ "2024-03-09"; "2024-03-10"; "2024-03-10"; "2024-03-11" ]%string.
Proof.
  split; [reflexivity|]. split; [reflexivity|].
  unfold getDateArray.
  change (Date_parse (String.append "2024-03-09" "T00:00:00Z"))
    with (Some 1709942400000).
  change (Date_parse (String.append "2024-03-12" "T00:00:00Z"))
    with (Some 1710201600000).
  apply getDateArray_loop_fuel. vm_compute. reflexivity.
Qed.
(** ** The [days] parameter *)

Lemma daysToFetch_365 (event : Event) :
  daysToFetch event = 365
  <-> exists days, default ∅ (query event) !! "days" = Some days
                   /\ parseInt10 days = Some 365.
Proof.
  unfold daysToFetch. split.
  - destruct (default ∅ (query event) !! "days") as [days|]; [|discriminate].
    destruct (String.eqb days EmptyString); [discriminate|].
    destruct (parseInt10 days) as [daysParam|] eqn:Hp; [|discriminate].
    destruct (Z.eqb_spec daysParam 90) as [->|]; [discriminate|].
    destruct (Z.eqb_spec daysParam 365) as [->|]; [|discriminate].
    intros _. exists days. split; [reflexivity | exact Hp].
  - intros (days & -> & Hp).
    destruct (String.eqb_spec days EmptyString) as [->|]; [discriminate Hp|].
    rewrite Hp. reflexivity.
Qed.

Lemma leading_digits_uint (d : Decimal.uint) :
  leading_digits (NilEmpty.string_of_uint d) = uint_digits d.
Proof. induction d; cbn; now rewrite ?IHd. Qed.

Lemma of_uint_acc_fold (d : Decimal.uint) (acc : positive) :
  Z.pos (Pos.of_uint_acc d acc)
  = fold_left (fun a k => 10 * a + k) (uint_digits d) (Z.pos acc).
Proof.
  revert acc. induction d; intros acc; cbn [Pos.of_uint_acc uint_digits fold_left];
    rewrite ?IHd; try reflexivity; f_equal; lia.
Qed.

Lemma of_uint_fold (d : Decimal.uint) :
  Z.of_N (Pos.of_uint d) = decimal_value (uint_digits d).
Proof.
  unfold decimal_value.
  induction d; cbn [Pos.of_uint uint_digits fold_left]; try reflexivity;
    try (rewrite IHd; reflexivity);
    cbn [Z.of_N]; rewrite of_uint_acc_fold; reflexivity.
Qed.

Lemma uint_digits_nonnil (d : Decimal.uint) :
  d <> Decimal.Nil -> uint_digits d <> [].
Proof. destruct d; intros H; try discriminate. now contradiction H. Qed.

Lemma skip_white_space_uint (d : Decimal.uint) :
  skip_white_space (NilEmpty.string_of_uint d) = NilEmpty.string_of_uint d.
Proof. destruct d; reflexivity. Qed.

Lemma parseInt10_uint (d : Decimal.uint) :
  d <> Decimal.Nil ->
  parseInt10 (NilEmpty.string_of_uint d) = Some (Z.of_N (Pos.of_uint d))
  /\ parseInt10 (String "-" (NilEmpty.string_of_uint d))
     = Some (- Z.of_N (Pos.of_uint d)).
Proof.
  intros Hd. pose proof (uint_digits_nonnil d Hd) as Hn.
  rewrite of_uint_fold. unfold parseInt10. split.
  - rewrite skip_white_space_uint.
    assert (E : (match NilEmpty.string_of_uint d with
                 | String c rest =>
                     if Ascii.eqb c "-" then (-1, rest)
                     else if Ascii.eqb c "+" then (1, rest)
                     else (1, NilEmpty.string_of_uint d)
                 | EmptyString => (1, NilEmpty.string_of_uint d)
                 end) = (1, NilEmpty.string_of_uint d)).
    { destruct d; reflexivity. }
    rewrite E, leading_digits_uint.
    destruct (uint_digits d); [contradiction | f_equal; lia].
  - change (match leading_digits (NilEmpty.string_of_uint d) with
            | [] => None
            | ds => Some (-1 * decimal_value ds)
            end = Some (- decimal_value (uint_digits d))).
    rewrite leading_digits_uint.
    destruct (uint_digits d); [contradiction | f_equal; lia].
Qed.

(** [parseInt] reads the decimal text of an integer back. *)
Lemma parseInt10_template_number (n : Z) :
  parseInt10 (template_number n) = Some n.
Proof.
  unfold template_number.
  pose proof (DecimalZ.of_to n) as H.
  destruct n as [|p|p]; [reflexivity| |].
  - cbn [Z.to_int NilZero.string_of_int] in *.
    pose proof (DecimalPos.Unsigned.to_uint_nonnil p) as Hn.
    unfold NilZero.string_of_uint.
    destruct (Pos.to_uint p) eqn:E; [contradiction | ..];
      rewrite <- E in *;
      rewrite (proj1 (parseInt10_uint _ Hn)); exact (f_equal Some H).
  - cbn [Z.to_int NilZero.string_of_int] in *.
    pose proof (DecimalPos.Unsigned.to_uint_nonnil p) as Hn.
    unfold NilZero.string_of_uint.
    destruct (Pos.to_uint p) eqn:E; [contradiction | ..];
      rewrite <- E in *;
      rewrite (proj2 (parseInt10_uint _ Hn)); exact (f_equal Some H).
Qed.

Lemma daysToFetch_of_number (n : Z) :
  daysToFetch (get_request (Some (template_number n)))
  = if (n =? 90) || (n =? 365) then n else 90.
Proof.
  unfold daysToFetch, get_request. cbn [query default from_option id].
  rewrite lookup_singleton_eq.
  pose proof (parseInt10_template_number n) as Hp.
  destruct (String.eqb_spec (template_number n) EmptyString) as [E|_].
  - rewrite E in Hp. discriminate Hp.
  - now rewrite Hp.
Qed.

(** The handler reads the event through its method fields and
    [daysToFetch] only. *)
Lemma handler_reads_daysToFetch (fuel : nat) (tz : HostZone) (env : Env)
    (nowEnd nowStart : Z) (event event' : Event) :
  httpMethod event = httpMethod event' -> method event = method event' ->
  daysToFetch event = daysToFetch event' ->
  handler fuel tz env nowEnd nowStart event
  = handler fuel tz env nowEnd nowStart event'.
Proof. intros H1 H2 H3. unfold handler. now rewrite H1, H2, H3. Qed.

(** C7 (as amended): the look-back is always 90 or 365; it is 365 exactly
    when the [days] parameter is present and [parseInt(days, 10)] is 365, and
    90 in every other case (parameter absent or empty, no leading integer,
    any other integer); an integer [n] requested as its decimal text, as the
    frontend does, is used when it is 90 or 365 and replaced by 90 otherwise.
    A request is never refused for its [days] value: the handler treats it
    as it treats any request of the same method and look-back, and a GET
    request with the credentials configured is answered 200 with a table of
    that many records (shown in a host zone of fixed offset). *)
Theorem days_parameter_policy (event : Event) :
  (daysToFetch event = 90 \/ daysToFetch event = 365)
  /\ (daysToFetch event = 365
      <-> exists days, default ∅ (query event) !! "days" = Some days
                       /\ parseInt10 days = Some 365)
  /\ (forall n : Z,
        daysToFetch (get_request (Some (template_number n)))
        = if (n =? 90) || (n =? 365) then n else 90)
  /\ daysToFetch (get_request None) = 90
  /\ (forall fuel tz env nowEnd nowStart event',
        httpMethod event = httpMethod event' ->
        method event = method event' ->
        daysToFetch event = daysToFetch event' ->
        handler fuel tz env nowEnd nowStart event
        = handler fuel tz env nowEnd nowStart event')
  /\ (forall fuel tz env now upFb upTt,
        fixed_offset tz -> credentials_present env = true ->
        is_get_request event = true -> clock_in_range now ->
        (365 < fuel)%nat ->
        exists table,
          is_table_response
            (run upFb upTt (handler fuel tz env now now event)) table
          /\ Z.of_nat (length table) = daysToFetch event).
Proof.
  split; [apply daysToFetch_cases|].
  split; [apply daysToFetch_365|].
  split; [apply daysToFetch_of_number|].
  split; [reflexivity|].
  split; [intros; now apply handler_reads_daysToFetch|].
  intros fuel tz env now upFb upTt Hz Hc Hg Hn Hf.
  destruct (handler_table_fixed_zone fuel tz env now event Hz Hc Hg Hn Hf
              upFb upTt) as (table & Ht & Hl & _).
  now exists table.
Qed.

(** C7, the claim as stated fails: the values "365.9" and "365days" are not
    exactly 365, yet they are not replaced with the default 90: the
    look-back is 365. *)
Lemma fractional_days_value_accepted :
  daysToFetch (get_request (Some "365.9")) = 365
  /\ daysToFetch (get_request (Some "365days")) = 365
  /\ daysToFetch (get_request None) = 90.
Proof. repeat split; reflexivity. Qed.

(** ** The credentials checks *)

(** C8 (as amended): when the four credentials are not all present (each
    defined and not empty), a GET request is answered 503 "Service
    Unavailable"; whatever the method, the handler responds at once with an
    error body, so no adapter is invoked, no upstream request is sent and no
    table is built. *)
Theorem missing_credentials_refused (fuel : nat) (tz : HostZone) (env : Env)
    (nowEnd nowStart : Z) (event : Event) :
  credentials_present env = false ->
  (is_get_request event = true ->
     handler fuel tz env nowEnd nowStart event
     = Respond (error_response 503
                  "Service Unavailable: API credentials missing."))
  /\ (exists code message,
        handler fuel tz env nowEnd nowStart event
        = Respond (error_response code message))
  /\ (forall upFb upTt,
        upstream_calls upFb upTt (handler fuel tz env nowEnd nowStart event)
        = 0%nat).
Proof.
  intros Hc.
  assert (Hf : falsy (META_ACCESS_TOKEN env) || falsy (META_AD_ACCOUNT_ID env)
               || falsy (TIKTOK_ACCESS_TOKEN env)
               || falsy (TIKTOK_ADVERTISER_ID env) = true).
  { unfold credentials_present in Hc.
    destruct (falsy (META_ACCESS_TOKEN env)),
      (falsy (META_AD_ACCOUNT_ID env)), (falsy (TIKTOK_ACCESS_TOKEN env)),
      (falsy (TIKTOK_ADVERTISER_ID env)); try reflexivity; discriminate. }
  unfold handler, is_get_request. rewrite Hf.
  destruct (is_GET (httpMethod event)), (is_GET (method event));
    cbn [negb andb orb]; (split; [|split]);
    try discriminate; try reflexivity; eauto.
Qed.

Lemma missing_credentials_refused_witness :
  credentials_present env_without_tiktok_token = false
  /\ handler 366 utc_zone env_without_tiktok_token noon_2024_04_01
             noon_2024_04_01 (get_request (Some "90"))
     = Respond (error_response 503
                  "Service Unavailable: API credentials missing.").
Proof.
  split; [reflexivity|].
  apply (missing_credentials_refused 366 utc_zone env_without_tiktok_token
           noon_2024_04_01 noon_2024_04_01 (get_request (Some "90")));
    reflexivity.
Defined.

(** C8, the claim as stated fails for a request that is not a GET: with a
    credential missing the handler answers 405, not 503. *)
Lemma method_check_precedes_credentials_check :
  credentials_present env_without_tiktok_token = false
  /\ handler 366 utc_zone env_without_tiktok_token noon_2024_04_01
             noon_2024_04_01 post_request
     = Respond (error_response 405 "Method Not Allowed. Please use GET.")
  /\ statusCode (error_response 405 "Method Not Allowed. Please use GET.")
     <> 503.
Proof. repeat split; try reflexivity. discriminate. Qed.

(** C9 (as amended): called with a credential absent (undefined or the
    empty string), either adapter returns the empty mapping at once: its
    promise is fulfilled with the empty mapping and no request is sent,
    whatever the upstream service would answer. *)
Theorem adapter_without_credentials (startDate endDate : string)
    (accessToken accountId : option string) :
  falsy accessToken || falsy accountId = true ->
  (fetchFacebookData startDate endDate accessToken accountId = Return ∅
   /\ forall upstream,
        settle upstream
          (fetchFacebookData startDate endDate accessToken accountId)
        = Fulfilled ∅
        /\ requests upstream
             (fetchFacebookData startDate endDate accessToken accountId) = [])
  /\ (fetchTikTokData startDate endDate accessToken accountId = Return ∅
      /\ forall upstream,
           settle upstream
             (fetchTikTokData startDate endDate accessToken accountId)
           = Fulfilled ∅
           /\ requests upstream
                (fetchTikTokData startDate endDate accessToken accountId) = []).
Proof.
  intros H. unfold fetchFacebookData, fetchTikTokData. rewrite H.
  repeat split; reflexivity.
Qed.

Lemma adapter_without_credentials_witness :
  fetchFacebookData "2024-01-03" "2024-04-01" None (Some "1001") = Return ∅
  /\ fetchTikTokData "2024-01-03" "2024-04-01" (Some "") (Some "2002")
     = Return ∅.
Proof.
  split.
  - apply (adapter_without_credentials "2024-01-03" "2024-04-01" None
             (Some "1001")). reflexivity.
  - apply (adapter_without_credentials "2024-01-03" "2024-04-01" (Some "")
             (Some "2002")). reflexivity.
Defined.

(** C9, the claim as stated fails for credentials that are present but
    invalid: the adapter sends its request, and when the upstream refuses
    the token (status 401) the adapter's promise is rejected rather than
    fulfilled with an empty mapping. *)
Lemma invalid_credentials_reach_upstream :
  falsy (Some "expired-token") || falsy (Some "1001") = false
  /\ length (requests fb_unauthorized
               (fetchFacebookData "2024-01-03" "2024-04-01"
                  (Some "expired-token") (Some "1001"))) = 1%nat
  /\ settle fb_unauthorized
       (fetchFacebookData "2024-01-03" "2024-04-01" (Some "expired-token")
          (Some "1001"))
     = Rejected "Facebook API request failed: Invalid OAuth access token."
  /\ settle fb_unauthorized
       (fetchFacebookData "2024-01-03" "2024-04-01" (Some "expired-token")
          (Some "1001"))
     <> Fulfilled ∅.
Proof. repeat split; try reflexivity. discriminate. Qed.

(** ** Further properties of the backend's dates *)

Lemma pad2_length (n : Z) (rest : string) :
  String.length (pad2 n rest) = S (S (String.length rest)).
Proof. reflexivity. Qed.

Lemma day_string_length (d : Z) :
  is_calendar_day d -> String.length (day_string d) = 10%nat.
Proof.
  intros Hd. unfold day_string. rewrite formatDate_unfold.
  apply calendar_day_year in Hd.
  unfold YearFromTime. rewrite Day_of_midnight. unfold iso_year.
  replace ((0 <=? YearFromDay d) && (YearFromDay d <=? 9999)) with true
    by (symmetry; apply andb_true_iff; split; apply Z.leb_le; lia).
  reflexivity.
Qed.

(** X1.  [formatDate] and the parser are inverse on calendar days: for a time
    value [t] of the years 0 to 9999, [formatDate t] is a text of ten
    characters that [new Date(...)] reads back, with or without the suffix
    [T00:00:00Z] that [getDateArray] appends, as the UTC midnight of the day
    of [t]; formatting that midnight gives the same text again, and two time
    values get the same text exactly when they lie on the same UTC day. *)
Theorem formatDate_parse_round_trip (t : Z) :
  is_calendar_day (Day t) ->
  String.length (formatDate t) = 10%nat
  /\ Date_parse (formatDate t) = Some (Day t * msPerDay)
  /\ Date_parse (String.append (formatDate t) "T00:00:00Z")
     = Some (Day t * msPerDay)
  /\ formatDate (Day t * msPerDay) = formatDate t
  /\ forall u, is_calendar_day (Day u) ->
       (formatDate t = formatDate u <-> Day t = Day u).
Proof.
  intros Ht. rewrite (formatDate_day t).
  split; [apply day_string_length; assumption|].
  split; [apply Date_parse_date_only; assumption|].
  split; [apply Date_parse_midnight; assumption|].
  split; [reflexivity|].
  intros u Hu. rewrite (formatDate_day u). split.
  - apply day_string_inj; assumption.
  - intros ->. reflexivity.
Qed.

Lemma formatDate_parse_round_trip_witness :
  formatDate noon_2024_04_01 = "2024-04-01"%string
  /\ Date_parse (formatDate noon_2024_04_01) = Some (Day noon_2024_04_01 * msPerDay)
  /\ Day noon_2024_04_01 * msPerDay = 1711929600000.
Proof.
  destruct (formatDate_parse_round_trip noon_2024_04_01) as (_ & Hp & _).
  - unfold is_calendar_day. vm_compute. split; [discriminate | reflexivity].
  - split; [reflexivity|]. split; [exact Hp | reflexivity].
Defined.

(** X2.  In a host zone of fixed UTC offset, [getDateArray] between two
    calendar days [a <= b] returns the texts of the days [a, a+1, ..., b]:
    [b - a + 1] of them, each day once, in ascending order, the first being
    the start day and the last the end day. *)
Theorem getDateArray_enumerates_each_day_once (tz : HostZone) (fuel : nat)
    (a b : Z) :
  fixed_offset tz -> is_calendar_day a -> is_calendar_day b -> a <= b ->
  (Z.to_nat (b - a + 1) < fuel)%nat ->
  exists dates,
    getDateArray fuel tz (day_string a) (day_string b) = Some dates
    /\ Z.of_nat (length dates) = b - a + 1
    /\ NoDup dates
    /\ (forall d, day_string d ∈ dates -> is_calendar_day d -> a <= d <= b)
    /\ (forall i : nat, Z.of_nat i <= b - a ->
          dates !! i = Some (day_string (a + Z.of_nat i)))
    /\ head dates = Some (day_string a)
    /\ last dates = Some (day_string b).
Proof.
  intros Htz Ha Hb Hab Hf.
  exists (map day_string (days_from a (Z.to_nat (b - a + 1)))).
  assert (Hcal : forall d, d ∈ days_from a (Z.to_nat (b - a + 1)) ->
                           is_calendar_day d).
  { intros d Hd. apply elem_of_days_from in Hd.
    unfold is_calendar_day in *. lia. }
  assert (Hlook : forall i : nat, Z.of_nat i <= b - a ->
            map day_string (days_from a (Z.to_nat (b - a + 1))) !! i
            = Some (day_string (a + Z.of_nat i))).
  { intros i Hi. rewrite list_lookup_fmap, days_from_lookup by lia.
    reflexivity. }
  split; [apply (getDateArray_fixed tz Htz); assumption|].
  split; [rewrite length_map, days_from_length; lia|].
  split.
  { apply NoDup_fmap_2_strong; [| apply days_from_NoDup].
    intros x y Hx Hy. apply day_string_inj; auto. }
  split.
  { intros d Hd Hcd. apply list_elem_of_fmap in Hd as (d' & Heq & Hd').
    apply day_string_inj in Heq; [| assumption | apply Hcal; assumption].
    subst d'. apply elem_of_days_from in Hd'. lia. }
  split; [exact Hlook|].
  split.
  { rewrite head_lookup. rewrite (Hlook 0%nat) by lia.
    rewrite Z.add_0_r. reflexivity. }
  rewrite last_lookup, length_map, days_from_length.
  rewrite (Hlook (Nat.pred (Z.to_nat (b - a + 1)))) by lia.
  f_equal. f_equal. lia.
Qed.

Lemma getDateArray_enumerates_each_day_once_witness :
  exists dates,
    getDateArray 5 (fixed_zone (-18000000)) "2024-03-09" "2024-03-12"
    = Some dates
    /\ dates = [ "2024-03-09"; "2024-03-10"; "2024-03-11"; "2024-03-12" ]%string.
Proof.
  destruct (getDateArray_enumerates_each_day_once (fixed_zone (-18000000)) 5
              19791 19794)
    as (dates & Hd & _).
  - exists (-18000000). reflexivity.
  - unfold is_calendar_day. vm_compute. split; [discriminate | reflexivity].
  - unfold is_calendar_day. vm_compute. split; [discriminate | reflexivity].
  - lia.
  - vm_compute. lia.
  - exists dates. split; [exact Hd|].
    vm_compute in Hd. injection Hd as <-. reflexivity.
Defined.

Lemma days_from_app (a : Z) (n m : nat) :
  days_from a (n + m) = days_from a n ++ days_from (a + Z.of_nat n) m.
Proof.
  revert a. induction n as [|n IH]; intros a.
  - cbn [Nat.add]. unfold days_from at 2. cbn [seq map app].
    rewrite Z.add_0_r. reflexivity.
  - cbn [Nat.add]. rewrite !days_from_S, IH. cbn [app]. do 3 f_equal. lia.
Qed.

(** X3.  In a host zone of fixed UTC offset the enumeration of a range is the
    concatenation of the enumerations of its two halves: the days [a..c] are
    the days [a..b] followed by the days [b+1..c]. *)
Theorem getDateArray_adjacent_ranges (tz : HostZone) (fuel : nat)
    (a b c : Z) :
  fixed_offset tz -> is_calendar_day a -> is_calendar_day c ->
  a <= b -> b < c -> (Z.to_nat (c - a + 1) < fuel)%nat ->
  exists first second,
    getDateArray fuel tz (day_string a) (day_string b) = Some first
    /\ getDateArray fuel tz (day_string (b + 1)) (day_string c) = Some second
    /\ getDateArray fuel tz (day_string a) (day_string c)
       = Some (first ++ second).
Proof.
  intros Htz Ha Hc Hab Hbc Hf.
  assert (Hb : is_calendar_day b) by (unfold is_calendar_day in *; lia).
  assert (Hb1 : is_calendar_day (b + 1))
    by (unfold is_calendar_day in *; lia).
  eexists _, _.
  split; [apply (getDateArray_fixed tz Htz); [assumption..|lia]|].
  split; [apply (getDateArray_fixed tz Htz); [assumption..|lia]|].
  rewrite (getDateArray_fixed tz Htz) by assumption.
  f_equal. rewrite <- List.map_app. f_equal.
  replace (Z.to_nat (c - a + 1))
    with (Z.to_nat (b - a + 1) + Z.to_nat (c - (b + 1) + 1))%nat by lia.
  rewrite days_from_app. f_equal. f_equal. lia.
Qed.

Lemma getDateArray_adjacent_ranges_witness :
  exists first second,
    getDateArray 5 utc_zone "2024-03-09" "2024-03-10" = Some first
    /\ getDateArray 5 utc_zone "2024-03-11" "2024-03-12" = Some second
    /\ getDateArray 5 utc_zone "2024-03-09" "2024-03-12"
       = Some (first ++ second).
Proof.
  apply (getDateArray_adjacent_ranges utc_zone 5 19791 19792 19794).
  - exists 0. reflexivity.
  - unfold is_calendar_day. vm_compute. split; [discriminate | reflexivity].
  - unfold is_calendar_day. vm_compute. split; [discriminate | reflexivity].
  - lia.
  - lia.
  - vm_compute. lia.
Defined.




(** ** Further properties of the source adapters *)

(** X5.  With both Facebook credentials set, [fetchFacebookData] sends
    exactly one request, to the insights URL of the date range, and it
    fulfils only when that request is answered with an [ok] status and a
    JSON body; the value is then built from the body's rows alone.  It
    rejects in every other case: with the reason of the failed [fetch] or
    of the body that is not JSON, or, for a status that is not [ok], with
    the upstream's error message (the status text when there is none). *)
Theorem fetchFacebookData_outcome (startDate endDate : string)
    (accessToken adAccountId : option string)
    (upstream : Fb.Request -> Settled (HttpResponse Fb.Body)) :
  falsy accessToken || falsy adAccountId = false ->
  let url := meta_url startDate endDate accessToken adAccountId in
  let p := fetchFacebookData startDate endDate accessToken adAccountId in
  requests upstream p = [url]
  /\ (forall processedData,
        settle upstream p = Fulfilled processedData
        <-> exists response jsonResponse,
              upstream url = Fulfilled response
              /\ ok response = true
              /\ json response = Fulfilled jsonResponse
              /\ processedData
                 = fold_left fb_store (default [] (Fb.data jsonResponse)) ∅)
  /\ (forall reason,
        settle upstream p = Rejected reason
        <-> upstream url = Rejected reason
            \/ (exists response,
                  upstream url = Fulfilled response
                  /\ json response = Rejected reason)
            \/ (exists response errorData,
                  upstream url = Fulfilled response
                  /\ ok response = false
                  /\ json response = Fulfilled errorData
                  /\ reason
                     = String.append "Facebook API request failed: "
                         (or_else (Fb.error_message errorData)
                                  (statusText response)))).
Proof.
  intros Hc url p. subst url p. unfold fetchFacebookData. rewrite Hc.
  cbn [requests settle].
  destruct (upstream (meta_url startDate endDate accessToken adAccountId))
    as [response | reason0] eqn:Hu.
  - destruct (ok response) eqn:Hok; cbn [negb];
      destruct (json response) as [b | reason1] eqn:Hj; cbn [requests settle].
    + split; [reflexivity|]. split.
      * intros m. split.
        -- intros [= <-]. exists response, b. auto.
        -- intros (r' & b' & [= <-] & _ & Hj' & ->).
           rewrite Hj in Hj'. injection Hj' as <-. reflexivity.
      * intros reason. split; [discriminate|].
        intros [H | [(r' & [= <-] & Hj') | (r' & e & [= <-] & Hok' & _)]];
          congruence.
    + split; [reflexivity|]. split.
      * intros m. split; [discriminate|].
        intros (r' & b' & [= <-] & _ & Hj' & _). congruence.
      * intros reason. split.
        -- intros [= <-]. right. left. exists response. auto.
        -- intros [H | [(r' & [= <-] & Hj') | (r' & e & [= <-] & Hok' & _)]];
             congruence.
    + split; [reflexivity|]. split.
      * intros m. split; [discriminate|].
        intros (r' & b' & [= <-] & Hok' & _). congruence.
      * intros reason. split.
        -- intros [= <-]. right. right. exists response, b. auto.
        -- intros [H | [(r' & [= <-] & Hj')
                       | (r' & e & [= <-] & _ & Hj' & ->)]];
             [congruence | congruence |].
           rewrite Hj in Hj'. injection Hj' as <-. reflexivity.
    + split; [reflexivity|]. split.
      * intros m. split; [discriminate|].
        intros (r' & b' & [= <-] & Hok' & _). congruence.
      * intros reason. split.
        -- intros [= <-]. right. left. exists response. auto.
        -- intros [H | [(r' & [= <-] & Hj')
                       | (r' & e & [= <-] & _ & Hj' & _)]];
             congruence.
  - cbn [requests settle]. split; [reflexivity|]. split.
    + intros m. split; [discriminate|].
      intros (r' & b' & H & _). discriminate.
    + intros reason. split.
      * intros [= <-]. left. reflexivity.
      * intros [[= <-] | [(r' & H & _) | (r' & e & H & _)]];
          [reflexivity | discriminate | discriminate].
Qed.

Lemma fetchFacebookData_outcome_witness :
  requests fb_unauthorized
    (fetchFacebookData "2024-01-03" "2024-04-01" (Some "meta-token")
       (Some "1001"))
  = [ meta_url "2024-01-03" "2024-04-01" (Some "meta-token") (Some "1001") ]
  /\ meta_url "2024-01-03" "2024-04-01" (Some "meta-token") (Some "1001")
     = ("https://graph.facebook.com/v19.0/act_1001/insights?level=account"
        ++ "&fields=spend,clicks,impressions,actions"
        ++ "&time_range={'since':'2024-01-03','until':'2024-04-01'}"
        ++ "&time_increment=1&access_token=meta-token")%string.
Proof.
  destruct (fetchFacebookData_outcome "2024-01-03" "2024-04-01"
              (Some "meta-token") (Some "1001") fb_unauthorized)
    as (Hr & _).
  - reflexivity.
  - split; [exact Hr | reflexivity].
Defined.

Lemma prefix_append (p s : string) : String.prefix p (String.append p s) = true.
Proof.
  induction p as [|c p IH];
    [rewrite append_EmptyString; destruct s; reflexivity|].
  rewrite append_String. cbn [String.prefix].
  destruct (ascii_dec c c); [exact IH | contradiction].
Qed.

(** X6.  With both TikTok credentials set, [fetchTikTokData] sends exactly
    one report request, which carries the token, the advertiser, the date
    range and the page size 366, and it fulfils only when the answer has an
    [ok] status, a JSON body and the application code 0; an [ok] answer with
    another code is a rejection, like a failed request. *)
Theorem fetchTikTokData_outcome (startDate endDate : string)
    (accessToken advertiserId : option string)
    (upstream : Tt.Request -> Settled (HttpResponse Tt.Body)) :
  falsy accessToken || falsy advertiserId = false ->
  let request :=
    {| Tt.url := tiktok_url;
       Tt.access_token := template accessToken;
       Tt.advertiser_id := template advertiserId;
       Tt.start_date := startDate;
       Tt.end_date := endDate;
       Tt.page_size := 366 |} in
  let p := fetchTikTokData startDate endDate accessToken advertiserId in
  requests upstream p = [request]
  /\ (forall processedData,
        settle upstream p = Fulfilled processedData
        <-> exists response jsonResponse,
              upstream request = Fulfilled response
              /\ ok response = true
              /\ json response = Fulfilled jsonResponse
              /\ Tt.code jsonResponse = 0
              /\ processedData
                 = fold_left tt_store
                     (default [] (Tt.data_list jsonResponse)) ∅)
  /\ (forall response jsonResponse,
        upstream request = Fulfilled response ->
        ok response = true ->
        json response = Fulfilled jsonResponse ->
        Tt.code jsonResponse <> 0 ->
        exists reason,
          settle upstream p = Rejected reason
          /\ String.prefix "TikTok API error: " reason = true).
Proof.
  intros Hc request p. subst request p. unfold fetchTikTokData. rewrite Hc.
  cbn [requests settle].
  match goal with
  | |- context [upstream ?r] => destruct (upstream r) as [response | reason0]
  end.
  - destruct (ok response) eqn:Hok; cbn [negb];
      destruct (json response) as [b | reason1] eqn:Hj; cbn [requests settle].
    + destruct (Z.eqb_spec (Tt.code b) 0) as [Hz | Hnz]; cbn [negb settle requests].
      * split; [reflexivity|]. split.
        -- intros m. split.
           ++ intros [= <-]. exists response, b. auto.
           ++ intros (r' & b' & [= <-] & _ & Hj' & _ & ->).
              rewrite Hj in Hj'. injection Hj' as <-. reflexivity.
        -- intros r' b' [= <-] _ Hj' Hne.
           rewrite Hj in Hj'. injection Hj' as <-. contradiction.
      * split; [reflexivity|]. split.
        -- intros m. split; [discriminate|].
           intros (r' & b' & [= <-] & _ & Hj' & Hz & _).
           rewrite Hj in Hj'. injection Hj' as <-. contradiction.
        -- intros r' b' _ _ _ _. eexists. split; [reflexivity|].
           unfold concat_strings. cbn [fold_right]. apply prefix_append.
    + split; [reflexivity|]. split.
      * intros m. split; [discriminate|].
        intros (r' & b' & [= <-] & _ & Hj' & _). congruence.
      * intros r' b' [= <-] _ Hj' _. congruence.
    + split; [reflexivity|]. split.
      * intros m. split; [discriminate|].
        intros (r' & b' & [= <-] & Hok' & _). congruence.
      * intros r' b' [= <-] Hok' _ _. congruence.
    + split; [reflexivity|]. split.
      * intros m. split; [discriminate|].
        intros (r' & b' & [= <-] & Hok' & _). congruence.
      * intros r' b' [= <-] Hok' _ _. congruence.
  - cbn [requests settle]. split; [reflexivity|]. split.
    + intros m. split; [discriminate|].
      intros (r' & b' & H & _). discriminate.
    + intros r' b' H. discriminate.
Qed.

Lemma fetchTikTokData_outcome_witness :
  settle
    (fun _ =>
       Fulfilled
         {| ok := true; status := 200; statusText := "OK";
            json := Fulfilled
                      {| Tt.code := 40105;
                         Tt.message := Some "Access token is incorrect";
                         Tt.request_id := Some "r-1";
                         Tt.data_list := None |} |})
    (fetchTikTokData "2024-01-03" "2024-04-01" (Some "tiktok-token")
       (Some "2002"))
  = Rejected
      "TikTok API error: Access token is incorrect (Code: 40105, Request ID: r-1)".
Proof.
  destruct (fetchTikTokData_outcome "2024-01-03" "2024-04-01"
              (Some "tiktok-token") (Some "2002")
              (fun _ =>
                 Fulfilled
                   {| ok := true; status := 200; statusText := "OK";
                      json := Fulfilled
                                {| Tt.code := 40105;
                                   Tt.message :=
                                     Some "Access token is incorrect";
                                   Tt.request_id := Some "r-1";
                                   Tt.data_list := None |} |}))
    as (_ & _ & _).
  - reflexivity.
  - reflexivity.
Defined.

Section StoreRows.

Context {R V : Type} (key : R -> string) (val : R -> V).

Lemma find_app_last (f : R -> bool) (l : list R) (x : R) :
  List.find f (l ++ [x])
  = match List.find f l with
    | Some y => Some y
    | None => if f x then Some x else None
    end.
Proof.
  induction l as [|y l IH]; cbn [app List.find]; [reflexivity|].
  destruct (f y); [reflexivity | exact IH].
Qed.

(** Assigning [processedData[key(row)] = val(row)] for each row in turn:
    the value found for a key is that of the last row with the key. *)
Lemma fold_store_lookup (rows : list R) (m : gmap string V) (d : string) :
  fold_left (fun acc row => <[ key row := val row ]> acc) rows m !! d
  = match List.find (fun row => String.eqb (key row) d) (rev rows) with
    | Some row => Some (val row)
    | None => m !! d
    end.
Proof.
  revert m. induction rows as [|row rows IH]; intros m; [reflexivity|].
  cbn [fold_left rev]. rewrite IH, find_app_last.
  destruct (List.find _ (rev rows)); [reflexivity|].
  destruct (String.eqb_spec (key row) d) as [-> | Hne].
  - apply lookup_insert_eq.
  - apply lookup_insert_ne. assumption.
Qed.

Lemma find_rev_some (f : R -> bool) (l : list R) :
  (exists x, In x l /\ f x = true)
  <-> exists y, List.find f (rev l) = Some y.
Proof.
  split.
  - intros (x & Hx & Hf).
    destruct (List.find f (rev l)) as [y|] eqn:E; [eauto|].
    pose proof (List.find_none _ _ E x) as Hn.
    rewrite <- List.in_rev in Hn. specialize (Hn Hx). congruence.
  - intros (y & Hy). apply List.find_some in Hy as [Hin Hf].
    exists y. split; [apply List.in_rev; assumption | assumption].
Qed.

End StoreRows.

Lemma find_app_none {R} (f : R -> bool) (l l' : list R) :
  Forall (fun x => f x = false) l -> List.find f (l ++ l') = List.find f l'.
Proof.
  induction 1 as [|x l Hx _ IH]; cbn [app List.find]; [reflexivity|].
  rewrite Hx. exact IH.
Qed.

Lemma store_last_wins {R V} (key : R -> string) (val : R -> V)
    (rows : list R) (d : string) :
  (is_Some (fold_left (fun acc row => <[ key row := val row ]> acc) rows (∅ : gmap string V)
              !! d)
   <-> exists row, row ∈ rows /\ key row = d)
  /\ forall before row after,
       rows = before ++ row :: after -> key row = d ->
       Forall (fun r => key r <> d) after ->
       fold_left (fun acc row => <[ key row := val row ]> acc) rows (∅ : gmap string V) !! d
       = Some (val row).
Proof.
  split.
  - rewrite fold_store_lookup, lookup_empty. split.
    + intros [v Hv].
      destruct (List.find _ (rev rows)) as [row|] eqn:E; [| discriminate].
      apply List.find_some in E as [Hin He].
      exists row. split.
      * apply list_elem_of_In, List.in_rev. assumption.
      * apply String.eqb_eq. assumption.
    + intros (row & Hin & Hk).
      destruct (proj1 (find_rev_some
                         (fun row => String.eqb (key row) d) rows)) as [y ->].
      * exists row. split; [apply list_elem_of_In; assumption|].
        apply String.eqb_eq. assumption.
      * eauto.
  - intros before row after -> Hk Hafter.
    rewrite fold_store_lookup, rev_app_distr. cbn [rev].
    rewrite <- app_assoc. cbn [app].
    rewrite find_app_none.
    + cbn [List.find]. rewrite (proj2 (String.eqb_eq _ _) Hk). reflexivity.
    + apply List.Forall_forall. intros x Hx. apply List.in_rev in Hx.
      rewrite List.Forall_forall in Hafter.
      apply String.eqb_neq. apply Hafter. assumption.
Qed.

(** X7.  Both adapters index the upstream's rows by their date: a date is in
    the result exactly when some row carries it, rows of other dates do not
    affect it, and when several rows carry the same date the last one in
    the upstream's order is the one kept. *)
Theorem adapter_rows_last_wins :
  (forall (rows : list Fb.Row) (d : string),
     let processedData := fold_left fb_store rows ∅ in
     (is_Some (processedData !! d)
      <-> exists row, row ∈ rows /\ Fb.date_start row = d)
     /\ forall before row after,
          rows = before ++ row :: after -> Fb.date_start row = d ->
          Forall (fun r => Fb.date_start r <> d) after ->
          processedData !! d = fb_store ∅ row !! d)
  /\ (forall (rows : list Tt.Row) (d : string),
        let processedData := fold_left tt_store rows ∅ in
        (is_Some (processedData !! d)
         <-> exists row, row ∈ rows /\ Tt.stat_time_day row = d)
        /\ forall before row after,
             rows = before ++ row :: after -> Tt.stat_time_day row = d ->
             Forall (fun r => Tt.stat_time_day r <> d) after ->
             processedData !! d = tt_store ∅ row !! d).
Proof.
  split.
  - intros rows d processedData. subst processedData.
    pose proof (store_last_wins Fb.date_start
                  (fun row => default defaultFbEntry
                                (fb_store ∅ row !! Fb.date_start row))
                  rows d) as [Hdom Hlast].
    assert (Hstore : forall acc row,
              fb_store acc row
              = <[ Fb.date_start row :=
                     default defaultFbEntry
                       (fb_store ∅ row !! Fb.date_start row) ]> acc).
    { intros acc row. unfold fb_store at 2. rewrite lookup_insert_eq.
      reflexivity. }
    assert (Hfold : forall l acc,
              fold_left fb_store l acc
              = fold_left (fun acc row =>
                             <[ Fb.date_start row :=
                                  default defaultFbEntry
                                    (fb_store ∅ row !! Fb.date_start row) ]>
                               acc) l acc).
    { induction l as [|x l IH]; intros acc; [reflexivity|].
      cbn [fold_left]. rewrite <- Hstore. apply IH. }
    rewrite Hfold. split; [exact Hdom|].
    intros before row after Hrows Hk Hafter.
    rewrite (Hlast before row after Hrows Hk Hafter).
    subst d. unfold fb_store. rewrite !lookup_insert_eq. reflexivity.
  - intros rows d processedData. subst processedData.
    pose proof (store_last_wins Tt.stat_time_day
                  (fun row => default defaultTtEntry
                                (tt_store ∅ row !! Tt.stat_time_day row))
                  rows d) as [Hdom Hlast].
    assert (Hstore : forall acc row,
              tt_store acc row
              = <[ Tt.stat_time_day row :=
                     default defaultTtEntry
                       (tt_store ∅ row !! Tt.stat_time_day row) ]> acc).
    { intros acc row. unfold tt_store at 2. rewrite lookup_insert_eq.
      reflexivity. }
    assert (Hfold : forall l acc,
              fold_left tt_store l acc
              = fold_left (fun acc row =>
                             <[ Tt.stat_time_day row :=
                                  default defaultTtEntry
                                    (tt_store ∅ row !! Tt.stat_time_day row) ]>
                               acc) l acc).
    { induction l as [|x l IH]; intros acc; [reflexivity|].
      cbn [fold_left]. rewrite <- Hstore. apply IH. }
    rewrite Hfold. split; [exact Hdom|].
    intros before row after Hrows Hk Hafter.
    rewrite (Hlast before row after Hrows Hk Hafter).
    subst d. unfold tt_store. rewrite !lookup_insert_eq. reflexivity.
Qed.

Lemma find_first {R} (f : R -> bool) (before : list R) (a : R)
    (after : list R) :
  Forall (fun x => f x = false) before -> f a = true ->
  List.find f (before ++ a :: after) = Some a.
Proof.
  intros Hb Ha. rewrite find_app_none by assumption.
  cbn [List.find]. rewrite Ha. reflexivity.
Qed.

(** X8.  Every per-day object that [fetchFacebookData] builds comes from one
    upstream row of that date: cost, clicks and impressions are the row's
    [spend], [clicks] and [impressions], and the conversions are the value
    of the first action of type [SurveyCompleted], or 0 when the row has no
    actions or none of that type. *)
Theorem facebook_entry_of_row (rows : list Fb.Row) (d : string)
    (e : Fb.Entry) :
  fold_left fb_store rows ∅ !! d = Some e ->
  exists row,
    row ∈ rows /\ Fb.date_start row = d
    /\ Fb.fbCost e = Fb.spend row
    /\ Fb.fbClicks e = Fb.clicks row
    /\ Fb.fbImpr e = Fb.impressions row
    /\ (Fb.actions row = None -> Fb.fbConv e = 0%float)
    /\ forall acts,
         Fb.actions row = Some acts ->
         (Forall (fun a => Fb.action_type a <> "SurveyCompleted"%string) acts ->
          Fb.fbConv e = 0%float)
         /\ forall before a after,
              acts = before ++ a :: after ->
              Forall (fun x => Fb.action_type x <> "SurveyCompleted"%string)
                     before ->
              Fb.action_type a = "SurveyCompleted"%string ->
              Fb.fbConv e = Fb.value a.
Proof.
  intros H.
  pose proof (fold_store_lookup Fb.date_start
                (fun row => default defaultFbEntry
                              (fb_store ∅ row !! Fb.date_start row))
                rows ∅ d) as Hl.
  assert (Hfold : forall l acc,
            fold_left fb_store l acc
            = fold_left (fun acc row =>
                           <[ Fb.date_start row :=
                                default defaultFbEntry
                                  (fb_store ∅ row !! Fb.date_start row) ]>
                             acc) l acc).
  { induction l as [|x l IH]; intros acc; [reflexivity|].
    cbn [fold_left]. rewrite <- IH. f_equal.
    unfold fb_store. rewrite lookup_insert_eq. reflexivity. }
  rewrite <- Hfold, H, lookup_empty in Hl.
  destruct (List.find _ (rev rows)) as [row|] eqn:E; [| discriminate].
  apply List.find_some in E as [Hin He].
  injection Hl as ->. exists row.
  split; [apply list_elem_of_In, List.in_rev; assumption|].
  split; [apply String.eqb_eq; assumption|].
  unfold fb_store. rewrite lookup_insert_eq. cbn.
  split; [reflexivity|]. split; [reflexivity|]. split; [reflexivity|].
  split; [intros ->; reflexivity|].
  intros acts ->. split.
  - intros Hnone.
    destruct (List.find _ acts) as [a|] eqn:Ef; [| reflexivity].
    apply List.find_some in Ef as [Ha Hf].
    rewrite List.Forall_forall in Hnone.
    apply String.eqb_eq in Hf. exfalso. exact (Hnone a Ha Hf).
  - intros before a after -> Hb Ha.
    rewrite find_first; [reflexivity | | apply String.eqb_eq; assumption].
    eapply List.Forall_impl; [| exact Hb].
    intros x Hx. apply String.eqb_neq. assumption.
Qed.

Lemma facebook_entry_of_row_witness :
  fold_left fb_store fb_rows_same_day ∅ !! "2024-01-01"%string
  = Some {| Fb.fbCost := 25; Fb.fbClicks := 50; Fb.fbImpr := 1000;
            Fb.fbConv := 5 |}
  /\ exists row,
       row ∈ fb_rows_same_day /\ Fb.spend row = 25%float.
Proof.
  destruct (facebook_entry_of_row fb_rows_same_day "2024-01-01"
              {| Fb.fbCost := 25; Fb.fbClicks := 50; Fb.fbImpr := 1000;
                 Fb.fbConv := 5 |})
    as (row & Hin & _ & Hcost & _).
  - reflexivity.
  - split; [reflexivity|]. exists row. split; [exact Hin|].
    symmetry. exact Hcost.
Defined.

(** ** Further properties of the live-data handler *)

(** X9.  Every response of the live-data handler is either a 200 with a
    table, or a 405, 503 or 500 with an error message; the status is 405
    exactly when the request is not a GET and 503 exactly when it is a GET
    and a credential is missing, and no upstream request is sent for any
    answer other than 200.  A failing upstream never changes the status. *)
Theorem handler_status_codes (fuel : nat) (tz : HostZone) (env : Env)
    (nowEnd nowStart : Z) (event : Event) upFb upTt (response : Response) :
  run upFb upTt (handler fuel tz env nowEnd nowStart event) = Some response ->
  ((statusCode response = 200
    /\ (exists table, body response = DataBody table))
   \/ ((statusCode response = 405 \/ statusCode response = 503
        \/ statusCode response = 500)
       /\ (exists message, body response = ErrorBody message)
       /\ upstream_calls upFb upTt
            (handler fuel tz env nowEnd nowStart event) = 0%nat))
  /\ (statusCode response = 405 <-> is_get_request event = false)
  /\ (statusCode response = 503
      <-> is_get_request event = true /\ credentials_present env = false)
  /\ (statusCode response = 200 \/ statusCode response = 500 ->
      is_get_request event = true /\ credentials_present env = true).
Proof.
  assert (Hget : negb (is_GET (httpMethod event))
                 && negb (is_GET (method event))
                 = negb (is_get_request event)).
  { unfold is_get_request. symmetry. apply negb_orb. }
  assert (Hcred : falsy (META_ACCESS_TOKEN env)
                  || falsy (META_AD_ACCOUNT_ID env)
                  || falsy (TIKTOK_ACCESS_TOKEN env)
                  || falsy (TIKTOK_ADVERTISER_ID env)
                  = negb (credentials_present env)).
  { unfold credentials_present.
    destruct (falsy (META_ACCESS_TOKEN env)),
      (falsy (META_AD_ACCOUNT_ID env)), (falsy (TIKTOK_ACCESS_TOKEN env)),
      (falsy (TIKTOK_ADVERTISER_ID env)); reflexivity. }
  unfold handler. rewrite Hget, Hcred. clear Hget Hcred.
  destruct (is_get_request event); cbn [negb].
  2: { intros [= <-]. cbn.
       intuition (try discriminate; try reflexivity; eauto). }
  destruct (credentials_present env); cbn [negb].
  2: { intros [= <-]. cbn.
       intuition (try discriminate; try reflexivity; eauto). }
  destruct (setDate tz nowStart _) as [startDate|]; cbn [run].
  2: { intros [= <-]. cbn.
       intuition (try discriminate; try reflexivity; eauto). }
  destruct (getDateArray fuel tz _ _) as [dates|]; [| discriminate].
  intros [= <-]. cbn.
  intuition (try discriminate; try reflexivity; eauto).
Qed.

Lemma handler_status_codes_witness :
  run fb_unreachable tt_unreachable
    (handler 366 utc_zone sample_env noon_2024_04_01 noon_2024_04_01
       post_request)
  = Some (error_response 405 "Method Not Allowed. Please use GET.")
  /\ is_get_request post_request = false.
Proof.
  destruct (handler_status_codes 366 utc_zone sample_env noon_2024_04_01
              noon_2024_04_01 post_request fb_unreachable tt_unreachable
              (error_response 405 "Method Not Allowed. Please use GET."))
    as (_ & H405 & _).
  - reflexivity.
  - split; [reflexivity|]. apply H405. reflexivity.
Defined.

(** X10.  In every host zone, each record of a 200 table is the record of
    its own date: its eight counters are those the two adapters delivered
    for that date, or zeros for a platform that delivered none (or whose
    adapter failed), and its ten derived metrics are
    [calculateAllDerivedMetrics] of those counters. *)
Theorem handler_records_any_zone (fuel : nat) (tz : HostZone) (env : Env)
    (nowEnd nowStart : Z) (event : Event) fbPromise ttPromise k
    fbResult ttResult (response : Response) :
  handler fuel tz env nowEnd nowStart event
  = AwaitAllSettled fbPromise ttPromise k ->
  k fbResult ttResult = Some response ->
  exists table,
    response = {| statusCode := 200; body := DataBody table |}
    /\ forall r, r ∈ table ->
         let fbData := value_or_empty fbResult in
         let ttData := value_or_empty ttResult in
         r = dailyRecord fbData ttData (date (raw r))
         /\ calculated r = Api.calculateAllDerivedMetrics (raw r)
         /\ (fbData !! date (raw r) = None -> platform_zero Facebook r)
         /\ (ttData !! date (raw r) = None -> platform_zero TikTok r)
         /\ (forall e, fbData !! date (raw r) = Some e ->
               base Facebook (raw r) = fb_counters e)
         /\ (forall e, ttData !! date (raw r) = Some e ->
               base TikTok (raw r) = tt_counters e).
Proof.
  intros Hh Hk.
  destruct (handler_zero_fill_any_zone fuel tz env nowEnd nowStart event
              fbPromise ttPromise k Hh fbResult ttResult response Hk)
    as (dates & table & -> & Hperm & _).
  exists table. split; [reflexivity|].
  intros r Hr fbData ttData.
  rewrite Hperm in Hr. apply list_elem_of_fmap in Hr as (s & -> & _).
  rewrite dailyRecord_date.
  split; [reflexivity|].
  split; [apply dailyRecord_calculated|].
  split; [apply dailyRecord_fb_absent|].
  split; [apply dailyRecord_tt_absent|].
  split; [apply dailyRecord_fb_present | apply dailyRecord_tt_present].
Qed.

Lemma handler_records_any_zone_witness :
  exists table,
    run (fb_serving fb_rows_same_day) tt_unreachable
      (handler 366 utc_zone sample_env noon_2024_04_01 noon_2024_04_01
         (get_request (Some "90")))
    = Some {| statusCode := 200; body := DataBody table |}
    /\ forall r, r ∈ table -> platform_zero TikTok r.
Proof.
  destruct (handler_fixed_zone 366 utc_zone sample_env noon_2024_04_01
              (get_request (Some "90")))
    as (k & Hh & Hk).
  - exists 0. reflexivity.
  - reflexivity.
  - reflexivity.
  - unfold clock_in_range. vm_compute. split; [discriminate | reflexivity].
  - apply Nat.lt_succ_diag_r.
  - match type of Hh with
    | _ = AwaitAllSettled ?fbPromise ?ttPromise _ =>
        destruct (handler_records_any_zone 366 utc_zone sample_env
                    noon_2024_04_01 noon_2024_04_01 (get_request (Some "90"))
                    fbPromise ttPromise k
                    (settle (fb_serving fb_rows_same_day) fbPromise)
                    (settle tt_unreachable ttPromise) _ Hh (Hk _ _))
          as (table & Heq & Hrec)
    end.
    exists table. split.
    + rewrite Hh. cbn [run]. rewrite (Hk _ _). f_equal. exact Heq.
    + intros r Hr. destruct (Hrec r Hr) as (_ & _ & _ & Htt & _).
      apply Htt. apply lookup_empty.
Defined.

Lemma reverse_rev {A} (l : list A) : reverse l = rev l.
Proof. symmetry. apply rev_alt. Qed.

Lemma strictly_descending_lookup (l : list Z) :
  strictly_descending l ->
  forall i j x y, (i < j)%nat -> l !! i = Some x -> l !! j = Some y -> y < x.
Proof.
  induction l as [|a l IH]; intros Hs i j x y Hij Hi Hj; [discriminate|].
  destruct j as [|j]; [lia|].
  assert (Hrest : strictly_descending l).
  { destruct l as [|b l]; [exact I | exact (proj2 Hs)]. }
  assert (Hhead : forall m z, l !! m = Some z -> z < a).
  { clear i x y Hij Hi Hj j. revert Hs Hrest IH.
    destruct l as [|b l]; [discriminate|].
    intros [Hba _] Hrest IH m z Hm.
    destruct m as [|m]; [injection Hm as <-; exact Hba|].
    pose proof (IH Hrest 0%nat (S m) b z ltac:(lia) eq_refl Hm). lia. }
  destruct i as [|i].
  - injection Hi as <-. exact (Hhead j y Hj).
  - apply (IH Hrest i j x y); [lia | exact Hi | exact Hj].
Qed.

(** X11.  In a host zone of fixed UTC offset, with credentials set and both
    clock readings equal, row [i] of the table is the day [i] days before
    today (UTC): the newest day is first, the oldest is last, no date
    occurs twice, and a later row always has an earlier date. *)
Theorem handler_table_newest_first (fuel : nat) (tz : HostZone) (env : Env)
    (now : Z) (event : Event) upFb upTt :
  fixed_offset tz -> credentials_present env = true ->
  is_get_request event = true -> clock_in_range now -> (365 < fuel)%nat ->
  exists table,
    is_table_response (run upFb upTt (handler fuel tz env now now event)) table
    /\ (forall i : nat,
          Z.of_nat i < daysToFetch event ->
          table_dates table !! i = Some (day_string (Day now - Z.of_nat i)))
    /\ head (table_dates table) = Some (formatDate now)
    /\ last (table_dates table)
       = Some (day_string (Day now - (daysToFetch event - 1)))
    /\ NoDup (table_dates table)
    /\ forall (i j : nat) ti tj,
         (i < j)%nat ->
         table_times table !! i = Some (Some ti) ->
         table_times table !! j = Some (Some tj) -> tj < ti.
Proof.
  intros Hz Hc Hg Hn Hf.
  eexists. split; [now apply run_fixed_zone|].
  pose proof (clock_day_range now Hn) as Hday.
  set (fbData := value_or_empty _). set (ttData := value_or_empty _).
  set (a := Day now - (daysToFetch event - 1)).
  set (n := Z.to_nat (daysToFetch event)).
  assert (Hn' : Z.of_nat n = daysToFetch event).
  { unfold n. destruct (daysToFetch_cases event) as [-> | ->]; reflexivity. }
  assert (Hpos : (0 < n)%nat).
  { destruct (daysToFetch_cases event) as [E | E]; rewrite E in Hn'; lia. }
  assert (Hcal : forall d, d ∈ days_from a n -> is_calendar_day d).
  { intros d Hd. apply elem_of_days_from in Hd.
    apply is_calendar_day_range. unfold a in Hd.
    destruct (daysToFetch_cases event) as [E | E]; rewrite E in *; lia. }
  assert (Hdates : table_dates
                     (rev (map (dailyRecord fbData ttData)
                             (map day_string (days_from a n))))
                   = rev (map day_string (days_from a n))).
  { unfold table_dates. rewrite map_rev, map_map. f_equal.
    rewrite <- (map_id (map day_string (days_from a n))) at 2.
    apply map_ext. intros s. apply dailyRecord_date. }
  assert (Hlook : forall i : nat,
            Z.of_nat i < daysToFetch event ->
            rev (map day_string (days_from a n)) !! i
            = Some (day_string (Day now - Z.of_nat i))).
  { intros i Hi. rewrite <- reverse_rev.
    rewrite reverse_lookup by (rewrite length_map, days_from_length; lia).
    rewrite length_map, days_from_length, list_lookup_fmap.
    rewrite days_from_lookup by lia. cbn. do 2 f_equal. unfold a. lia. }
  rewrite Hdates.
  split; [exact Hlook|].
  split.
  { rewrite head_lookup, (Hlook 0%nat) by lia.
    rewrite Z.sub_0_r, formatDate_day. reflexivity. }
  split.
  { rewrite last_lookup, length_rev, length_map, days_from_length.
    rewrite (Hlook (Nat.pred n)) by lia. do 2 f_equal. lia. }
  split.
  { apply NoDup_ListNoDup, List.NoDup_rev, NoDup_ListNoDup.
    apply NoDup_fmap_2_strong; [|apply days_from_NoDup].
    intros x y Hx Hy. apply day_string_inj; now apply Hcal. }
  assert (Ht : table_times
                 (rev (map (dailyRecord fbData ttData)
                         (map day_string (days_from a n))))
               = map Some (rev (map (fun d => d * msPerDay)
                                    (days_from a n)))).
  { unfold table_times. rewrite !map_rev, !map_map. f_equal.
    apply map_ext_in. intros d Hd. rewrite dailyRecord_date.
    apply Date_parse_date_only, Hcal. now apply list_elem_of_In. }
  rewrite Ht. intros i j ti tj Hij Hi Hj.
  rewrite list_lookup_fmap in Hi, Hj.
  destruct (rev _ !! i) as [x|] eqn:Ei; [| discriminate].
  destruct (rev _ !! j) as [y|] eqn:Ej; [| discriminate].
  injection Hi as <-. injection Hj as <-.
  exact (strictly_descending_lookup _ (strictly_descending_rev_days a n)
           i j x y Hij Ei Ej).
Qed.

Lemma handler_table_newest_first_witness :
  exists table,
    is_table_response
      (run fb_unreachable tt_unreachable
         (handler 366 utc_zone sample_env noon_2024_04_01 noon_2024_04_01
            (get_request (Some "90"))))
      table
    /\ head (table_dates table) = Some (formatDate noon_2024_04_01)
    /\ formatDate noon_2024_04_01 = "2024-04-01"%string
    /\ last (table_dates table) = Some (day_string 19725)
    /\ day_string 19725 = "2024-01-03"%string.
Proof.
  destruct (handler_table_newest_first 366 utc_zone sample_env
              noon_2024_04_01 (get_request (Some "90")) fb_unreachable
              tt_unreachable)
    as (table & Ht & _ & Hh & Hl & _).
  - exists 0. reflexivity.
  - reflexivity.
  - reflexivity.
  - unfold clock_in_range. vm_compute. split; [discriminate | reflexivity].
  - apply Nat.lt_succ_diag_r.
  - exists table. split; [exact Ht|]. split; [exact Hh|].
    split; [reflexivity|]. split; [exact Hl | reflexivity].
Defined.

Lemma settle_fb_ok (startDate endDate : string)
    (accessToken adAccountId : option string)
    (upFb : Fb.Request -> Settled (HttpResponse Fb.Body))
    response jsonResponse :
  falsy accessToken || falsy adAccountId = false ->
  upFb (meta_url startDate endDate accessToken adAccountId)
  = Fulfilled response ->
  ok response = true -> json response = Fulfilled jsonResponse ->
  settle upFb (fetchFacebookData startDate endDate accessToken adAccountId)
  = Fulfilled (fold_left fb_store (default [] (Fb.data jsonResponse)) ∅).
Proof.
  intros Hc Hu Hok Hj. unfold fetchFacebookData. rewrite Hc.
  cbn [settle]. rewrite Hu, Hok. cbn [negb]. rewrite Hj. reflexivity.
Qed.

(** X12.  End to end, in a host zone of fixed UTC offset and with both
    clock readings equal: when Facebook answers the handler's request with
    rows, every day of the look-back range has a record in the table; that
    record carries the spend, clicks and impressions of the last upstream
    row dated that day, and is all zeros for Facebook when no row is dated
    that day.  Rows dated outside the range reach no record. *)
Theorem upstream_rows_reach_the_table (fuel : nat) (tz : HostZone)
    (env : Env) (now : Z) (event : Event)
    (upFb : Fb.Request -> Settled (HttpResponse Fb.Body))
    (upTt : Tt.Request -> Settled (HttpResponse Tt.Body))
    response jsonResponse :
  fixed_offset tz -> credentials_present env = true ->
  is_get_request event = true -> clock_in_range now -> (365 < fuel)%nat ->
  let startDay := Day now - (daysToFetch event - 1) in
  upFb (meta_url (day_string startDay) (day_string (Day now))
          (META_ACCESS_TOKEN env) (META_AD_ACCOUNT_ID env))
  = Fulfilled response ->
  ok response = true -> json response = Fulfilled jsonResponse ->
  exists table,
    is_table_response (run upFb upTt (handler fuel tz env now now event)) table
    /\ (forall r, r ∈ table ->
          exists d, startDay <= d <= Day now /\ date (raw r) = day_string d)
    /\ forall d : Z,
         startDay <= d <= Day now ->
         exists r,
           r ∈ table /\ date (raw r) = day_string d
           /\ match List.find
                      (fun row => String.eqb (Fb.date_start row) (day_string d))
                      (rev (default [] (Fb.data jsonResponse)))
              with
              | Some row =>
                  cost (base Facebook (raw r)) = Fb.spend row
                  /\ clicks (base Facebook (raw r)) = Fb.clicks row
                  /\ impressions (base Facebook (raw r)) = Fb.impressions row
              | None => platform_zero Facebook r
              end.
Proof.
  intros Hz Hc Hg Hn Hf startDay Hu Hok Hj. subst startDay.
  eexists. split; [now apply run_fixed_zone|].
  assert (Hcred : falsy (META_ACCESS_TOKEN env)
                  || falsy (META_AD_ACCOUNT_ID env) = false).
  { destruct (guards_pass env event Hg Hc) as [_ H].
    destruct (falsy (META_ACCESS_TOKEN env)),
      (falsy (META_AD_ACCOUNT_ID env)); try reflexivity; discriminate. }
  rewrite (settle_fb_ok _ _ _ _ upFb response jsonResponse Hcred Hu Hok Hj).
  cbn [value_or_empty].
  set (fbData := fold_left fb_store _ ∅). set (ttData := value_or_empty _).
  set (n := Z.to_nat (daysToFetch event)).
  assert (Hn' : Z.of_nat n = daysToFetch event).
  { unfold n. destruct (daysToFetch_cases event) as [-> | ->]; reflexivity. }
  split.
  - intros r Hr. rewrite <- reverse_rev in Hr.
    apply elem_of_reverse, list_elem_of_fmap in Hr as (s & -> & Hs).
    apply list_elem_of_fmap in Hs as (d & -> & Hd).
    apply elem_of_days_from in Hd.
    exists d. split; [lia | apply dailyRecord_date].
  - intros d Hd. exists (dailyRecord fbData ttData (day_string d)).
    split.
    { rewrite <- reverse_rev. apply elem_of_reverse, list_elem_of_fmap.
      exists (day_string d). split; [reflexivity|].
      apply list_elem_of_fmap. exists d. split; [reflexivity|].
      apply elem_of_days_from. lia. }
    split; [apply dailyRecord_date|].
    assert (Hfold : forall l acc,
              fold_left fb_store l acc
              = fold_left (fun acc row =>
                             <[ Fb.date_start row :=
                                  default defaultFbEntry
                                    (fb_store ∅ row !! Fb.date_start row) ]>
                               acc) l acc).
    { induction l as [|x l IH]; intros acc; [reflexivity|].
      cbn [fold_left]. rewrite <- IH. f_equal.
      unfold fb_store. rewrite lookup_insert_eq. reflexivity. }
    pose proof (fold_store_lookup Fb.date_start
                  (fun row => default defaultFbEntry
                                (fb_store ∅ row !! Fb.date_start row))
                  (default [] (Fb.data jsonResponse)) ∅ (day_string d)) as Hl.
    rewrite <- Hfold in Hl. fold fbData in Hl.
    destruct (List.find _ (rev _)) as [row|].
    + rewrite (dailyRecord_fb_present fbData ttData _ _ Hl).
      unfold fb_store. rewrite lookup_insert_eq. cbn. auto.
    + apply dailyRecord_fb_absent. rewrite Hl. apply lookup_empty.
Qed.

Lemma upstream_rows_reach_the_table_witness :
  exists table r,
    is_table_response
      (run (fb_serving fb_rows_same_day) tt_unreachable
         (handler 366 utc_zone sample_env end_of_march_2024 end_of_march_2024
            (get_request (Some "90"))))
      table
    /\ r ∈ table /\ date (raw r) = "2024-01-01"%string
    /\ cost (base Facebook (raw r)) = 25%float
    /\ clicks (base Facebook (raw r)) = 50%float.
Proof.
  destruct (upstream_rows_reach_the_table 366 utc_zone sample_env
              end_of_march_2024 (get_request (Some "90"))
              (fb_serving fb_rows_same_day) tt_unreachable
              {| ok := true; status := 200; statusText := "OK";
                 json := Fulfilled {| Fb.error_message := None;
                                      Fb.data := Some fb_rows_same_day |} |}
              {| Fb.error_message := None;
                 Fb.data := Some fb_rows_same_day |})
    as (table & Ht & _ & Hrec).
  - exists 0. reflexivity.
  - reflexivity.
  - reflexivity.
  - unfold clock_in_range. vm_compute. split; [discriminate | reflexivity].
  - apply Nat.lt_succ_diag_r.
  - reflexivity.
  - reflexivity.
  - reflexivity.
  - destruct (Hrec 19723) as (r & Hr & Hd & Hrow);
      [vm_compute; split; discriminate|].
    exists table, r. split; [exact Ht|]. split; [exact Hr|].
    split; [rewrite Hd; reflexivity|].
    vm_compute in Hrow. destruct Hrow as (Hcost & Hclicks & _).
    split; [exact Hcost | exact Hclicks].
Defined.

(** ** The frontend: deriver, data service and dashboard state *)

Lemma frontend_metrics_agree (e : RawMarketingDataEntry) :
  counters_not_NaN e = true ->
  DataCalculations.calculateAllMetrics e = Api.calculateAllDerivedMetrics e.
Proof.
  unfold counters_not_NaN. intros H.
  repeat (apply andb_prop in H; destruct H as [H ?]).
  repeat match goal with
         | Hn : negb _ = true |- _ => apply negb_true_iff in Hn
         end.
  unfold DataCalculations.calculateAllMetrics, Api.calculateAllDerivedMetrics.
  cbv zeta.
  rewrite !calculateMetric_agree by assumption.
  reflexivity.
Qed.

Lemma processApiData_backend (table : list ProcessedMarketingDataEntry) :
  Forall backend_record table ->
  Forall (fun r => counters_not_NaN (raw r) = true) table ->
  DataCalculations.processApiData (map raw table) = table.
Proof.
  unfold DataCalculations.processApiData.
  induction table as [|r table IH]; intros Hb Hn; [reflexivity|].
  apply Forall_cons in Hb as [Hr Hb]. apply Forall_cons in Hn as [Hnr Hn].
  cbn [map]. rewrite (IH Hb Hn). f_equal.
  cbv zeta. rewrite (frontend_metrics_agree _ Hnr), <- Hr.
  destruct r; reflexivity.
Qed.

Lemma handler_table_backend_records (fuel : nat) (tz : HostZone) (env : Env)
    (nowEnd nowStart : Z) (event : Event) fbPromise ttPromise k
    fbResult ttResult table :
  handler fuel tz env nowEnd nowStart event
  = AwaitAllSettled fbPromise ttPromise k ->
  k fbResult ttResult = Some {| statusCode := 200; body := DataBody table |} ->
  Forall backend_record table.
Proof.
  intros Hh Hk.
  destruct (handler_zero_fill_any_zone fuel tz env nowEnd nowStart event
              fbPromise ttPromise k Hh fbResult ttResult _ Hk)
    as (dates & table' & Heq & Hperm & _).
  injection Heq as <-. rewrite Hperm.
  apply List.Forall_forall. intros r Hr. apply in_map_iff in Hr.
  destruct Hr as (s & <- & _). apply dailyRecord_calculated.
Qed.

Lemma zero_record_counters (s : string) :
  counters_not_NaN (raw (dailyRecord ∅ ∅ s)) = true.
Proof. unfold dailyRecord. rewrite !lookup_empty. reflexivity. Qed.

(** X13.  The frontend's [processApiData] reproduces the backend's table:
    applied to the base fields of the records of any 200 response of the
    live-data handler (in any host zone) whose counters are not NaN, it
    returns those records, derived metrics included, in the same order. *)
Theorem frontend_reproduces_backend_table (fuel : nat) (tz : HostZone)
    (env : Env) (nowEnd nowStart : Z) (event : Event) fbPromise ttPromise k
    fbResult ttResult (table : list ProcessedMarketingDataEntry) :
  handler fuel tz env nowEnd nowStart event
  = AwaitAllSettled fbPromise ttPromise k ->
  k fbResult ttResult = Some {| statusCode := 200; body := DataBody table |} ->
  Forall (fun r => counters_not_NaN (raw r) = true) table ->
  DataCalculations.processApiData (map raw table) = table.
Proof.
  intros Hh Hk Hn. apply processApiData_backend; [| exact Hn].
  exact (handler_table_backend_records fuel tz env nowEnd nowStart event
           fbPromise ttPromise k fbResult ttResult table Hh Hk).
Qed.

Lemma frontend_reproduces_backend_table_witness :
  let table :=
    rev (map (dailyRecord ∅ ∅)
           (map day_string
              (days_from (Day noon_2024_04_01 - 89) 90))) in
  run fb_unreachable tt_unreachable
    (handler 366 utc_zone sample_env noon_2024_04_01 noon_2024_04_01
       (get_request (Some "90")))
  = Some {| statusCode := 200; body := DataBody table |}
  /\ DataCalculations.processApiData (map raw table) = table.
Proof.
  destruct (handler_fixed_zone 366 utc_zone sample_env noon_2024_04_01
              (get_request (Some "90")))
    as (k & Hh & Hk).
  - exists 0. reflexivity.
  - reflexivity.
  - reflexivity.
  - unfold clock_in_range. vm_compute. split; [discriminate | reflexivity].
  - apply Nat.lt_succ_diag_r.
  - split.
    + rewrite Hh. exact (Hk (Rejected "fetch failed") (Rejected "fetch failed")).
    + match type of Hh with
      | _ = AwaitAllSettled ?fbPromise ?ttPromise _ =>
          apply (frontend_reproduces_backend_table 366 utc_zone sample_env
                   noon_2024_04_01 noon_2024_04_01 (get_request (Some "90"))
                   fbPromise ttPromise k (Rejected "fetch failed")
                   (Rejected "fetch failed") _ Hh
                   (Hk (Rejected "fetch failed") (Rejected "fetch failed")))
      end.
      apply Forall_rev_map. intros s. apply zero_record_counters.
Defined.

Lemma isFinite_not_special (x : float) :
  isFinite x = true -> isNaN x = false /\ is_infinity x = false.
Proof.
  unfold isFinite, isNaN, PrimFloat.is_finite.
  destruct (PrimFloat.is_nan x), (PrimFloat.is_infinity x);
    cbn; intros H; try discriminate; auto.
Qed.

(** X14.  [processApiData] keeps the entries it is given, in order, and
    adds only derived fields; for an entry whose eight counters are finite
    numbers, none of the ten metrics the frontend derives is NaN. *)
Theorem processApiData_keeps_entries (rawData : list RawMarketingDataEntry) :
  map raw (DataCalculations.processApiData rawData) = rawData
  /\ length (DataCalculations.processApiData rawData) = length rawData
  /\ forall r,
       r ∈ DataCalculations.processApiData rawData ->
       calculated r = DataCalculations.calculateAllMetrics (raw r)
       /\ (counters_finite (raw r) = true ->
           forall p k, isNaN (derived p k (calculated r)) = false).
Proof.
  unfold DataCalculations.processApiData. split; [|split].
  - rewrite map_map. cbn. apply map_id.
  - apply length_map.
  - intros r Hr. apply list_elem_of_fmap in Hr as (e & -> & _). cbn.
    split; [reflexivity|].
    intros Hf p k. rewrite frontend_derived_unfold.
    unfold counters_finite in Hf.
    repeat (apply andb_prop in Hf; destruct Hf as [Hf ?]).
    repeat match goal with
           | Hx : isFinite _ = true |- _ =>
               apply isFinite_not_special in Hx; destruct Hx as [? ?]
           end.
    destruct (multiplier_finite k) as (s & mm & ex & Hm).
    assert (Hnum : isNaN (numerator k (base p e)) = false)
      by (destruct p, k; assumption).
    assert (Hden : isNaN (denominator k (base p e)) = false)
      by (destruct p, k; assumption).
    rewrite (calculateMetric_agree _ _ _ Hnum Hden).
    apply (api_calculateMetric_not_NaN _ _ _ s mm ex Hm).
    apply andb_false_iff. left. destruct p, k; assumption.
Qed.


(** X15.  [fetchLiveMarketingData] sends exactly one request, to
    [/api/get-live-data?days=N] (N is 90 when no number is given).  It
    fulfils exactly when the answer has an [ok] status and a JSON body, with
    that body unchanged.  For an answer whose status is not [ok] it always
    rejects, with "Failed to fetch marketing data: " followed by the
    server's [error.message] when the body has one, and by
    "HTTP error <status>: <status text>" otherwise, also when the body is
    not JSON. *)
Theorem fetchLiveMarketingData_outcome (days : option Z)
    (upstream : string -> Settled (HttpResponse LiveDataJson)) :
  let url :=
    String.append "/api/get-live-data?days="
      (template_number (default 90 days)) in
  let p := fetchLiveMarketingData days in
  requests upstream p = [url]
  /\ (forall data,
        settle upstream p = Fulfilled data
        <-> exists response,
              upstream url = Fulfilled response
              /\ ok response = true
              /\ json response = Fulfilled data)
  /\ (forall response,
        upstream url = Fulfilled response -> ok response = false ->
        let httpError :=
          concat_strings
            [ "HTTP error "; template_number (status response); ": ";
              statusText response ] in
        (forall errorData message,
           json response = Fulfilled errorData ->
           error_message_of errorData = Some message ->
           message <> EmptyString ->
           settle upstream p
           = Rejected (String.append "Failed to fetch marketing data: "
                                     message))
        /\ ((forall errorData,
               json response = Fulfilled errorData ->
               falsy (error_message_of errorData) = true) ->
            settle upstream p
            = Rejected (String.append "Failed to fetch marketing data: "
                                      httpError))).
Proof.
  intros url p. subst url p. unfold fetchLiveMarketingData.
  cbn [requests settle].
  destruct (upstream _) as [response | reason] eqn:Hu.
  - destruct (ok response) eqn:Hok; cbn [negb].
    + destruct (json response) as [data | reason] eqn:Hj; cbn [requests settle].
      * split; [reflexivity|]. split.
        -- intros d. split.
           ++ intros [= <-]. exists response. auto.
           ++ intros (r' & [= <-] & _ & Hj'). congruence.
        -- intros r' [= <-] Hok'. congruence.
      * split; [reflexivity|]. split.
        -- intros d. split; [discriminate|].
           intros (r' & [= <-] & _ & Hj'). congruence.
        -- intros r' [= <-] Hok'. congruence.
    + cbn [requests settle]. split; [reflexivity|]. split.
      * intros d. split; [discriminate|].
        intros (r' & [= <-] & Hok' & _). congruence.
      * intros r' [= <-] _. split.
        -- intros errorData message Hj Hm Hne. rewrite Hj, Hm.
           cbn [falsy template default from_option id].
           rewrite (proj2 (String.eqb_neq _ _) Hne). reflexivity.
        -- intros Hnone. destruct (json response) as [errorData | reason];
             [rewrite (Hnone errorData eq_refl) |]; reflexivity.
  - cbn [requests settle]. split; [reflexivity|]. split.
    + intros d. split; [discriminate|]. intros (r' & H & _). discriminate.
    + intros r' H. discriminate.
Qed.

(** X16.  [loadDataForTable], from any earlier state: while the request is
    pending only the spinner is rendered; afterwards the loading flag is
    off.  After a successful load the table is [processApiData] of the
    received entries and the error is cleared; the table, or the notice
    "No data available." for an empty one, is all that is rendered.  After a
    failed load the earlier table is kept in the state but not rendered:
    only the error's message is. *)
Theorem loadDataForTable_outcome (notArrayMessage : string)
    (upstream : string -> Settled (HttpResponse LiveDataJson))
    (daysToLoad : option Z) (st : App.State) :
  let st' := App.loadDataForTable notArrayMessage upstream daysToLoad st in
  let outcome :=
    settle upstream (fetchLiveMarketingData (Some (default 90 daysToLoad))) in
  App.view (App.loading st) = [App.LoadingSpinner]
  /\ App.isLoadingTableData st' = false
  /\ (forall rawData,
        outcome = Fulfilled (JsonArray rawData) ->
        App.tableData st' = DataCalculations.processApiData rawData
        /\ App.errorTableData st' = None
        /\ App.view st'
           = match rawData with
             | [] => [App.NoDataNotice]
             | _ => [App.DataTable (DataCalculations.processApiData rawData)]
             end)
  /\ (forall message,
        outcome = Rejected message ->
        App.tableData st' = App.tableData st
        /\ App.errorTableData st' = Some message
        /\ (message <> EmptyString ->
            App.view st' = [App.ErrorAlert message])).
Proof.
  intros st' outcome. subst st' outcome. unfold App.loadDataForTable.
  cbv zeta. split; [reflexivity|].
  destruct (settle upstream _) as [[rows | other] | message].
  - split; [reflexivity|]. split.
    + intros rawData [= <-]. split; [reflexivity|]. split; [reflexivity|].
      destruct rows; reflexivity.
    + intros m. discriminate.
  - split; [reflexivity|]. split; [discriminate | discriminate].
  - split; [reflexivity|]. split; [discriminate|].
    intros m [= <-]. split; [reflexivity|]. split; [reflexivity|].
    intros Hne. unfold App.view. cbn.
    rewrite (proj2 (String.eqb_neq _ _) Hne). reflexivity.
Qed.



(** ** The string methods *)

Lemma prefix_spec (p s : string) :
  String.prefix p s = true <-> exists post, s = String.append p post.
Proof.
  revert s. induction p as [|c p IH]; intros s.
  - split; [intros _; exists s; symmetry; apply append_EmptyString|].
    intros _. destruct s; reflexivity.
  - destruct s as [|d s]; cbn [String.prefix].
    + split; [discriminate|]. intros (post & H).
      rewrite append_String in H. discriminate.
    + destruct (ascii_dec c d) as [-> | Hne].
      * rewrite IH. split; intros (post & H); exists post.
        -- rewrite append_String. f_equal. exact H.
        -- rewrite append_String in H. injection H as ->. reflexivity.
      * split; [discriminate|]. intros (post & H).
        rewrite append_String in H. injection H as -> _. contradiction.
Qed.

(** [s.includes(sub)] holds exactly when [sub] occurs in [s]. *)
Lemma includes_spec (s sub : string) :
  includes s sub = true
  <-> exists pre post, s = String.append pre (String.append sub post).
Proof.
  induction s as [|c s IH]; cbn [includes].
  - destruct (String.prefix sub EmptyString) eqn:Hp.
    + split; [intros _|reflexivity].
      apply prefix_spec in Hp as (post & H). exists EmptyString, post.
      rewrite append_EmptyString. exact H.
    + split; [discriminate|]. intros (pre & post & H).
      destruct pre as [|c pre]; [| rewrite append_String in H; discriminate].
      rewrite append_EmptyString in H.
      assert (String.prefix sub EmptyString = true)
        by (apply prefix_spec; eauto).
      congruence.
  - destruct (String.prefix sub (String c s)) eqn:Hp.
    + split; [intros _|reflexivity].
      apply prefix_spec in Hp as (post & H). exists EmptyString, post.
      rewrite append_EmptyString. exact H.
    + rewrite IH. split.
      * intros (pre & post & ->). exists (String c pre), post.
        rewrite append_String. reflexivity.
      * intros (pre & post & H). destruct pre as [|c' pre].
        -- rewrite append_EmptyString in H.
           assert (String.prefix sub (String c s) = true)
             by (apply prefix_spec; eauto).
           congruence.
        -- rewrite append_String in H. injection H as -> ->. eauto.
Qed.

Lemma trimEnd_blank (s : string) :
  trimEnd s = EmptyString
  <-> forall c, In c (list_ascii_of_string s) -> is_white_space c = true.
Proof.
  induction s as [|c s IH]; cbn [trimEnd list_ascii_of_string].
  - split; [intros _ c [] | reflexivity].
  - destruct (is_white_space c) eqn:Hc; cbn [andb].
    + destruct (String.eqb_spec (trimEnd s) EmptyString) as [He | Hne].
      * split; [| reflexivity]. intros _ c' [<- | Hin]; [exact Hc|].
        apply IH; assumption.
      * split; [discriminate|]. intros H. exfalso. apply Hne, IH.
        intros c' Hin. apply H. right. exact Hin.
    + split; [discriminate|]. intros H.
      rewrite (H c (or_introl eq_refl)) in Hc. discriminate.
Qed.

(** [s.trim()] is empty exactly when [s] holds white space only. *)
Lemma trim_blank (s : string) :
  trim s = EmptyString
  <-> forall c, In c (list_ascii_of_string s) -> is_white_space c = true.
Proof.
  unfold trim. rewrite trimEnd_blank.
  induction s as [|c s IH]; cbn [skip_white_space list_ascii_of_string].
  - reflexivity.
  - destruct (is_white_space c) eqn:Hc.
    + rewrite IH. split.
      * intros H c' [<- | Hin]; [exact Hc | apply H; exact Hin].
      * intros H c' Hin. apply H. right. exact Hin.
    + cbn [list_ascii_of_string]. reflexivity.
Qed.

(** ** The chat endpoint *)


Section ChatEndpoint.

Context {Item : Type} (item_date : Item -> option string).

(** The paths of the chat endpoint's handler. *)
Lemma ask_gemini_cases (env : AskGemini.Env) (currentDate : string)
    (event : AskGemini.Event Item) :
  let r := AskGemini.handler item_date env currentDate event in
  (AskGemini.is_POST (AskGemini.httpMethod event) = false
   /\ r = AskGemini.Respond
            (AskGemini.error_response 405
               "Method Not Allowed. Please use POST."))
  \/ (chat_guards_pass env event = false
      /\ AskGemini.is_POST (AskGemini.httpMethod event) = true
      /\ r = AskGemini.Respond
               (AskGemini.error_response 500
                  "AI service is not configured. Missing API key."))
  \/ (chat_guards_pass env event = true
      /\ request_malformed (AskGemini.body event) = true
      /\ exists m, r = AskGemini.Respond (AskGemini.error_response 400 m))
  \/ (chat_guards_pass env event = true
      /\ request_malformed (AskGemini.body event) = false
      /\ exists e, r = AskGemini.Respond (AskGemini.catch_block e))
  \/ (chat_guards_pass env event = true
      /\ request_malformed (AskGemini.body event) = false
      /\ exists request k,
           r = AskGemini.AwaitSendMessage request k
           /\ forall outcome,
                k outcome
                = match outcome with
                  | Fulfilled (Some (Some text)) =>
                      {| AskGemini.statusCode := 200;
                         AskGemini.body_of := AskGemini.Reply text |}
                  | Fulfilled _ =>
                      AskGemini.catch_block
                        "AI model returned an invalid response format."
                  | Rejected message => AskGemini.catch_block message
                  end).
Proof.
  intros r. subst r. unfold AskGemini.handler, chat_guards_pass.
  destruct (AskGemini.is_POST (AskGemini.httpMethod event)); cbn [negb andb];
    [| left; auto].
  right.
  destruct (falsy (AskGemini.GEMINI_API_KEY env)); cbn [negb];
    [left; auto|].
  right.
  destruct (AskGemini.body event) as [| typeError | requestBody];
    cbn [request_malformed].
  - left. eauto.
  - right. left. eauto.
  - destruct (AskGemini.userQuery requestBody) as [q|]; cbn [falsy];
      [| left; eauto].
    assert (Hq : String.eqb q EmptyString || String.eqb (trim q) EmptyString
                 = String.eqb (trim q) EmptyString).
    { destruct (String.eqb_spec q EmptyString) as [-> |]; reflexivity. }
    rewrite Hq. clear Hq.
    destruct (String.eqb (trim q) EmptyString); cbn [orb]; [left; eauto|].
    destruct (AskGemini.marketingData requestBody) as [md|]; [| left; eauto].
    destruct (AskGemini.history requestBody) as [| items | typeError].
    + right. right. split; [reflexivity|]. split; [reflexivity|].
      eexists _, _. split; [reflexivity|]. intros outcome. reflexivity.
    + right. right. split; [reflexivity|]. split; [reflexivity|].
      eexists _, _. split; [reflexivity|]. intros outcome. reflexivity.
    + right. left. eauto.
Qed.


End ChatEndpoint.

(** X19.  What the chat endpoint answers once the model has been asked: the
    model's text with status 200; status 500 and a fixed message when the
    result has no text; and for a rejection, by the first that applies: 401
    with a fixed message when the reason mentions "api key not valid"; 429
    with a fixed message when it mentions "quota"; 500 with the same fixed
    message as for a result without text when it mentions "invalid response
    format" (all three in any letter case, and none repeating the reason);
    500 with a default message when the reason is empty; and otherwise 500
    with the reason itself as the message. *)
Theorem ask_gemini_error_mapping {Item : Type}
    (item_date : Item -> option string) (env : AskGemini.Env)
    (currentDate : string) (event : AskGemini.Event Item) request k :
  AskGemini.handler item_date env currentDate event
  = AskGemini.AwaitSendMessage request k ->
  (forall text,
     k (Fulfilled (Some (Some text)))
     = {| AskGemini.statusCode := 200;
          AskGemini.body_of := AskGemini.Reply text |})
  /\ (k (Fulfilled None) = k (Fulfilled (Some None))
      /\ k (Fulfilled None)
         = AskGemini.error_response 500
             "The AI model returned an unexpected response. Please try again.")
  /\ (forall message,
        k (Rejected message)
        = if includes (toLowerCase message) "api key not valid" then
            AskGemini.error_response 401
              "AI service authentication failed: Invalid API key."
          else if includes (toLowerCase message) "quota" then
            AskGemini.error_response 429
              "AI service quota exceeded. Please try again later."
          else if includes (toLowerCase message) "invalid response format"
          then
            AskGemini.error_response 500
              "The AI model returned an unexpected response. Please try again."
          else if String.eqb message EmptyString then
            AskGemini.error_response 500
              "An error occurred while communicating with the AI model."
          else AskGemini.error_response 500 message)
  /\ (forall m m',
        toLowerCase m = toLowerCase m' ->
        AskGemini.statusCode (k (Rejected m))
        = AskGemini.statusCode (k (Rejected m'))).
Proof.
  intros Hh.
  destruct (ask_gemini_cases item_date env currentDate event)
    as [(_ & Hr) | [(_ & _ & Hr) | [(_ & _ & m & Hr) | [(_ & _ & e & Hr)
       | (_ & _ & request' & k' & Hr & Hk)]]]];
    cbv zeta in Hr; rewrite Hh in Hr; try discriminate.
  injection Hr as <- <-.
  assert (Hcatch : forall message,
            AskGemini.catch_block message
            = if includes (toLowerCase message) "api key not valid" then
                AskGemini.error_response 401
                  "AI service authentication failed: Invalid API key."
              else if includes (toLowerCase message) "quota" then
                AskGemini.error_response 429
                  "AI service quota exceeded. Please try again later."
              else if includes (toLowerCase message) "invalid response format"
              then
                AskGemini.error_response 500
                  "The AI model returned an unexpected response. Please try again."
              else if String.eqb message EmptyString then
                AskGemini.error_response 500
                  "An error occurred while communicating with the AI model."
              else AskGemini.error_response 500 message).
  { intros message. unfold AskGemini.catch_block. cbn [falsy].
    destruct (String.eqb_spec message EmptyString) as [-> | Hne];
      [reflexivity|].
    cbn [negb].
    destruct (includes (toLowerCase message) "api key not valid");
      [reflexivity|].
    destruct (includes (toLowerCase message) "quota"); [reflexivity|].
    destruct (includes (toLowerCase message) "invalid response format");
      reflexivity. }
  split; [intros text; apply Hk|].
  split; [split; [rewrite !Hk; reflexivity | rewrite Hk; reflexivity]|].
  split; [intros message; rewrite Hk; apply Hcatch|].
  intros m m' Hl. rewrite !Hk, !Hcatch, Hl.
  destruct (includes (toLowerCase m') "api key not valid"); [reflexivity|].
  destruct (includes (toLowerCase m') "quota"); [reflexivity|].
  destruct (includes (toLowerCase m') "invalid response format");
    [reflexivity|].
  destruct (String.eqb m EmptyString), (String.eqb m' EmptyString);
    reflexivity.
Qed.

Lemma ask_gemini_error_mapping_witness :
  AskGemini.run (fun _ => Rejected "Resource exhausted: QUOTA exceeded")
    (AskGemini.handler entry_date gemini_env "April 1, 2024"
       (post_body (Some "How is the CPA?") (Some []) AskGemini.HistoryUndefined))
  = AskGemini.error_response 429
      "AI service quota exceeded. Please try again later.".
Proof.
  destruct (AskGemini.handler entry_date gemini_env "April 1, 2024"
              (post_body (Some "How is the CPA?") (Some [])
                 AskGemini.HistoryUndefined))
    as [resp | request k] eqn:E; [discriminate E|].
  cbn [AskGemini.run].
  destruct (ask_gemini_error_mapping entry_date gemini_env "April 1, 2024"
              (post_body (Some "How is the CPA?") (Some [])
                 AskGemini.HistoryUndefined) request k E)
    as (_ & _ & H & _).
  rewrite H. reflexivity.
Defined.

Lemma valid_message_inv (msg : option AskGemini.HistoryMessage) :
  AskGemini.valid_message msg = true ->
  exists m t s,
    msg = Some m /\ AskGemini.text m = Some t /\ AskGemini.sender m = Some s
    /\ trim t <> EmptyString /\ AskGemini.isLoading m = false.
Proof.
  destruct msg as [m|]; [| discriminate]. cbn.
  destruct (AskGemini.text m) as [t|] eqn:Ht; [| discriminate].
  destruct (AskGemini.sender m) as [s|] eqn:Hs; [| discriminate].
  intros H. apply andb_prop in H as [H1 H2].
  exists m, t, s. split; [reflexivity|]. split; [exact Ht|].
  split; [exact Hs|]. split.
  - apply negb_true_iff, String.eqb_neq in H1. exact H1.
  - apply negb_true_iff in H2. exact H2.
Qed.

(** X20.  The chat history that reaches the model holds one turn for each
    element of [history] that has a non-blank [text] string and a [sender]
    string and is not loading, and nothing else; the turn carries the text
    unchanged, with the role [user] exactly for the sender "user"; turns
    keep the order of the elements. *)
Theorem validHistory_contents (items : list (option AskGemini.HistoryMessage)) :
  (length (AskGemini.validHistory items) <= length items)%nat
  /\ (forall c,
        c ∈ AskGemini.validHistory items
        <-> exists m t s,
              Some m ∈ items
              /\ AskGemini.text m = Some t /\ AskGemini.sender m = Some s
              /\ trim t <> EmptyString /\ AskGemini.isLoading m = false
              /\ c = {| AskGemini.role :=
                          if String.eqb s "user" then AskGemini.user
                          else AskGemini.model;
                        AskGemini.parts := [t] |})
  /\ (forall more,
        AskGemini.validHistory (items ++ more)
        = AskGemini.validHistory items ++ AskGemini.validHistory more).
Proof.
  unfold AskGemini.validHistory. split; [|split].
  - rewrite length_map. induction items as [|x items IH]; [cbn; lia|].
    cbn [omap list_omap length].
    destruct (AskGemini.valid_message x); [destruct x|]; cbn [length]; lia.
  - intros c. rewrite list_elem_of_fmap. split.
    + intros (m & -> & Hm). apply list_elem_of_omap in Hm as (x & Hx & Hv).
      destruct (AskGemini.valid_message x) eqn:Hval; [| discriminate].
      subst x. apply valid_message_inv in Hval
        as (m' & t & s & [= <-] & Ht & Hs & Hne & Hl).
      exists m, t, s. repeat (split; [assumption|]).
      unfold AskGemini.to_content. rewrite Ht, Hs. reflexivity.
    + intros (m & t & s & Hin & Ht & Hs & Hne & Hl & ->).
      exists m. split.
      * unfold AskGemini.to_content. rewrite Ht, Hs. reflexivity.
      * apply list_elem_of_omap. exists (Some m). split; [assumption|].
        cbn. rewrite Ht, Hs, Hl.
        rewrite (proj2 (String.eqb_neq _ _) Hne). reflexivity.
  - intros more. rewrite omap_app, List.map_app. reflexivity.
Qed.

Lemma day_string_not_empty (d : Z) :
  is_calendar_day d -> day_string d <> EmptyString.
Proof.
  intros Hd He. pose proof (day_string_length d Hd) as Hl.
  rewrite He in Hl. discriminate.
Qed.

Lemma or_else_some (s b : string) : s <> EmptyString -> or_else (Some s) b = s.
Proof.
  intros Hne. unfold or_else.
  rewrite (proj2 (String.eqb_neq _ _) Hne). reflexivity.
Qed.

(** X21.  Backend and chat together, in a host zone of fixed UTC offset
    and with both clock readings of the live-data handler equal: when the
    handler's table is passed to the chat endpoint as [marketingData], the
    prompt states the period from the first day of the look-back range to
    today (UTC), and carries the table unchanged. *)
Theorem chat_prompt_names_table_period (fuel : nat) (tz : HostZone)
    (env : Env) (now : Z) (event : Event)
    (upFb : Fb.Request -> Settled (HttpResponse Fb.Body))
    (upTt : Tt.Request -> Settled (HttpResponse Tt.Body)) :
  fixed_offset tz -> credentials_present env = true ->
  is_get_request event = true -> clock_in_range now -> (365 < fuel)%nat ->
  exists table,
    is_table_response (run upFb upTt (handler fuel tz env now now event)) table
    /\ AskGemini.dataContextString entry_date table
       = AskGemini.DataForPeriod
           (day_string (Day now - (daysToFetch event - 1)))
           (formatDate now) table.
Proof.
  intros Hz Hc Hg Hn Hf.
  eexists. split; [now apply run_fixed_zone|].
  pose proof (clock_day_range now Hn) as Hday.
  set (fbData := value_or_empty _). set (ttData := value_or_empty _).
  set (a := Day now - (daysToFetch event - 1)).
  set (n := Z.to_nat (daysToFetch event)).
  assert (Hn' : Z.of_nat n = daysToFetch event).
  { unfold n. destruct (daysToFetch_cases event) as [-> | ->]; reflexivity. }
  assert (Hpos : (0 < n)%nat).
  { destruct (daysToFetch_cases event) as [E | E]; rewrite E in Hn'; lia. }
  assert (Hcal : forall d, a <= d <= Day now -> is_calendar_day d).
  { intros d Hd. apply is_calendar_day_range. unfold a in Hd.
    destruct (daysToFetch_cases event) as [E | E]; rewrite E in *; lia. }
  assert (Hsplit : days_from a n
                   = a :: days_from (a + 1) (Nat.pred n)).
  { replace n with (S (Nat.pred n)) at 1 by lia. apply days_from_S. }
  assert (Hlast : days_from a n = days_from a (Nat.pred n) ++ [Day now]).
  { replace n with (Nat.pred n + 1)%nat at 1 by lia.
    rewrite days_from_app. f_equal. unfold days_from. cbn [seq map].
    f_equal. unfold a. lia. }
  unfold AskGemini.dataContextString.
  rewrite length_rev, !length_map, days_from_length.
  replace (0 <? Z.of_nat n) with true by (symmetry; apply Z.ltb_lt; lia).
  f_equal.
  - rewrite <- reverse_rev, last_reverse, Hsplit. cbn [map head mbind option_bind].
    unfold entry_date. rewrite dailyRecord_date.
    apply or_else_some, day_string_not_empty, Hcal. lia.
  - rewrite <- reverse_rev, head_reverse, Hlast, !List.map_app. cbn [map].
    rewrite last_snoc. cbn [mbind option_bind].
    unfold entry_date. rewrite dailyRecord_date, formatDate_day.
    apply or_else_some, day_string_not_empty, Hcal. lia.
Qed.

Lemma chat_prompt_names_table_period_witness :
  exists table,
    is_table_response
      (run fb_unreachable tt_unreachable
         (handler 366 utc_zone sample_env noon_2024_04_01 noon_2024_04_01
            (get_request (Some "90"))))
      table
    /\ AskGemini.dataContextString entry_date table
       = AskGemini.DataForPeriod "2024-01-03" "2024-04-01" table.
Proof.
  destruct (chat_prompt_names_table_period 366 utc_zone sample_env
              noon_2024_04_01 (get_request (Some "90")) fb_unreachable
              tt_unreachable)
    as (table & Ht & Hp).
  - exists 0. reflexivity.
  - reflexivity.
  - reflexivity.
  - unfold clock_in_range. vm_compute. split; [discriminate | reflexivity].
  - apply Nat.lt_succ_diag_r.
  - exists table. split; [exact Ht | exact Hp].
Defined.

(** ** The chat panel *)

Lemma filter_twice {A} (f g : A -> bool) (l : list A) :
  List.filter f (List.filter g l) = List.filter (fun x => g x && f x) l.
Proof.
  induction l as [|x l IH]; [reflexivity|].
  cbn [List.filter]. destruct (g x); cbn [andb List.filter];
    [destruct (f x); rewrite IH; reflexivity | exact IH].
Qed.

(** X22.  [historyForBackend] is the conversation without the messages
    that are still loading; in addition, while the panel holds exactly one
    assistant message, that message is left out when it starts with
    "Hello!".  So the first question is sent with an empty history, and
    once an answer has arrived the greeting is part of the history. *)
Theorem historyForBackend_contents (messages : list ChatAssistant.ChatMessage) :
  let aiMessages :=
    List.filter (fun m => ChatAssistant.is_ai (ChatAssistant.sender m))
                messages in
  let notLoading :=
    List.filter
      (fun m => negb (default false (ChatAssistant.isLoading m))) messages in
  (forall m, m ∈ ChatAssistant.historyForBackend messages ->
             m ∈ messages /\ default false (ChatAssistant.isLoading m) = false)
  /\ (length aiMessages <> 1%nat ->
      ChatAssistant.historyForBackend messages = notLoading)
  /\ (length aiMessages = 1%nat ->
      ChatAssistant.historyForBackend messages
      = List.filter
          (fun m => negb (ChatAssistant.is_ai (ChatAssistant.sender m)
                          && startsWith (ChatAssistant.text m) "Hello!"))
          notLoading)
  /\ ChatAssistant.historyForBackend [greeting] = []
  /\ forall q a i j,
       ChatAssistant.historyForBackend
         [greeting; user_message i q; ai_message j a]
       = [greeting; user_message i q; ai_message j a].
Proof.
  intros aiMessages notLoading. subst aiMessages notLoading.
  unfold ChatAssistant.historyForBackend.
  set (n := length (List.filter _ messages)).
  split; [|split; [|split; [|split]]].
  - intros m Hm. apply list_elem_of_In, List.filter_In in Hm as [Hin Hf].
    split; [apply list_elem_of_In; assumption|].
    destruct (_ && _ && _); [discriminate|].
    apply negb_true_iff in Hf. exact Hf.
  - intros Hn. apply List.filter_ext. intros m.
    replace (Z.of_nat n =? 1) with false
      by (symmetry; apply Z.eqb_neq; lia).
    rewrite andb_false_r. reflexivity.
  - intros Hn. rewrite Hn. cbn [Z.of_nat Pos.of_succ_nat Z.eqb Pos.eqb].
    rewrite filter_twice.
    apply List.filter_ext. intros m. rewrite andb_true_r.
    destruct (_ && _); cbn [negb]; [rewrite andb_false_r | rewrite andb_true_r];
      reflexivity.
  - reflexivity.
  - intros q a i j. reflexivity.
Qed.

Lemma trim_nonblank_falsy (input : string) :
  String.eqb (trim input) EmptyString = false -> falsy (Some input) = false.
Proof.
  cbn [falsy]. destruct (String.eqb_spec input EmptyString) as [-> | Hne];
    [intros H; discriminate H | reflexivity].
Qed.

(** X23.  Chat panel and chat endpoint together: a request that
    [sendMessage] posts, handed to the endpoint as a POST event with its
    parsed body, always passes the endpoint's validation (it is never
    answered 400).  With the API key set the model is asked, with the
    user's input as the question, the panel's table as the data, and one
    turn for every message of [historyForBackend] whose text is not blank,
    in order, with the role [user] for the user's messages and [model] for
    the assistant's. *)
Theorem chat_request_reaches_the_model (input : string)
    (isLoadingAiResponse : bool)
    (messages : list ChatAssistant.ChatMessage)
    (tableData : list ProcessedMarketingDataEntry)
    (req : ChatAssistant.RequestBody) (env : AskGemini.Env)
    (currentDate : string) :
  ChatAssistant.sendMessage_request input isLoadingAiResponse messages
    tableData = Some req ->
  falsy (AskGemini.GEMINI_API_KEY env) = false ->
  request_malformed (AskGemini.body (chat_event req)) = false
  /\ exists k,
       AskGemini.handler entry_date env currentDate (chat_event req)
       = AskGemini.AwaitSendMessage
           {| AskGemini.apiKey := template (AskGemini.GEMINI_API_KEY env);
              AskGemini.chat_model := AskGemini.GEMINI_MODEL_NAME;
              AskGemini.systemInstructionDate := currentDate;
              AskGemini.chat_history :=
                map (fun m =>
                       {| AskGemini.role :=
                            match ChatAssistant.sender m with
                            | ChatAssistant.user => AskGemini.user
                            | ChatAssistant.ai => AskGemini.model
                            end;
                          AskGemini.parts := [ChatAssistant.text m] |})
                    (List.filter
                       (fun m => negb (String.eqb (trim (ChatAssistant.text m))
                                                  EmptyString))
                       (ChatAssistant.historyForBackend messages));
              AskGemini.message :=
                {| AskGemini.dataContext :=
                     AskGemini.dataContextString entry_date tableData;
                   AskGemini.question := input |} |}
           k.
Proof.
  unfold ChatAssistant.sendMessage_request.
  destruct (String.eqb (trim input) EmptyString) eqn:Hblank;
    [discriminate|].
  destruct isLoadingAiResponse; [discriminate|]. cbn [orb].
  intros [= <-] Hkey.
  split.
  { unfold request_malformed, chat_event, json_of_request.
    cbn [AskGemini.body AskGemini.userQuery AskGemini.marketingData
         ChatAssistant.userQuery].
    rewrite Hblank. reflexivity. }
  unfold AskGemini.handler, chat_event, json_of_request.
  cbn [AskGemini.body AskGemini.userQuery AskGemini.marketingData
       AskGemini.history AskGemini.httpMethod AskGemini.is_POST
       ChatAssistant.userQuery ChatAssistant.marketingData
       ChatAssistant.history String.eqb Ascii.eqb Bool.eqb negb].
  rewrite Hkey.
  rewrite (trim_nonblank_falsy input Hblank), Hblank. cbn [orb template
    default from_option id].
  eexists. f_equal. f_equal.
  unfold AskGemini.validHistory.
  assert (Hloading : forall m,
            m ∈ ChatAssistant.historyForBackend messages ->
            default false (ChatAssistant.isLoading m) = false).
  { intros m Hm. unfold ChatAssistant.historyForBackend in Hm.
    apply list_elem_of_In, List.filter_In in Hm as [_ Hm].
    destruct (_ && _ && _); [discriminate|].
    apply negb_true_iff in Hm. exact Hm. }
  induction (ChatAssistant.historyForBackend messages) as [|m l IH];
    [reflexivity|].
  cbn [map omap list_omap List.filter].
  assert (Hm : default false (ChatAssistant.isLoading m) = false)
    by (apply Hloading; left).
  specialize (IH (fun x Hx => Hloading x ltac:(right; exact Hx))).
  set (jm := json_of_message m). unfold json_of_message in jm. subst jm.
  cbn [AskGemini.valid_message
    AskGemini.text AskGemini.sender AskGemini.isLoading].
  rewrite Hm. cbn [negb]. rewrite andb_true_r.
  destruct (negb (String.eqb (trim (ChatAssistant.text m)) EmptyString)).
  - cbn [map]. rewrite <- IH. f_equal.
    unfold AskGemini.to_content.
    cbn [AskGemini.text AskGemini.sender template default from_option id].
    destruct (ChatAssistant.sender m); reflexivity.
  - exact IH.
Qed.

Lemma chat_request_reaches_the_model_witness :
  exists k,
    AskGemini.handler entry_date gemini_env "April 1, 2024"
      (chat_event
         {| ChatAssistant.userQuery := "Which platform has the lower CPA?";
            ChatAssistant.history := [];
            ChatAssistant.marketingData := [] |})
    = AskGemini.AwaitSendMessage
        {| AskGemini.apiKey := "gemini-key";
           AskGemini.chat_model := "gemini-2.5-flash-preview-04-17";
           AskGemini.systemInstructionDate := "April 1, 2024";
           AskGemini.chat_history := [];
           AskGemini.message :=
             {| AskGemini.dataContext := AskGemini.NoDataProvided;
                AskGemini.question := "Which platform has the lower CPA?" |} |}
        k.
Proof.
  destruct (chat_request_reaches_the_model
              "Which platform has the lower CPA?" false [greeting] []
              {| ChatAssistant.userQuery := "Which platform has the lower CPA?";
                 ChatAssistant.history := [];
                 ChatAssistant.marketingData := [] |}
              gemini_env "April 1, 2024")
    as (_ & k & Hk).
  - reflexivity.
  - reflexivity.
  - exists k. exact Hk.
Defined.

(** ** The data table's sort *)

Section SortOrder.

Context {A : Type} (cmp : A -> A -> Z).

Lemma sort_insert_In (x y : A) (l : list A) :
  In y (sort_insert cmp x l) <-> y = x \/ In y l.
Proof.
  rewrite <- !list_elem_of_In, sort_insert_perm, !list_elem_of_In.
  cbn. intuition congruence.
Qed.

(** The sort orders its argument, for a comparator that is total and
    transitive. *)
Lemma array_sort_ordered (l : list A) :
  (forall x y, 0 < cmp x y -> cmp y x <= 0) ->
  (forall x y z, cmp x y <= 0 -> cmp y z <= 0 -> cmp x z <= 0) ->
  ForallOrdPairs (fun x y => cmp x y <= 0) (array_sort cmp l).
Proof.
  intros Htotal Htrans.
  assert (Hins : forall x s,
            ForallOrdPairs (fun a b => cmp a b <= 0) s ->
            ForallOrdPairs (fun a b => cmp a b <= 0) (sort_insert cmp x s)).
  { intros x s Hs. induction Hs as [|y s Hy Hs IH]; cbn [sort_insert].
    - constructor; constructor.
    - destruct (Z.leb_spec (cmp x y) 0) as [Hle | Hgt].
      + constructor; [| constructor; assumption].
        constructor; [assumption|].
        eapply List.Forall_impl; [| exact Hy].
        intros z Hz. exact (Htrans x y z Hle Hz).
      + constructor; [| exact IH].
        apply List.Forall_forall. intros z Hz.
        apply sort_insert_In in Hz as [-> | Hz].
        * apply Htotal. assumption.
        * revert z Hz. apply List.Forall_forall. exact Hy. }
  induction l as [|x l IH]; [constructor|].
  cbn [array_sort fold_right]. fold (array_sort cmp l). apply Hins, IH.
Qed.

(** The sort is stable: the elements of a class whose members compare
    equal keep their order. *)
Lemma array_sort_stable (P : A -> bool) (l : list A) :
  (forall x y, P x = true -> P y = true -> cmp x y <= 0) ->
  List.filter P (array_sort cmp l) = List.filter P l.
Proof.
  intros Hclass.
  assert (Hins : forall x s,
            List.filter P (sort_insert cmp x s) = List.filter P (x :: s)).
  { intros x s. induction s as [|y s IH]; [reflexivity|].
    cbn [sort_insert]. destruct (Z.leb_spec (cmp x y) 0) as [Hle | Hgt];
      [reflexivity|].
    cbn [List.filter] in *. rewrite IH.
    destruct (P x) eqn:Hx, (P y) eqn:Hy; try reflexivity.
    pose proof (Hclass x y Hx Hy). lia. }
  induction l as [|x l IH]; [reflexivity|].
  cbn [array_sort fold_right]. fold (array_sort cmp l).
  rewrite Hins. cbn [List.filter]. rewrite IH. reflexivity.
Qed.

(** A list that is in order already is left as it is. *)
Lemma array_sort_keeps_ordered (l : list A) :
  ForallOrdPairs (fun x y => cmp x y <= 0) l -> array_sort cmp l = l.
Proof.
  induction 1 as [|x l Hx _ IH]; [reflexivity|].
  cbn [array_sort fold_right]. fold (array_sort cmp l). rewrite IH.
  destruct l as [|y l]; [reflexivity|]. cbn [sort_insert].
  apply Forall_cons in Hx as [Hy _].
  destruct (Z.leb_spec (cmp x y) 0); [reflexivity | lia].
Qed.

End SortOrder.

Lemma ForallOrdPairs_lookup {A} (R : A -> A -> Prop) (l : list A) :
  ForallOrdPairs R l -> ordered_by R l.
Proof.
  unfold ordered_by. induction 1 as [|a l Ha _ IH]; intros i j x y Hij Hi Hj;
    [discriminate|].
  destruct j as [|j]; [lia|]. cbn in Hj.
  destruct i as [|i].
  - injection Hi as <-. rewrite List.Forall_forall in Ha. apply Ha.
    apply list_elem_of_In. eapply list_elem_of_lookup_2. exact Hj.
  - cbn in Hi. apply (IH i j x y); [lia | assumption | assumption].
Qed.

Lemma ForallOrdPairs_snoc {A} (R : A -> A -> Prop) (l : list A) (x : A) :
  ForallOrdPairs R l -> Forall (fun y => R y x) l ->
  ForallOrdPairs R (l ++ [x]).
Proof.
  induction 1 as [|a l Ha Hl IH]; intros Hx; cbn [app].
  - constructor; constructor.
  - apply Forall_cons in Hx as [Hax Hx]. constructor; [| apply IH, Hx].
    apply Forall_app. split; [exact Ha | constructor; [exact Hax | constructor]].
Qed.

Lemma ForallOrdPairs_rev {A} (R : A -> A -> Prop) (l : list A) :
  ForallOrdPairs R l -> ForallOrdPairs (fun x y => R y x) (rev l).
Proof.
  induction 1 as [|a l Ha _ IH]; cbn [rev]; [constructor|].
  apply ForallOrdPairs_snoc; [exact IH|].
  apply List.Forall_forall. intros y Hy. apply List.in_rev in Hy.
  revert y Hy. apply List.Forall_forall. exact Ha.
Qed.

Lemma date_compare_le (d : DataTable.Direction)
    (a b : ProcessedMarketingDataEntry) :
  DataTable.compare {| DataTable.key := DataTable.date_key;
                       DataTable.direction := d |} a b <= 0
  <-> match d with
      | DataTable.ascending => time_le (entry_time a) (entry_time b)
      | DataTable.descending => time_le (entry_time b) (entry_time a)
      end.
Proof.
  unfold DataTable.compare, entry_time, time_le. cbn.
  destruct (Date_parse (date (raw a))) as [ta|],
    (Date_parse (date (raw b))) as [tb|], d; try (split; [auto | lia]);
    try (split; [lia | tauto]).
  all: destruct (Z.ltb_spec ta tb); [lia|];
    destruct (Z.gtb_spec ta tb); lia.
Qed.

Lemma time_le_total (a b : option Z) : time_le a b \/ time_le b a.
Proof. destruct a, b; cbn; auto; lia. Qed.

Lemma time_le_trans (a b c : option Z) :
  time_le a b -> time_le b c -> time_le a c.
Proof. destruct a, b, c; cbn; auto; try lia; tauto. Qed.

(** X24.  Sorting the data table never loses, repeats or alters a row: for
    every column and direction the sorted rows are a rearrangement of the
    rows given, and without a sort configuration they are the rows given. *)
Theorem sortedData_rearranges (data : list ProcessedMarketingDataEntry)
    (sortConfig : option DataTable.SortConfig) :
  DataTable.sortedData data sortConfig ≡ₚ data
  /\ length (DataTable.sortedData data sortConfig) = length data
  /\ (forall r, r ∈ DataTable.sortedData data sortConfig <-> r ∈ data)
  /\ DataTable.sortedData data None = data.
Proof.
  assert (Hp : DataTable.sortedData data sortConfig ≡ₚ data).
  { unfold DataTable.sortedData. destruct sortConfig as [c|];
      [apply array_sort_perm | reflexivity]. }
  split; [exact Hp|]. split; [rewrite Hp; reflexivity|].
  split; [intros r; rewrite Hp; reflexivity | reflexivity].
Qed.

(** X25.  Sorting by the date column orders any rows by the time value of
    their dates, oldest first when ascending and newest first when
    descending; rows whose date is not a valid date come first when
    ascending and last when descending; and rows of the same date keep the
    order they had. *)
Theorem date_sort_orders_rows (data : list ProcessedMarketingDataEntry) :
  ordered_by (fun x y => time_le (entry_time x) (entry_time y))
             (DataTable.sortedData data (by_date DataTable.ascending))
  /\ ordered_by (fun x y => time_le (entry_time y) (entry_time x))
                (DataTable.sortedData data (by_date DataTable.descending))
  /\ forall d t,
       List.filter (same_time t) (DataTable.sortedData data (by_date d))
       = List.filter (same_time t) data.
Proof.
  unfold DataTable.sortedData, by_date.
  assert (Hord : forall d,
            ForallOrdPairs
              (fun x y =>
                 DataTable.compare {| DataTable.key := DataTable.date_key;
                                      DataTable.direction := d |} x y <= 0)
              (array_sort
                 (DataTable.compare {| DataTable.key := DataTable.date_key;
                                       DataTable.direction := d |}) data)).
  { intros d. apply array_sort_ordered.
    - intros x y Hxy. apply date_compare_le.
      assert (Hn : ~ DataTable.compare
                       {| DataTable.key := DataTable.date_key;
                          DataTable.direction := d |} x y <= 0) by lia.
      rewrite date_compare_le in Hn.
      destruct d; destruct (time_le_total (entry_time x) (entry_time y));
        tauto.
    - intros x y z. rewrite !date_compare_le.
      destruct d; [apply time_le_trans|].
      intros H1 H2. exact (time_le_trans _ _ _ H2 H1). }
  split; [|split].
  - apply ForallOrdPairs_lookup.
    eapply ForallOrdPairs_impl_in; [| apply (Hord DataTable.ascending)].
    intros x y _ _ H. apply (date_compare_le DataTable.ascending). exact H.
  - apply ForallOrdPairs_lookup.
    eapply ForallOrdPairs_impl_in; [| apply (Hord DataTable.descending)].
    intros x y _ _ H. apply (date_compare_le DataTable.descending). exact H.
  - intros d t. apply array_sort_stable.
    intros x y Hx Hy. apply date_compare_le.
    unfold same_time in Hx, Hy.
    destruct (entry_time x) as [tx|], (entry_time y) as [ty|], t as [t|];
      try discriminate; destruct d; cbn; auto;
      apply Z.eqb_eq in Hx, Hy; lia.
Qed.

Lemma table_of_days_descending (fbData : gmap string Fb.Entry)
    (ttData : gmap string Tt.Entry) (a : Z) (n : nat) :
  is_calendar_day a -> is_calendar_day (a + Z.of_nat n - 1) ->
  ForallOrdPairs
    (fun x y => exists tx ty,
       entry_time x = Some tx /\ entry_time y = Some ty /\ ty < tx)
    (rev (map (dailyRecord fbData ttData) (map day_string (days_from a n)))).
Proof.
  intros Ha Hb.
  apply (ForallOrdPairs_rev
           (fun x y => exists tx ty,
              entry_time y = Some tx /\ entry_time x = Some ty /\ ty < tx)).
  rewrite map_map. apply ForallOrdPairs_map.
  eapply ForallOrdPairs_impl_in; [| apply days_from_ordered].
  intros x y Hx Hy Hlt. cbv beta.
  apply list_elem_of_In, elem_of_days_from in Hx, Hy.
  apply calendar_day_bounds in Ha, Hb.
  exists (y * msPerDay), (x * msPerDay). unfold entry_time.
  rewrite !dailyRecord_date.
  rewrite !Date_parse_date_only
    by (apply is_calendar_day_range; lia).
  split; [reflexivity|]. split; [reflexivity|]. unfold msPerDay. lia.
Qed.

(** X26.  Backend and data table together, in a host zone of fixed UTC
    offset: the table arrives in the order of the initial sort (date,
    descending), so the first rendering shows it as it is, newest day
    first; a click on the Date header switches to ascending and shows it
    reversed, oldest day first, and a second click restores it. *)
Theorem table_default_view_is_backend_order (fuel : nat) (tz : HostZone)
    (env : Env) (now : Z) (event : Event)
    (upFb : Fb.Request -> Settled (HttpResponse Fb.Body))
    (upTt : Tt.Request -> Settled (HttpResponse Tt.Body)) :
  fixed_offset tz -> credentials_present env = true ->
  is_get_request event = true -> clock_in_range now -> (365 < fuel)%nat ->
  exists table,
    is_table_response (run upFb upTt (handler fuel tz env now now event)) table
    /\ DataTable.sortedData table DataTable.initial_sortConfig = table
    /\ (let clicked :=
          DataTable.requestSort DataTable.initial_sortConfig
            DataTable.date_key in
        clicked = by_date DataTable.ascending
        /\ DataTable.sortedData table clicked = rev table
        /\ DataTable.requestSort clicked DataTable.date_key
           = DataTable.initial_sortConfig).
Proof.
  intros Hz Hc Hg Hn Hf.
  eexists. split; [now apply run_fixed_zone|].
  pose proof (clock_day_range now Hn) as Hday.
  set (fbData := value_or_empty _). set (ttData := value_or_empty _).
  set (a := Day now - (daysToFetch event - 1)).
  set (n := Z.to_nat (daysToFetch event)).
  assert (Hn' : Z.of_nat n = daysToFetch event).
  { unfold n. destruct (daysToFetch_cases event) as [-> | ->]; reflexivity. }
  assert (Hdesc : ForallOrdPairs
            (fun x y => exists tx ty,
               entry_time x = Some tx /\ entry_time y = Some ty /\ ty < tx)
            (rev (map (dailyRecord fbData ttData)
                    (map day_string (days_from a n))))).
  { apply table_of_days_descending; apply is_calendar_day_range; unfold a;
      destruct (daysToFetch_cases event) as [E | E]; rewrite E in *; lia. }
  split; [|split; [reflexivity | split; [| reflexivity]]].
  - unfold DataTable.sortedData, DataTable.initial_sortConfig.
    apply array_sort_keeps_ordered.
    eapply ForallOrdPairs_impl_in; [| exact Hdesc].
    intros x y _ _ (tx & ty & Hx & Hy & Hlt). cbv beta.
    apply (date_compare_le DataTable.descending).
    rewrite Hx, Hy. cbn. lia.
  - match goal with
    | |- DataTable.sortedData ?T _ = _ =>
        change (array_sort
                  (DataTable.compare
                     {| DataTable.key := DataTable.date_key;
                        DataTable.direction := DataTable.ascending |}) T
                = rev T)
    end.
    apply array_sort_reverses.
    eapply ForallOrdPairs_impl_in; [| exact Hdesc].
    intros x y _ _ (tx & ty & Hx & Hy & Hlt). cbv beta.
    assert (Hnle : ~ DataTable.compare
                       {| DataTable.key := DataTable.date_key;
                          DataTable.direction := DataTable.ascending |} x y
                     <= 0); [| lia].
    rewrite (date_compare_le DataTable.ascending), Hx, Hy. cbn. lia.
Qed.

Lemma table_default_view_is_backend_order_witness :
  exists table,
    is_table_response
      (run fb_unreachable tt_unreachable
         (handler 366 utc_zone sample_env noon_2024_04_01 noon_2024_04_01
            (get_request (Some "90"))))
      table
    /\ DataTable.sortedData table DataTable.initial_sortConfig = table.
Proof.
  destruct (table_default_view_is_backend_order 366 utc_zone sample_env
              noon_2024_04_01 (get_request (Some "90")) fb_unreachable
              tt_unreachable)
    as (table & Ht & Hs & _).
  - exists 0. reflexivity.
  - reflexivity.
  - reflexivity.
  - unfold clock_in_range. vm_compute. split; [discriminate | reflexivity].
  - apply Nat.lt_succ_diag_r.
  - exists table. split; [exact Ht | exact Hs].
Defined.

Lemma key_eqb_refl (k : DataTable.SortableKeys) : DataTable.key_eqb k k = true.
Proof. destruct k; reflexivity. Qed.

(** X27.  A click on a column header sorts by that column: ascending,
    unless the table was sorted by that column ascending already, in which
    case descending.  So repeated clicks on one header alternate between
    the two directions, and the first click on another column is always
    ascending. *)
Theorem requestSort_toggles (sortConfig : option DataTable.SortConfig)
    (k : DataTable.SortableKeys) :
  let once := DataTable.requestSort sortConfig k in
  let twice := DataTable.requestSort once k in
  (exists d, once = Some {| DataTable.key := k; DataTable.direction := d |})
  /\ (once = Some {| DataTable.key := k;
                     DataTable.direction := DataTable.descending |}
      <-> sortConfig = Some {| DataTable.key := k;
                               DataTable.direction := DataTable.ascending |})
  /\ (twice = Some {| DataTable.key := k;
                      DataTable.direction := DataTable.descending |}
      <-> once = Some {| DataTable.key := k;
                         DataTable.direction := DataTable.ascending |})
  /\ DataTable.requestSort twice k = once
  /\ forall k',
       k' <> k ->
       DataTable.requestSort once k'
       = Some {| DataTable.key := k';
                 DataTable.direction := DataTable.ascending |}.
Proof.
  intros once twice. subst once twice. unfold DataTable.requestSort.
  assert (Hneq : forall a b, a <> b -> DataTable.key_eqb a b = false)
    by (intros a b; destruct a, b; intros H; try reflexivity; contradiction).
  assert (Heq : forall a b, DataTable.key_eqb a b = true -> a = b)
    by (intros a b; destruct a, b; intros H; try reflexivity; discriminate).
  destruct sortConfig as [[k0 [|]]|]; cbn [DataTable.key DataTable.direction].
  - destruct (DataTable.key_eqb k0 k) eqn:E; cbn [andb];
      rewrite ?key_eqb_refl; cbn [andb].
    + apply Heq in E. subst k0.
      split; [eauto|]. split; [tauto|]. split; [split; discriminate|].
      split; [reflexivity|].
      intros k' Hk'. rewrite (Hneq k k') by congruence. reflexivity.
    + split; [eauto|].
      split; [split; [discriminate | intros [= -> ]; rewrite key_eqb_refl in E;
                                     discriminate]|].
      split; [tauto|]. split; [reflexivity|].
      intros k' Hk'. rewrite (Hneq k k') by congruence. reflexivity.
  - rewrite andb_false_r, key_eqb_refl. cbn [andb].
    split; [eauto|]. split; [split; discriminate|]. split; [tauto|].
    split; [reflexivity|].
    intros k' Hk'. rewrite (Hneq k k') by congruence. reflexivity.
  - rewrite key_eqb_refl. cbn [andb].
    split; [eauto|]. split; [split; discriminate|]. split; [tauto|].
    split; [reflexivity|].
    intros k' Hk'. rewrite (Hneq k k') by congruence. reflexivity.
Qed.
